(** * Manim Studio front end: a shallow embedding of the UI coordinator

    The development follows the JavaScript sources of the desktop renderer
    (the PyWebView renderer script, [simple_assets.js], [new_features.js] and
    [script.js]).  Module-level variables of a script become the fields of a
    state record; every handler is a computation in a small state monad whose
    state carries a log of the observable actions (backend API calls, toast
    notifications, console messages).  Answers of the backend and user
    choices are inputs of the handlers: a handler that awaits a backend call
    takes the outcome of the call as an argument and is run to its end. *)

From Stdlib Require Import List String Ascii Bool NArith ZArith QArith Qround Lia.
From Stdlib Require Import DecimalString.
Import ListNotations.

Set Implicit Arguments.

(** ** JavaScript strings and the string built-ins the handlers use *)

Module Js.

(** A JavaScript string is a sequence of UTF-16 code units. *)
Definition jsstring := list N.

Definition lit (s : string) : jsstring :=
  map N_of_ascii (list_ascii_of_string s).

Fixpoint str_eqb (a b : jsstring) : bool :=
  match a, b with
  | [], [] => true
  | x :: a', y :: b' => N.eqb x y && str_eqb a' b'
  | _, _ => false
  end.

(** Truthiness of a string: only the empty string is falsy. *)
Definition truthy (s : jsstring) : bool :=
  match s with [] => false | _ :: _ => true end.

(** WhiteSpace and LineTerminator code points of ECMA-262, the characters
    [String.prototype.trim] strips and [parseInt] skips. *)
Definition isWhiteSpace (c : N) : bool :=
  (N.leb 9 c && N.leb c 13)
  || N.eqb c 32 || N.eqb c 160 || N.eqb c 5760
  || (N.leb 8192 c && N.leb c 8202)
  || N.eqb c 8232 || N.eqb c 8233 || N.eqb c 8239 || N.eqb c 8287
  || N.eqb c 12288 || N.eqb c 65279.

Fixpoint trimStart (s : jsstring) : jsstring :=
  match s with
  | [] => []
  | c :: t => if isWhiteSpace c then trimStart t else s
  end.

Definition trimEnd (s : jsstring) : jsstring := rev (trimStart (rev s)).

Definition trim (s : jsstring) : jsstring := trimEnd (trimStart s).

(** [s.startsWith(p)] *)
Fixpoint startsWith (p s : jsstring) : bool :=
  match p, s with
  | [], _ => true
  | x :: p', y :: s' => N.eqb x y && startsWith p' s'
  | _ :: _, [] => false
  end.

(** [s.includes(p)] *)
Fixpoint includes (p s : jsstring) : bool :=
  startsWith p s ||
  match s with
  | [] => false
  | _ :: s' => includes p s'
  end.

(** [s.split(sep).pop()] for a separator class [sep] of single code units:
    the part of [s] after the last separator, all of [s] when there is none. *)
Definition lastSegment (sep : N -> bool) (s : jsstring) : jsstring :=
  fold_left (fun acc c => if sep c then [] else acc ++ [c]) s [].

Definition isDot (c : N) : bool := N.eqb c 46.
Definition isSlash (c : N) : bool := N.eqb c 47 || N.eqb c 92.

(** [arr.includes(x)] on an array of strings. *)
Definition inArray (x : jsstring) (arr : list jsstring) : bool :=
  existsb (str_eqb x) arr.

(** Numbers.  The handlers only meet integers read from form fields; they are
    taken as exact integers ([None] is NaN). *)
Definition digitVal (c : N) : option Z :=
  if N.leb 48 c && N.leb c 57 then Some (Z.of_N c - 48)%Z else None.

Fixpoint digitsPrefix (s : jsstring) (acc : option Z) : option Z :=
  match s with
  | [] => acc
  | c :: t =>
      match digitVal c with
      | Some d =>
          digitsPrefix t (Some (10 * match acc with Some a => a | None => 0 end + d)%Z)
      | None => acc
      end
  end.

(** [parseInt(s, 10)]: leading white space is skipped, an optional sign is
    read, then the longest run of decimal digits; NaN when there is none. *)
Definition parseInt10 (s : jsstring) : option Z :=
  match trimStart s with
  | 45%N :: t => option_map Z.opp (digitsPrefix t None)
  | 43%N :: t => digitsPrefix t None
  | t => digitsPrefix t None
  end.

(** [x || d] on a number: NaN and 0 are falsy. *)
Definition orElse (x : option Z) (d : Z) : Z :=
  match x with
  | Some z => if Z.eqb z 0 then d else z
  | None => d
  end.

(** Decimal rendering of an integer inside a template literal. *)
Definition numToString (z : Z) : jsstring :=
  lit (NilZero.string_of_int (Z.to_int z)).

End Js.

(** ** The desktop renderer script *)

Module Renderer.
Import Js.

(** *** Data *)

(** [const job = { running: false, type: null }] *)
Record Job := { running : bool; type : option jsstring }.

(** The three states of the autosave indicator. *)
Inductive SaveStatus := saved | saving | unsaved.

(** The [#autosaveIndicator] element: its status class, the class of its icon
    and the text of [#autosaveStatus]. *)
Record Indicator := {
  ind_class : option SaveStatus;
  ind_icon : jsstring;
  ind_text : jsstring
}.

(** An entry of the list the backend returns from [list_media_files]. *)
Record Asset := { path : jsstring; name : jsstring; size : Z; mtime : Z }.

(** A card of the assets grid.  Its markup is built from the file and the
    position [index] it has among the shown files; the model keeps these and
    the kind of thumbnail. *)
Record Card := {
  card_index : nat;
  card_file : Asset;
  card_isVideo : bool;
  card_isImage : bool
}.

(** Content of [#assetsGrid]. *)
Inductive GridView :=
| EmptyState
| NoMatch
| Cards (cs : list Card).

(** The preview surface of the workspace tab. *)
Record Preview := {
  video_src : option jsstring;
  video_shown : bool;
  image_src : option jsstring;
  image_shown : bool;
  placeholder_shown : bool;
  filename_text : jsstring
}.

(** Backend entry points ([pywebview.api.*]) the modelled handlers call. *)
Inductive ApiCall :=
| render_animation (code quality : jsstring) (fps : Z)
| quick_preview (code quality : jsstring) (fps : Z)
| stop_render
| autosave_code (code : jsstring)
| get_asset_as_data_url (filePath : jsstring)
| save_rendered_file (sourcePath suggestedName : jsstring)
| list_media_files
| delete_asset (filePath : jsstring)
| get_terminal_output
| send_terminal_command (data : jsstring)
| resize_terminal (cols rows : Z).

(** Observable actions of a handler, in the order they happen. *)
Inductive Effect :=
| Api (c : ApiCall)
| Toast (message kind : jsstring)
| ConsoleError (tag : jsstring)
| ConsoleLog (tag : jsstring)
| Alert (message : jsstring)
| Confirm (message : jsstring)
| TermWrite (text : jsstring)
| TermScrollToBottom
| ClickWorkspaceTab.

(** What an awaited backend call produces: the resolved object (its
    [status] and [message] fields) or a rejection with the error's message. *)
Record Result := { status : jsstring; message : jsstring }.

Inductive Reply :=
| Resolved (res : Result)
| Rejected (errMessage : jsstring).

(** Closures handed to [setTimeout], one constructor per call site. *)
Inductive Callback :=
| cbSaveRenderedFile (outputPath suggestedName : jsstring)
| cbInitialSize
| cbSecondarySize
| cbObserverSettled
| cbWindowSettled.

(** The values of the form fields a start request reads. *)
Record Form := {
  qualitySelect : jsstring;
  fpsSelect : jsstring;
  customWidth : jsstring;
  customHeight : jsstring;
  customFps : jsstring
}.

(** Geometry of the terminal container at the time a callback measures it.
    Pixel measures are rationals; [cell] is the cell size of the widget's
    render service when it can be read, each side possibly missing. *)
Record Geometry := {
  rect_width : Q;
  rect_height : Q;
  cell : option (option Q * option Q)
}.

(** *** State: the script's variables, the page elements it writes, the
    pending timers and the log of observable actions.

    [editor] is the text of the Monaco instance ([None] while the variable
    is [null]); [term] the size of the xterm widget ([None] while [null]);
    [terminalPollInterval] tells whether the polling interval is set;
    [lastCols], [lastRows] and [resizeTimeout] are the variables the resize
    closures share; [timers] is the browser's table of pending timeouts and
    [nextTimer] the identifier the next [setTimeout] returns.  The element
    fields hold [None] when the element is absent from the page;
    [workspaceTab] tells whether the workspace tab pill exists. *)
Record State := {
  editor : option jsstring;
  isAppClosing : bool;
  job : Job;
  lastSavedCode : jsstring;
  hasUnsavedChanges : bool;
  allAssets : list Asset;
  currentFilter : jsstring;
  searchQuery : jsstring;
  term : option (Z * Z);
  terminalPollInterval : bool;
  lastCols : Z;
  lastRows : Z;
  resizeTimeout : option nat;
  timers : list (nat * Callback);
  nextTimer : nat;
  indicator : Indicator;
  terminalStatus : option (jsstring * jsstring);
  assetsGrid : option GridView;
  assetsCount : option jsstring;
  workspaceTab : bool;
  preview : Preview;
  log : list Effect
}.

(** Field updates. *)
Definition set_editor v s :=
  {| editor := v; isAppClosing := isAppClosing s; job := job s;
     lastSavedCode := lastSavedCode s;
     hasUnsavedChanges := hasUnsavedChanges s; allAssets := allAssets s;
     currentFilter := currentFilter s; searchQuery := searchQuery s;
     term := term s; terminalPollInterval := terminalPollInterval s;
     lastCols := lastCols s; lastRows := lastRows s;
     resizeTimeout := resizeTimeout s; timers := timers s;
     nextTimer := nextTimer s; indicator := indicator s;
     terminalStatus := terminalStatus s; assetsGrid := assetsGrid s;
     assetsCount := assetsCount s; workspaceTab := workspaceTab s;
     preview := preview s; log := log s |}.
Definition set_isAppClosing v s :=
  {| editor := editor s; isAppClosing := v; job := job s;
     lastSavedCode := lastSavedCode s;
     hasUnsavedChanges := hasUnsavedChanges s; allAssets := allAssets s;
     currentFilter := currentFilter s; searchQuery := searchQuery s;
     term := term s; terminalPollInterval := terminalPollInterval s;
     lastCols := lastCols s; lastRows := lastRows s;
     resizeTimeout := resizeTimeout s; timers := timers s;
     nextTimer := nextTimer s; indicator := indicator s;
     terminalStatus := terminalStatus s; assetsGrid := assetsGrid s;
     assetsCount := assetsCount s; workspaceTab := workspaceTab s;
     preview := preview s; log := log s |}.
Definition set_job v s :=
  {| editor := editor s; isAppClosing := isAppClosing s; job := v;
     lastSavedCode := lastSavedCode s;
     hasUnsavedChanges := hasUnsavedChanges s; allAssets := allAssets s;
     currentFilter := currentFilter s; searchQuery := searchQuery s;
     term := term s; terminalPollInterval := terminalPollInterval s;
     lastCols := lastCols s; lastRows := lastRows s;
     resizeTimeout := resizeTimeout s; timers := timers s;
     nextTimer := nextTimer s; indicator := indicator s;
     terminalStatus := terminalStatus s; assetsGrid := assetsGrid s;
     assetsCount := assetsCount s; workspaceTab := workspaceTab s;
     preview := preview s; log := log s |}.
Definition set_lastSavedCode v s :=
  {| editor := editor s; isAppClosing := isAppClosing s; job := job s;
     lastSavedCode := v; hasUnsavedChanges := hasUnsavedChanges s;
     allAssets := allAssets s; currentFilter := currentFilter s;
     searchQuery := searchQuery s; term := term s;
     terminalPollInterval := terminalPollInterval s; lastCols := lastCols s;
     lastRows := lastRows s; resizeTimeout := resizeTimeout s;
     timers := timers s; nextTimer := nextTimer s; indicator := indicator s;
     terminalStatus := terminalStatus s; assetsGrid := assetsGrid s;
     assetsCount := assetsCount s; workspaceTab := workspaceTab s;
     preview := preview s; log := log s |}.
Definition set_hasUnsavedChanges v s :=
  {| editor := editor s; isAppClosing := isAppClosing s; job := job s;
     lastSavedCode := lastSavedCode s; hasUnsavedChanges := v;
     allAssets := allAssets s; currentFilter := currentFilter s;
     searchQuery := searchQuery s; term := term s;
     terminalPollInterval := terminalPollInterval s; lastCols := lastCols s;
     lastRows := lastRows s; resizeTimeout := resizeTimeout s;
     timers := timers s; nextTimer := nextTimer s; indicator := indicator s;
     terminalStatus := terminalStatus s; assetsGrid := assetsGrid s;
     assetsCount := assetsCount s; workspaceTab := workspaceTab s;
     preview := preview s; log := log s |}.
Definition set_allAssets v s :=
  {| editor := editor s; isAppClosing := isAppClosing s; job := job s;
     lastSavedCode := lastSavedCode s;
     hasUnsavedChanges := hasUnsavedChanges s; allAssets := v;
     currentFilter := currentFilter s; searchQuery := searchQuery s;
     term := term s; terminalPollInterval := terminalPollInterval s;
     lastCols := lastCols s; lastRows := lastRows s;
     resizeTimeout := resizeTimeout s; timers := timers s;
     nextTimer := nextTimer s; indicator := indicator s;
     terminalStatus := terminalStatus s; assetsGrid := assetsGrid s;
     assetsCount := assetsCount s; workspaceTab := workspaceTab s;
     preview := preview s; log := log s |}.
Definition set_currentFilter v s :=
  {| editor := editor s; isAppClosing := isAppClosing s; job := job s;
     lastSavedCode := lastSavedCode s;
     hasUnsavedChanges := hasUnsavedChanges s; allAssets := allAssets s;
     currentFilter := v; searchQuery := searchQuery s; term := term s;
     terminalPollInterval := terminalPollInterval s; lastCols := lastCols s;
     lastRows := lastRows s; resizeTimeout := resizeTimeout s;
     timers := timers s; nextTimer := nextTimer s; indicator := indicator s;
     terminalStatus := terminalStatus s; assetsGrid := assetsGrid s;
     assetsCount := assetsCount s; workspaceTab := workspaceTab s;
     preview := preview s; log := log s |}.
Definition set_searchQuery v s :=
  {| editor := editor s; isAppClosing := isAppClosing s; job := job s;
     lastSavedCode := lastSavedCode s;
     hasUnsavedChanges := hasUnsavedChanges s; allAssets := allAssets s;
     currentFilter := currentFilter s; searchQuery := v; term := term s;
     terminalPollInterval := terminalPollInterval s; lastCols := lastCols s;
     lastRows := lastRows s; resizeTimeout := resizeTimeout s;
     timers := timers s; nextTimer := nextTimer s; indicator := indicator s;
     terminalStatus := terminalStatus s; assetsGrid := assetsGrid s;
     assetsCount := assetsCount s; workspaceTab := workspaceTab s;
     preview := preview s; log := log s |}.
Definition set_term v s :=
  {| editor := editor s; isAppClosing := isAppClosing s; job := job s;
     lastSavedCode := lastSavedCode s;
     hasUnsavedChanges := hasUnsavedChanges s; allAssets := allAssets s;
     currentFilter := currentFilter s; searchQuery := searchQuery s;
     term := v; terminalPollInterval := terminalPollInterval s;
     lastCols := lastCols s; lastRows := lastRows s;
     resizeTimeout := resizeTimeout s; timers := timers s;
     nextTimer := nextTimer s; indicator := indicator s;
     terminalStatus := terminalStatus s; assetsGrid := assetsGrid s;
     assetsCount := assetsCount s; workspaceTab := workspaceTab s;
     preview := preview s; log := log s |}.
Definition set_terminalPollInterval v s :=
  {| editor := editor s; isAppClosing := isAppClosing s; job := job s;
     lastSavedCode := lastSavedCode s;
     hasUnsavedChanges := hasUnsavedChanges s; allAssets := allAssets s;
     currentFilter := currentFilter s; searchQuery := searchQuery s;
     term := term s; terminalPollInterval := v; lastCols := lastCols s;
     lastRows := lastRows s; resizeTimeout := resizeTimeout s;
     timers := timers s; nextTimer := nextTimer s; indicator := indicator s;
     terminalStatus := terminalStatus s; assetsGrid := assetsGrid s;
     assetsCount := assetsCount s; workspaceTab := workspaceTab s;
     preview := preview s; log := log s |}.
Definition set_lastSize c r s :=
  {| editor := editor s; isAppClosing := isAppClosing s; job := job s;
     lastSavedCode := lastSavedCode s;
     hasUnsavedChanges := hasUnsavedChanges s; allAssets := allAssets s;
     currentFilter := currentFilter s; searchQuery := searchQuery s;
     term := term s; terminalPollInterval := terminalPollInterval s;
     lastCols := c; lastRows := r; resizeTimeout := resizeTimeout s;
     timers := timers s; nextTimer := nextTimer s; indicator := indicator s;
     terminalStatus := terminalStatus s; assetsGrid := assetsGrid s;
     assetsCount := assetsCount s; workspaceTab := workspaceTab s;
     preview := preview s; log := log s |}.
Definition set_resizeTimeout v s :=
  {| editor := editor s; isAppClosing := isAppClosing s; job := job s;
     lastSavedCode := lastSavedCode s;
     hasUnsavedChanges := hasUnsavedChanges s; allAssets := allAssets s;
     currentFilter := currentFilter s; searchQuery := searchQuery s;
     term := term s; terminalPollInterval := terminalPollInterval s;
     lastCols := lastCols s; lastRows := lastRows s; resizeTimeout := v;
     timers := timers s; nextTimer := nextTimer s; indicator := indicator s;
     terminalStatus := terminalStatus s; assetsGrid := assetsGrid s;
     assetsCount := assetsCount s; workspaceTab := workspaceTab s;
     preview := preview s; log := log s |}.
Definition set_timers v n s :=
  {| editor := editor s; isAppClosing := isAppClosing s; job := job s;
     lastSavedCode := lastSavedCode s;
     hasUnsavedChanges := hasUnsavedChanges s; allAssets := allAssets s;
     currentFilter := currentFilter s; searchQuery := searchQuery s;
     term := term s; terminalPollInterval := terminalPollInterval s;
     lastCols := lastCols s; lastRows := lastRows s;
     resizeTimeout := resizeTimeout s; timers := v; nextTimer := n;
     indicator := indicator s; terminalStatus := terminalStatus s;
     assetsGrid := assetsGrid s; assetsCount := assetsCount s;
     workspaceTab := workspaceTab s; preview := preview s; log := log s |}.
Definition set_indicator v s :=
  {| editor := editor s; isAppClosing := isAppClosing s; job := job s;
     lastSavedCode := lastSavedCode s;
     hasUnsavedChanges := hasUnsavedChanges s; allAssets := allAssets s;
     currentFilter := currentFilter s; searchQuery := searchQuery s;
     term := term s; terminalPollInterval := terminalPollInterval s;
     lastCols := lastCols s; lastRows := lastRows s;
     resizeTimeout := resizeTimeout s; timers := timers s;
     nextTimer := nextTimer s; indicator := v;
     terminalStatus := terminalStatus s; assetsGrid := assetsGrid s;
     assetsCount := assetsCount s; workspaceTab := workspaceTab s;
     preview := preview s; log := log s |}.
Definition set_terminalStatus v s :=
  {| editor := editor s; isAppClosing := isAppClosing s; job := job s;
     lastSavedCode := lastSavedCode s;
     hasUnsavedChanges := hasUnsavedChanges s; allAssets := allAssets s;
     currentFilter := currentFilter s; searchQuery := searchQuery s;
     term := term s; terminalPollInterval := terminalPollInterval s;
     lastCols := lastCols s; lastRows := lastRows s;
     resizeTimeout := resizeTimeout s; timers := timers s;
     nextTimer := nextTimer s; indicator := indicator s; terminalStatus := v;
     assetsGrid := assetsGrid s; assetsCount := assetsCount s;
     workspaceTab := workspaceTab s; preview := preview s; log := log s |}.
Definition set_assetsGrid v s :=
  {| editor := editor s; isAppClosing := isAppClosing s; job := job s;
     lastSavedCode := lastSavedCode s;
     hasUnsavedChanges := hasUnsavedChanges s; allAssets := allAssets s;
     currentFilter := currentFilter s; searchQuery := searchQuery s;
     term := term s; terminalPollInterval := terminalPollInterval s;
     lastCols := lastCols s; lastRows := lastRows s;
     resizeTimeout := resizeTimeout s; timers := timers s;
     nextTimer := nextTimer s; indicator := indicator s;
     terminalStatus := terminalStatus s; assetsGrid := v;
     assetsCount := assetsCount s; workspaceTab := workspaceTab s;
     preview := preview s; log := log s |}.
Definition set_assetsCount v s :=
  {| editor := editor s; isAppClosing := isAppClosing s; job := job s;
     lastSavedCode := lastSavedCode s;
     hasUnsavedChanges := hasUnsavedChanges s; allAssets := allAssets s;
     currentFilter := currentFilter s; searchQuery := searchQuery s;
     term := term s; terminalPollInterval := terminalPollInterval s;
     lastCols := lastCols s; lastRows := lastRows s;
     resizeTimeout := resizeTimeout s; timers := timers s;
     nextTimer := nextTimer s; indicator := indicator s;
     terminalStatus := terminalStatus s; assetsGrid := assetsGrid s;
     assetsCount := v; workspaceTab := workspaceTab s; preview := preview s;
     log := log s |}.
Definition set_preview v s :=
  {| editor := editor s; isAppClosing := isAppClosing s; job := job s;
     lastSavedCode := lastSavedCode s;
     hasUnsavedChanges := hasUnsavedChanges s; allAssets := allAssets s;
     currentFilter := currentFilter s; searchQuery := searchQuery s;
     term := term s; terminalPollInterval := terminalPollInterval s;
     lastCols := lastCols s; lastRows := lastRows s;
     resizeTimeout := resizeTimeout s; timers := timers s;
     nextTimer := nextTimer s; indicator := indicator s;
     terminalStatus := terminalStatus s; assetsGrid := assetsGrid s;
     assetsCount := assetsCount s; workspaceTab := workspaceTab s;
     preview := v; log := log s |}.
Definition set_log v s :=
  {| editor := editor s; isAppClosing := isAppClosing s; job := job s;
     lastSavedCode := lastSavedCode s;
     hasUnsavedChanges := hasUnsavedChanges s; allAssets := allAssets s;
     currentFilter := currentFilter s; searchQuery := searchQuery s;
     term := term s; terminalPollInterval := terminalPollInterval s;
     lastCols := lastCols s; lastRows := lastRows s;
     resizeTimeout := resizeTimeout s; timers := timers s;
     nextTimer := nextTimer s; indicator := indicator s;
     terminalStatus := terminalStatus s; assetsGrid := assetsGrid s;
     assetsCount := assetsCount s; workspaceTab := workspaceTab s;
     preview := preview s; log := v |}.

(** *** The handler monad: state passing over [State]. *)
Definition M (A : Type) : Type := State -> A * State.

Definition ret {A} (a : A) : M A := fun s => (a, s).

Definition bind {A B} (m : M A) (k : A -> M B) : M B :=
  fun s => let (a, s') := m s in k a s'.

Notation "x <- m ;; k" := (bind m (fun x => k))
  (at level 61, m at next level, right associativity).
Notation "m ;; k" := (bind m (fun _ => k))
  (at level 61, right associativity).

Definition get : M State := fun s => (s, s).
Definition modify (f : State -> State) : M unit := fun s => (tt, f s).
Definition emit (e : Effect) : M unit :=
  modify (fun s => set_log (log s ++ [e]) s).
Definition skip : M unit := ret tt.

(** The state a handler leaves. *)
Definition exec {A} (m : M A) (s : State) : State := snd (m s).

(** The backend calls recorded in a log. *)
Definition apiCalls (l : list Effect) : list ApiCall :=
  flat_map (fun e => match e with Api c => [c] | _ => [] end) l.

Definition toasts (l : list Effect) : list (jsstring * jsstring) :=
  flat_map (fun e => match e with Toast m k => [(m, k)] | _ => [] end) l.

Definition consoleErrors (l : list Effect) : list jsstring :=
  flat_map (fun e => match e with ConsoleError t => [t] | _ => [] end) l.

(** *** Helper functions of the script *)

(** [getEditorValue()]: the editor's text, [''] while there is no editor. *)
Definition getEditorValue : M jsstring :=
  s <- get ;;
  ret (match editor s with Some v => v | None => [] end).

Definition editorText (s : State) : jsstring := fst (getEditorValue s).

(** [toast(message, type)]: a transient notification. *)
Definition toast (message kind : jsstring) : M unit :=
  emit (Toast message kind).

Definition esc (code : string) : jsstring := 27%N :: lit code.

(** [appendConsole(text, type)]: a coloured line on the terminal widget, or a
    console message while the widget does not exist. *)
Definition appendConsole (text kind : jsstring) : M unit :=
  s <- get ;;
  match term s with
  | Some _ =>
      let color :=
        if str_eqb kind (lit "error") then esc "[31m"
        else if str_eqb kind (lit "success") then esc "[32m"
        else if str_eqb kind (lit "warning") then esc "[33m"
        else [] in
      let reset := if truthy color then esc "[0m" else [] in
      emit (TermWrite (color ++ text ++ reset ++ [13; 10]%N))
  | None => emit (ConsoleLog text)
  end.

(** [setTerminalStatus(text, type)]: writes [#terminalStatus] when the
    element exists. *)
Definition setTerminalStatus (text kind : jsstring) : M unit :=
  modify (fun s =>
    match terminalStatus s with
    | Some _ =>
        set_terminalStatus (Some (text, lit "terminal-status status-" ++ kind)) s
    | None => s
    end).

(** [updateSaveStatus(status)], called with one of the three literals. *)
Definition updateSaveStatus (st : SaveStatus) : M unit :=
  modify (fun s =>
    match st with
    | saved =>
        set_hasUnsavedChanges false
          (set_indicator {| ind_class := Some saved;
                            ind_icon := lit "fas fa-check-circle";
                            ind_text := lit "Saved" |} s)
    | saving =>
        set_indicator {| ind_class := Some saving;
                         ind_icon := lit "fas fa-spinner";
                         ind_text := lit "Saving..." |} s
    | unsaved =>
        set_hasUnsavedChanges true
          (set_indicator {| ind_class := Some unsaved;
                            ind_icon := lit "fas fa-exclamation-circle";
                            ind_text := lit "Unsaved changes" |} s)
    end).

(** [setTimeout(cb, _)]: registers the closure and returns its identifier;
    [clearTimeout(id)] drops it when it is still pending. *)
Definition setTimeout (cb : Callback) : M nat :=
  s <- get ;;
  let id := nextTimer s in
  modify (set_timers (timers s ++ [(id, cb)]) (S id)) ;;
  ret id.

Definition others (id : nat) (ts : list (nat * Callback)) : list (nat * Callback) :=
  filter (fun t : nat * Callback => negb (Nat.eqb (fst t) id)) ts.

Definition clearTimeout (id : nat) : M unit :=
  modify (fun s => set_timers (others id (timers s)) (nextTimer s) s).

(** *** Job coordinator: start, stop and the completion callbacks *)

(** [renderAnimation()].  [f] holds the values of the render form and
    [reply] is what the awaited [render_animation] call produces. *)
Definition renderAnimation (f : Form) (reply : Reply) : M unit :=
  s <- get ;;
  if running (job s) then
    toast (lit "Another job is running") (lit "warning")
  else
    let quality :=
      if str_eqb (qualitySelect f) (lit "custom") then
        let width := orElse (parseInt10 (customWidth f)) 1920 in
        let height := orElse (parseInt10 (customHeight f)) 1080 in
        numToString width ++ lit "x" ++ numToString height
      else qualitySelect f in
    let fps :=
      if str_eqb (fpsSelect f) (lit "custom") then
        orElse (parseInt10 (customFps f)) 30
      else orElse (parseInt10 (fpsSelect f)) 30 in
    code <- getEditorValue ;;
    if negb (truthy (trim code)) then
      toast (lit "No code to render") (lit "warning")
    else
      emit (Api (render_animation code quality fps)) ;;
      match reply with
      | Resolved res =>
          if str_eqb (status res) (lit "error") then
            toast (lit "Render failed: " ++ message res) (lit "error")
          else skip
      | Rejected err =>
          toast (lit "Render error: " ++ err) (lit "error")
      end.

(** [quickPreview()], reading the preview form. *)
Definition quickPreview (f : Form) (reply : Reply) : M unit :=
  s <- get ;;
  if running (job s) then
    toast (lit "Another job is running") (lit "warning")
  else
    let quality :=
      if str_eqb (qualitySelect f) (lit "custom") then
        let width := orElse (parseInt10 (customWidth f)) 1920 in
        let height := orElse (parseInt10 (customHeight f)) 1080 in
        numToString width ++ lit "x" ++ numToString height
      else qualitySelect f in
    let fps :=
      if str_eqb (fpsSelect f) (lit "custom") then
        orElse (parseInt10 (customFps f)) 15
      else orElse (parseInt10 (fpsSelect f)) 15 in
    code <- getEditorValue ;;
    if negb (truthy (trim code)) then
      toast (lit "No code to preview") (lit "warning")
    else
      emit (Api (quick_preview code quality fps)) ;;
      match reply with
      | Resolved res =>
          if str_eqb (status res) (lit "error") then
            toast (lit "Preview failed: " ++ message res) (lit "error")
          else skip
      | Rejected err =>
          toast (lit "Preview error: " ++ err) (lit "error") ;;
          modify (fun s => set_job {| running := false; type := type (job s) |} s) ;;
          setTerminalStatus (lit "Error") (lit "error")
      end.

(** A start request: which button was pressed, with the form it read and
    the outcome of the backend call it may make. *)
Inductive StartRequest :=
| StartRender (f : Form) (reply : Reply)
| StartPreview (f : Form) (reply : Reply).

Definition start (r : StartRequest) : M unit :=
  match r with
  | StartRender f reply => renderAnimation f reply
  | StartPreview f reply => quickPreview f reply
  end.

Definition runStarts (s : State) (rs : list StartRequest) : State :=
  fold_left (fun s r => exec (start r) s) rs s.

(** [stopActiveRender()] *)
Definition stopActiveRender (reply : Reply) : M unit :=
  s <- get ;;
  if negb (running (job s)) then
    toast (lit "No render in progress") (lit "info")
  else
    setTerminalStatus (lit "Stopping...") (lit "warning") ;;
    emit (Api stop_render) ;;
    match reply with
    | Resolved res =>
        if str_eqb (status res) (lit "success") then
          appendConsole (lit "Render stopped") (lit "info") ;;
          modify (fun s => set_job {| running := false; type := type (job s) |} s) ;;
          setTerminalStatus (lit "Stopped") (lit "info")
        else
          appendConsole (lit "Stop failed: " ++ message res) (lit "error")
    | Rejected err =>
        appendConsole (lit "Stop error: " ++ err) (lit "error")
    end.

(** [showPreview(filePath)] up to its awaited [get_asset_as_data_url] call:
    the surface is cleared, the file name is shown and the data URL of the
    file is requested from the backend. *)
Definition showPreview (filePath : jsstring) : M unit :=
  if negb (truthy filePath) then
    modify (fun s =>
      set_preview {| video_src := video_src (preview s);
                     video_shown := false;
                     image_src := image_src (preview s);
                     image_shown := false;
                     placeholder_shown := true;
                     filename_text := filename_text (preview s) |} s)
  else
    modify (fun s =>
      set_preview {| video_src := None;
                     video_shown := false;
                     image_src := None;
                     image_shown := false;
                     placeholder_shown := false;
                     filename_text := lastSegment isSlash filePath |} s) ;;
    emit (Api (get_asset_as_data_url filePath)).

(** The three-character rule and marks of the console messages, as the
    script's literals spell them. *)
Definition rule : jsstring := List.concat (repeat [8218; 238; 196]%N 60).
Definition okMark : jsstring := [8218; 250; 236]%N.
Definition failMark : jsstring := [8218; 250; 243]%N.

Definition clickWorkspaceTab : M unit :=
  s <- get ;;
  if workspaceTab s then emit ClickWorkspaceTab else skip.

(** [window.renderCompleted(outputPath, autoSave, suggestedName)] *)
Definition renderCompleted (outputPath : jsstring) (autoSave : bool)
    (suggestedName : jsstring) : M unit :=
  appendConsole rule (lit "info") ;;
  appendConsole (okMark ++ lit " Render completed successfully!") (lit "success") ;;
  appendConsole rule (lit "info") ;;
  modify (fun s => set_job {| running := false; type := type (job s) |} s) ;;
  setTerminalStatus (lit "Ready") (lit "success") ;;
  toast (lit "Render completed!") (lit "success") ;;
  if truthy outputPath then
    showPreview outputPath ;;
    clickWorkspaceTab ;;
    if autoSave then
      _ <- setTimeout (cbSaveRenderedFile outputPath suggestedName) ;; skip
    else skip
  else skip.

(** [window.renderFailed(error)] *)
Definition renderFailed (error : jsstring) : M unit :=
  appendConsole rule (lit "info") ;;
  appendConsole (failMark ++ lit " Render failed: " ++ error) (lit "error") ;;
  appendConsole rule (lit "info") ;;
  modify (fun s => set_job {| running := false; type := type (job s) |} s) ;;
  setTerminalStatus (lit "Error") (lit "error").

(** [window.previewCompleted(outputPath)] *)
Definition previewCompleted (outputPath : jsstring) : M unit :=
  appendConsole rule (lit "info") ;;
  appendConsole (okMark ++ lit " Preview completed! File ready in preview box.")
                (lit "success") ;;
  appendConsole rule (lit "info") ;;
  modify (fun s => set_job {| running := false; type := type (job s) |} s) ;;
  setTerminalStatus (lit "Ready") (lit "success") ;;
  if truthy outputPath then
    showPreview outputPath ;;
    clickWorkspaceTab
  else
    appendConsole (lit "Warning: No preview file found") (lit "warning").

(** [window.previewFailed(error)] *)
Definition previewFailed (error : jsstring) : M unit :=
  appendConsole rule (lit "info") ;;
  appendConsole (failMark ++ lit " Preview failed: " ++ error) (lit "error") ;;
  appendConsole rule (lit "info") ;;
  modify (fun s => set_job {| running := false; type := type (job s) |} s) ;;
  setTerminalStatus (lit "Error") (lit "error").

(** *** Autosave *)

(** [performAutosave()], the body of the interval timer. *)
Definition performAutosave (reply : Reply) : M unit :=
  s <- get ;;
  match editor s with
  | None => skip
  | Some _ =>
      if isAppClosing s then skip
      else
        code <- getEditorValue ;;
        if str_eqb code (lastSavedCode s) then skip
        else if negb (truthy (trim code)) then skip
        else
          updateSaveStatus saving ;;
          emit (Api (autosave_code code)) ;;
          match reply with
          | Resolved res =>
              if str_eqb (status res) (lit "success") then
                updateSaveStatus saved ;;
                modify (set_lastSavedCode code)
              else
                emit (ConsoleError (lit "[AUTOSAVE] Failed:")) ;;
                updateSaveStatus unsaved
          | Rejected _ =>
              emit (ConsoleError (lit "[AUTOSAVE] Error:")) ;;
              updateSaveStatus unsaved
          end
  end.

(** The part of the editor change listener that maintains the save
    indicator, after the user set the text to [v]. *)
Definition onDidChangeModelContent (v : jsstring) : M unit :=
  modify (fun s => match editor s with Some _ => set_editor (Some v) s | None => s end) ;;
  currentCode <- getEditorValue ;;
  s <- get ;;
  if negb (str_eqb currentCode (lastSavedCode s)) then updateSaveStatus unsaved
  else skip.

(** The [beforeunload] listener. *)
Definition onBeforeUnload : M unit := modify (set_isAppClosing true).

(** *** Terminal session: size negotiation, polling and input *)

(** [x || d] on a measured length: a missing value and 0 are falsy. *)
Definition orElseQ (x : option Q) (d : Q) : Q :=
  match x with
  | Some q => if Qeq_bool q 0 then d else q
  | None => d
  end.

(** [calculateTerminalSize()] on the geometry the container has when it is
    called. *)
Definition calculateTerminalSize (g : Geometry) : Z * Z :=
  let width := (rect_width g - 20)%Q in
  let height := (rect_height g - 20)%Q in
  let charWidth :=
    match cell g with Some (w, _) => orElseQ w 9 | None => 9%Q end in
  let charHeight :=
    match cell g with Some (_, h) => orElseQ h 17 | None => 17%Q end in
  (Z.max 10 (Qfloor (width / charWidth)), Z.max 5 (Qfloor (height / charHeight))).

(** [term.resize(cols, rows)] on the widget. *)
Definition termResize (cols rows : Z) : M unit :=
  modify (fun s =>
    match term s with
    | Some _ => set_term (Some (cols, rows)) s
    | None => s
    end).

(** [startTerminalPolling()] *)
Definition startTerminalPolling : M unit :=
  s <- get ;;
  if terminalPollInterval s then skip
  else modify (set_terminalPollInterval true).

(** [initializeTerminal()] when the container and the widget constructor
    exist: the widget is created 80x24, the two sizing timers are armed, the
    resize bookkeeping is initialised and polling starts. *)
Definition initializeTerminal : M unit :=
  modify (set_term (Some (80, 24)%Z)) ;;
  _ <- setTimeout cbInitialSize ;;
  _ <- setTimeout cbSecondarySize ;;
  modify (set_lastSize 10 5) ;;
  modify (set_resizeTimeout None) ;;
  startTerminalPolling.

(** The [ResizeObserver] callback on the terminal container. *)
Definition onContainerResize : M unit :=
  s <- get ;;
  match term s with
  | Some _ =>
      match resizeTimeout s with
      | Some id => clearTimeout id
      | None => skip
      end ;;
      id <- setTimeout cbObserverSettled ;;
      modify (set_resizeTimeout (Some id))
  | None => skip
  end.

(** The [resize] listener of the window. *)
Definition onWindowResize : M unit :=
  s <- get ;;
  match resizeTimeout s with
  | Some id => clearTimeout id
  | None => skip
  end ;;
  id <- setTimeout cbWindowSettled ;;
  modify (set_resizeTimeout (Some id)).

(** Bodies of the timer closures; [g] is the geometry measured when the
    closure runs. *)
Definition runCallback (cb : Callback) (g : Geometry) : M unit :=
  let (cols, rows) := calculateTerminalSize g in
  match cb with
  | cbSaveRenderedFile outputPath suggestedName =>
      emit (Api (save_rendered_file outputPath suggestedName))
  | cbInitialSize =>
      if (0 <? cols)%Z && (0 <? rows)%Z then
        termResize cols rows ;;
        modify (set_lastSize cols rows) ;;
        s <- get ;;
        if negb (isAppClosing s) then emit (Api (resize_terminal cols rows))
        else skip
      else skip
  | cbSecondarySize =>
      s <- get ;;
      if (0 <? cols)%Z && (0 <? rows)%Z
         && (negb (Z.eqb cols (lastCols s)) || negb (Z.eqb rows (lastRows s)))
      then
        termResize cols rows ;;
        (if negb (isAppClosing s) then emit (Api (resize_terminal cols rows))
         else skip) ;;
        modify (set_lastSize cols rows)
      else skip
  | cbObserverSettled =>
      s <- get ;;
      if (0 <? cols)%Z && (0 <? rows)%Z
         && (negb (Z.eqb cols (lastCols s)) || negb (Z.eqb rows (lastRows s)))
      then
        termResize cols rows ;;
        (if negb (isAppClosing s) then emit (Api (resize_terminal cols rows))
         else skip) ;;
        modify (set_lastSize cols rows)
      else skip
  | cbWindowSettled =>
      s <- get ;;
      if (0 <? cols)%Z && (0 <? rows)%Z
         && match term s with Some _ => true | None => false end
      then
        termResize cols rows ;;
        (if negb (isAppClosing s) then emit (Api (resize_terminal cols rows))
         else skip) ;;
        modify (set_lastSize cols rows)
      else skip
  end.

Fixpoint lookupTimer (id : nat) (ts : list (nat * Callback)) : option Callback :=
  match ts with
  | [] => None
  | (i, cb) :: ts' => if Nat.eqb i id then Some cb else lookupTimer id ts'
  end.

(** A pending timer elapses: it leaves the timer table and its closure runs.
    Nothing happens for an identifier that is not pending. *)
Definition fireTimer (id : nat) (g : Geometry) : M unit :=
  s <- get ;;
  match lookupTimer id (timers s) with
  | Some cb => clearTimeout id ;; runCallback cb g
  | None => skip
  end.

(** The rejection handlers attached to the [resize_terminal] promises: the
    initial and the observer call report the error unless the application
    is closing, the other two ignore it. *)
Definition onResizeRejected (cb : Callback) : M unit :=
  match cb with
  | cbInitialSize | cbObserverSettled =>
      s <- get ;;
      if negb (isAppClosing s) then
        emit (ConsoleError (lit "[TERMINAL] Error resizing PTY:"))
      else skip
  | _ => skip
  end.

(** What an awaited [get_terminal_output] produces. *)
Inductive PollReply :=
| PollResolved (pstatus output : jsstring)
| PollRejected.

(** One tick of the polling interval. *)
Definition pollTick (reply : PollReply) : M unit :=
  emit (Api get_terminal_output) ;;
  match reply with
  | PollResolved pstatus output =>
      s <- get ;;
      if str_eqb pstatus (lit "success") && truthy output
         && match term s with Some _ => true | None => false end
      then emit (TermWrite output) ;; emit TermScrollToBottom
      else skip
  | PollRejected => emit (ConsoleError (lit "[TERMINAL] Poll error:"))
  end.

(** The widget's [onData] listener: input goes to the backend verbatim. *)
Definition onData (data : jsstring) : M unit :=
  emit (Api (send_terminal_command data)).

(** Events of the terminal session and the handler each one runs. *)
Inductive TermEvent :=
| evContainerResize
| evWindowResize
| evTimer (id : nat) (g : Geometry)
| evResizeRejected (cb : Callback)
| evPollTick (reply : PollReply)
| evData (data : jsstring)
| evBeforeUnload.

Definition handle (e : TermEvent) : M unit :=
  match e with
  | evContainerResize => onContainerResize
  | evWindowResize => onWindowResize
  | evTimer id g => fireTimer id g
  | evResizeRejected cb => onResizeRejected cb
  | evPollTick reply => pollTick reply
  | evData data => onData data
  | evBeforeUnload => onBeforeUnload
  end.

Definition step (s : State) (e : TermEvent) : State := exec (handle e) s.

Definition run (s : State) (es : list TermEvent) : State := fold_left step es s.

(** *** Assets grid *)

Section Assets.

(** [String.prototype.toLowerCase] of the host. *)
Variable toLowerCase : jsstring -> jsstring.

Definition videoExts : list jsstring :=
  [lit "mp4"; lit "mov"; lit "webm"; lit "avi"].
Definition imageExts : list jsstring :=
  [lit "png"; lit "jpg"; lit "jpeg"; lit "gif"; lit "svg"].

(** [file.name.split('.').pop().toLowerCase()] *)
Definition extOf (fileName : jsstring) : jsstring :=
  toLowerCase (lastSegment isDot fileName).

(** [updateAssetsCount(count)] *)
Definition updateAssetsCount (count : nat) : M unit :=
  modify (fun s =>
    match assetsCount s with
    | Some _ =>
        set_assetsCount
          (Some (numToString (Z.of_nat count) ++ lit " "
                 ++ (if Nat.eqb count 1 then lit "item" else lit "items"))) s
    | None => s
    end).

Fixpoint cardsFrom (index : nat) (files : list Asset) : list Card :=
  match files with
  | [] => []
  | file :: rest =>
      {| card_index := index;
         card_file := file;
         card_isVideo := inArray (extOf (name file)) videoExts;
         card_isImage := inArray (extOf (name file)) imageExts |}
      :: cardsFrom (S index) rest
  end.

(** [displayAssets(files)] *)
Definition displayAssets (files : list Asset) : M unit :=
  s <- get ;;
  match assetsGrid s with
  | None => emit (Alert (lit "ERROR: Assets container not found in DOM!"))
  | Some _ =>
      match files with
      | [] => modify (set_assetsGrid (Some EmptyState)) ;; updateAssetsCount 0
      | _ :: _ =>
          let filteredFiles := files in
          let filteredFiles :=
            if truthy (searchQuery s) then
              filter (fun file =>
                        includes (toLowerCase (searchQuery s))
                                 (toLowerCase (name file))) filteredFiles
            else filteredFiles in
          let filteredFiles :=
            if negb (str_eqb (currentFilter s) (lit "all")) then
              filter (fun file =>
                        let ext := extOf (name file) in
                        if str_eqb (currentFilter s) (lit "video") then
                          inArray ext videoExts
                        else if str_eqb (currentFilter s) (lit "image") then
                          inArray ext imageExts
                        else true) filteredFiles
            else filteredFiles in
          match filteredFiles with
          | [] => modify (set_assetsGrid (Some NoMatch)) ;; updateAssetsCount 0
          | _ :: _ =>
              updateAssetsCount (List.length filteredFiles) ;;
              modify (set_assetsGrid (Some (Cards (cardsFrom 0 filteredFiles))))
          end
      end
  end.

(** The search box and the filter buttons. *)
Definition onSearchInput (value : jsstring) : M unit :=
  modify (set_searchQuery value) ;;
  s <- get ;;
  displayAssets (allAssets s).

Definition onFilterClick (dataFilter : jsstring) : M unit :=
  modify (set_currentFilter dataFilter) ;;
  s <- get ;;
  displayAssets (allAssets s).

(** [refreshAssets()] with the list the backend answers ([None] when the
    call is rejected). *)
Definition refreshAssets (files : option (list Asset)) : M unit :=
  emit (Api list_media_files) ;;
  match files with
  | Some [] => modify (set_allAssets []) ;; displayAssets []
  | Some fs => modify (set_allAssets fs) ;; displayAssets fs
  | None => emit (ConsoleError (lit "[ASSETS] Failed to refresh assets:"))
  end.

End Assets.

(** The files a grid shows, in the order of its cards. *)
Definition shownFiles (g : GridView) : list Asset :=
  match g with
  | Cards cs => map card_file cs
  | EmptyState | NoMatch => []
  end.

(** *** Vocabulary of the properties *)

(** The notification a start request gets while the job flag is set. *)
Definition rejection : Effect :=
  Toast (lit "Another job is running") (lit "warning").

(** The preview surface right after [showPreview] asked for [filePath]. *)
Definition cleared (filePath : jsstring) : Preview :=
  {| video_src := None; video_shown := false;
     image_src := None; image_shown := false;
     placeholder_shown := false;
     filename_text := lastSegment isSlash filePath |}.

(** Between [s] and [s'] the output [outputPath] was handed to the preview
    surface: its data URL is the one call made to the backend and the surface
    shows its file name. *)
Definition loadsPreview (outputPath : jsstring) (s s' : State) : Prop :=
  apiCalls (log s') = apiCalls (log s) ++ [get_asset_as_data_url outputPath]
  /\ preview s' = cleared outputPath.

(** The [resize_terminal] calls recorded in a log. *)
Definition resizeCalls (l : list Effect) : list (Z * Z) :=
  flat_map (fun e => match e with
                     | Api (resize_terminal c r) => [(c, r)]
                     | _ => []
                     end) l.

(** The reports of a failed [resize_terminal] call recorded in a log. *)
Definition resizeErrors (l : list Effect) : list jsstring :=
  filter (str_eqb (lit "[TERMINAL] Error resizing PTY:")) (consoleErrors l).

(** The closures of the resize debounce. *)
Definition isDebounce (cb : Callback) : bool :=
  match cb with
  | cbObserverSettled | cbWindowSettled => true
  | _ => false
  end.

Definition pendingDebounce (s : State) : list (nat * Callback) :=
  filter (fun t => isDebounce (snd t)) (timers s).

Definition isResizeEvent (e : TermEvent) : bool :=
  match e with
  | evContainerResize | evWindowResize => true
  | _ => false
  end.

(** Bookkeeping of the timer table: identifiers are distinct and below the
    next one to be handed out, and a pending debounce closure is the one
    [resizeTimeout] names. *)
Definition timersOk (s : State) : Prop :=
  NoDup (map fst (timers s))
  /\ (forall id cb, In (id, cb) (timers s) -> (id < nextTimer s)%nat)
  /\ (forall id cb, In (id, cb) (timers s) ->
        isDebounce cb = true -> resizeTimeout s = Some id).


End Renderer.

(** ** [new_features.js]: deleting an asset behind the browser's confirm box *)

Module NewFeatures.
Import Js Renderer.

Section Delete.

Variable toLowerCase : jsstring -> jsstring.

(** [deleteAsset(filePath, fileName)].  [confirmed] is the answer of
    [confirm(...)]: [false] when the user cancels or dismisses the box.
    [reply] is the outcome of the [delete_asset] promise and [files] the
    listing the refresh then receives. *)
Definition deleteAsset (filePath fileName : jsstring) (confirmed : bool)
    (reply : Reply) (files : option (list Asset)) : M unit :=
  emit (Confirm (lit "Delete " ++ [34%N] ++ fileName ++ [34%N] ++ lit "?")) ;;
  if negb confirmed then skip
  else
    emit (Api (delete_asset filePath)) ;;
    match reply with
    | Resolved res =>
        if str_eqb (status res) (lit "success") then
          toast (lit "File deleted") (lit "success") ;;
          refreshAssets toLowerCase files
        else
          toast (if truthy (message res) then message res
                 else lit "Failed to delete") (lit "error")
    | Rejected _ =>
        emit (ConsoleError (lit "Error deleting:")) ;;
        toast (lit "Error deleting file") (lit "error")
    end.

End Delete.

End NewFeatures.

(** ** [simple_assets.js]: deleting an asset behind the custom dialog *)

Module SimpleAssets.
Import Js.

(** A row of [#simpleAssetsContainer]. *)
Record File := { path : jsstring; name : jsstring }.

(** What the [delete_asset] promise produces. *)
Inductive Reply :=
| Resolved (status message : jsstring)
| Rejected (errMessage : jsstring).

(** What the page does that can be observed from outside. *)
Inductive Action :=
| ApiDeleteAsset (filePath : jsstring)
| ApiListMediaFiles
| CustomAlert (message kind : jsstring).

(** [modal] is the open [#customConfirmModal], if any: its message and the
    path its confirm closure captured.  [rows] is the listing in the
    container ([None] when the element is absent). *)
Record State := {
  modal : option (jsstring * jsstring);
  rows : option (list File);
  log : list Action
}.

(** [showCustomAlert(message, type)] *)
Definition showCustomAlert (message kind : jsstring) (s : State) : State :=
  {| modal := modal s; rows := rows s;
     log := log s ++ [CustomAlert message kind] |}.

(** What an awaited [list_media_files] produces. *)
Inductive Listing :=
| Listed (files : list File)
| ListFailed (errMessage : jsstring).

(** [window.loadAssets()] *)
Definition loadAssets (listing : Listing) (s : State) : State :=
  match rows s with
  | None => s
  | Some _ =>
      let s1 := {| modal := modal s; rows := rows s;
                   log := log s ++ [ApiListMediaFiles] |} in
      match listing with
      | Listed fs => {| modal := modal s1; rows := Some fs; log := log s1 |}
      | ListFailed err =>
          showCustomAlert (lit "Error loading assets: " ++ err) (lit "error")
            {| modal := modal s1; rows := Some []; log := log s1 |}
      end
  end.

(** [showCustomConfirm(message, onConfirm)]: an open dialog is replaced. *)
Definition showCustomConfirm (message filePath : jsstring) (s : State) : State :=
  {| modal := Some (message, filePath); rows := rows s; log := log s |}.

(** [deleteAsset(filePath, fileName)] *)
Definition deleteAsset (filePath fileName : jsstring) (s : State) : State :=
  showCustomConfirm
    (lit "Are you sure you want to delete " ++ [34%N] ++ fileName ++ [34%N] ++ lit "?")
    filePath s.

(** The confirm closure of [deleteAsset], with the outcome of the
    [delete_asset] promise and the listing a reload receives. *)
Definition onConfirm (filePath : jsstring) (reply : Reply)
    (files : Listing) (s : State) : State :=
  let s1 := {| modal := modal s; rows := rows s;
               log := log s ++ [ApiDeleteAsset filePath] |} in
  match reply with
  | Resolved status message =>
      if str_eqb status (lit "success") then
        loadAssets files
          (showCustomAlert (lit "File deleted successfully") (lit "success") s1)
      else
        showCustomAlert (if truthy message then message
                         else lit "Failed to delete") (lit "error") s1
  | Rejected err =>
      showCustomAlert (lit "Error deleting file: " ++ err) (lit "error") s1
  end.

Definition closeModal (s : State) : State :=
  {| modal := None; rows := rows s; log := log s |}.

(** What the user can do on the page. *)
Inductive Event :=
| RequestDelete (filePath fileName : jsstring)
| ClickYes (reply : Reply) (files : Listing)
| ClickNo
| ClickOverlay
| PressEscape.

(** The buttons exist only while the dialog is open; every way of closing
    it removes the modal, and only the Delete button runs the closure. *)
Definition step (s : State) (e : Event) : State :=
  match e with
  | RequestDelete filePath fileName => deleteAsset filePath fileName s
  | ClickYes reply files =>
      match modal s with
      | Some (_, filePath) => onConfirm filePath reply files (closeModal s)
      | None => s
      end
  | ClickNo | ClickOverlay | PressEscape => closeModal s
  end.

Definition run (s : State) (es : list Event) : State := fold_left step es s.

Definition isClickYes (e : Event) : bool :=
  match e with ClickYes _ _ => true | _ => false end.

Definition deleteCalls (l : list Action) : list jsstring :=
  flat_map (fun a => match a with ApiDeleteAsset p => [p] | _ => [] end) l.

End SimpleAssets.

(** ** [script.js]: the output console of the web front end *)

Module Script.
Import Js.

(** Children of [#outputConsole], oldest first; a line is the markup
    assigned to it. *)
Definition Line := jsstring.

Definition iconOf (kind : jsstring) : jsstring :=
  if str_eqb kind (lit "success") then [9989]%N
  else if str_eqb kind (lit "error") then [10060]%N
  else if str_eqb kind (lit "warning") then [9888; 65039]%N
  else [8505; 65039]%N.

(** The loop [while (output.children.length > 500) output.removeChild(output.firstChild)]. *)
Fixpoint limitLines (children : list Line) : list Line :=
  match children with
  | [] => []
  | _ :: rest =>
      if (500 <? List.length children)%nat then limitLines rest else children
  end.

(** The markup of a line; [timestamp] is the time string of the call. *)
Definition lineMarkup (message kind timestamp : jsstring) : Line :=
  lit "<span style=" ++ [34%N] ++ lit "color: var(--text-secondary)" ++ [34%N]
  ++ lit ">[" ++ timestamp ++ lit "]</span> " ++ iconOf kind ++ lit " " ++ message.

(** [addOutput(message, type)] *)
Definition addOutput (message kind timestamp : jsstring)
    (children : list Line) : list Line :=
  limitLines (children ++ [lineMarkup message kind timestamp]).

End Script.

(** ** Sample data for the examples *)

Module Samples.
Import Js Renderer.

(** An instance of [toLowerCase] for the examples: the host's function on
    ASCII text. *)
Definition asciiLower (s : jsstring) : jsstring :=
  map (fun c => if N.leb 65 c && N.leb c 90 then (c + 32)%N else c) s.

(** The page after the editor was created with text [code]: the script's
    variables hold their initial values. *)
Definition loaded (code : jsstring) : State :=
  {| editor := Some code;
     isAppClosing := false;
     job := {| running := false; type := None |};
     lastSavedCode := [];
     hasUnsavedChanges := false;
     allAssets := [];
     currentFilter := lit "all";
     searchQuery := [];
     term := None;
     terminalPollInterval := false;
     lastCols := 10;
     lastRows := 5;
     resizeTimeout := None;
     timers := [];
     nextTimer := 1;
     indicator := {| ind_class := Some saved;
                     ind_icon := lit "fas fa-check-circle";
                     ind_text := lit "Saved" |};
     terminalStatus := Some (lit "Ready", lit "terminal-status status-success");
     assetsGrid := Some EmptyState;
     assetsCount := Some (lit "0 items");
     workspaceTab := true;
     preview := {| video_src := None; video_shown := false;
                   image_src := None; image_shown := false;
                   placeholder_shown := true; filename_text := [] |};
     log := [] |}.

(** The same page while the job flag is set. *)
Definition busy (code : jsstring) : State :=
  set_job {| running := true; type := None |} (loaded code).

Definition form720 : Form :=
  {| qualitySelect := lit "720p"; fpsSelect := lit "30";
     customWidth := []; customHeight := []; customFps := [] |}.

Definition accepted : Reply :=
  Resolved {| status := lit "success"; message := [] |}.

(** A container of 740 x 428 pixels: 80 columns and 24 rows of the default
    9 x 17 cell. *)
Definition geometry80x24 : Geometry :=
  {| rect_width := 740; rect_height := 428; cell := None |}.

(** The page once the terminal exists and its initial sizing timer has run
    on [geometry80x24]. *)
Definition withTerminal : State :=
  exec (fireTimer 1 geometry80x24) (exec initializeTerminal (loaded (lit "x"))).

Definition clip (n : string) : Asset :=
  {| path := lit "C:\assets\" ++ lit n; name := lit n; size := 1024; mtime := 0 |}.

End Samples.

(** ** Further vocabulary of the renderer's properties *)

Module RendererExt.
Import Js Renderer.

(** The backend acknowledged a request: the promise resolved with status
    ['success']. *)
Definition acknowledged (reply : Reply) : bool :=
  match reply with
  | Resolved res => str_eqb (status res) (lit "success")
  | Rejected _ => false
  end.

(** The two filter steps of [displayAssets] as one test on a file. *)
Definition assetMatches (toLowerCase : jsstring -> jsstring)
    (query category : jsstring) (file : Asset) : bool :=
  (if truthy query
   then includes (toLowerCase query) (toLowerCase (name file))
   else true)
  && (if negb (str_eqb category (lit "all")) then
        if str_eqb category (lit "video") then
          inArray (extOf toLowerCase (name file)) videoExts
        else if str_eqb category (lit "image") then
          inArray (extOf toLowerCase (name file)) imageExts
        else true
      else true).

(** The bodies of the timer closures after their call of
    [calculateTerminalSize()], which returned [{cols, rows}]: two integers,
    as [Math.floor] and [Math.max] leave them. *)
Definition runCallbackWith (cb : Callback) (size : Z * Z) : M unit :=
  let (cols, rows) := size in
  match cb with
  | cbSaveRenderedFile outputPath suggestedName =>
      emit (Api (save_rendered_file outputPath suggestedName))
  | cbInitialSize =>
      if (0 <? cols)%Z && (0 <? rows)%Z then
        termResize cols rows ;;
        modify (set_lastSize cols rows) ;;
        s <- get ;;
        if negb (isAppClosing s) then emit (Api (resize_terminal cols rows))
        else skip
      else skip
  | cbSecondarySize =>
      s <- get ;;
      if (0 <? cols)%Z && (0 <? rows)%Z
         && (negb (Z.eqb cols (lastCols s)) || negb (Z.eqb rows (lastRows s)))
      then
        termResize cols rows ;;
        (if negb (isAppClosing s) then emit (Api (resize_terminal cols rows))
         else skip) ;;
        modify (set_lastSize cols rows)
      else skip
  | cbObserverSettled =>
      s <- get ;;
      if (0 <? cols)%Z && (0 <? rows)%Z
         && (negb (Z.eqb cols (lastCols s)) || negb (Z.eqb rows (lastRows s)))
      then
        termResize cols rows ;;
        (if negb (isAppClosing s) then emit (Api (resize_terminal cols rows))
         else skip) ;;
        modify (set_lastSize cols rows)
      else skip
  | cbWindowSettled =>
      s <- get ;;
      if (0 <? cols)%Z && (0 <? rows)%Z
         && match term s with Some _ => true | None => false end
      then
        termResize cols rows ;;
        (if negb (isAppClosing s) then emit (Api (resize_terminal cols rows))
         else skip) ;;
        modify (set_lastSize cols rows)
      else skip
  end.

(** The closure a resize event arms. *)
Definition armedBy (e : TermEvent) : Callback :=
  match e with
  | evWindowResize => cbWindowSettled
  | _ => cbObserverSettled
  end.

End RendererExt.

(** ** The renderer script, continued: loading a preview, the asset modal
    and the autosave time stamp *)

Module PreviewLoad.
Import Js Renderer.

(** What the awaited [get_asset_as_data_url] produces: the resolved object
    (its [status], [dataUrl] and [message] fields, a missing field being
    the empty string) or a rejection with the error's message. *)
Inductive UrlReply :=
| UrlResolved (ustatus dataUrl umessage : jsstring)
| UrlRejected (errMessage : jsstring).

(** The URL with the cache-busting parameter; [now] is [Date.now()]. *)
Definition cacheBusted (dataUrl : jsstring) (now : Z) : jsstring :=
  if includes (lit "?") dataUrl
  then dataUrl ++ lit "&_=" ++ numToString now
  else dataUrl ++ lit "?_=" ++ numToString now.

Definition showError (text : jsstring) : M unit :=
  modify (fun s =>
    set_preview {| video_src := video_src (preview s);
                   video_shown := video_shown (preview s);
                   image_src := image_src (preview s);
                   image_shown := image_shown (preview s);
                   placeholder_shown := true;
                   filename_text := text |} s).

Section Load.

Variable toLowerCase : jsstring -> jsstring.

(** [showPreview(filePath)] after its awaited call, for a non-empty
    [filePath]: the answer decides between the video element, the image
    element and the placeholder. *)
Definition showPreviewLoaded (filePath : jsstring) (reply : UrlReply) (now : Z)
    : M unit :=
  let filename := lastSegment isSlash filePath in
  let ext := toLowerCase (lastSegment isDot filename) in
  match reply with
  | UrlResolved ustatus dataUrl umessage =>
      if negb (str_eqb ustatus (lit "success")) || negb (truthy dataUrl) then
        showError (lit "Error: " ++ (if truthy umessage then umessage
                                     else lit "Failed to load"))
      else if str_eqb ext (lit "mp4") || str_eqb ext (lit "mov")
              || str_eqb ext (lit "webm") || str_eqb ext (lit "avi") then
        modify (fun s =>
          set_preview {| video_src := Some (cacheBusted dataUrl now);
                         video_shown := true;
                         image_src := image_src (preview s);
                         image_shown := image_shown (preview s);
                         placeholder_shown := placeholder_shown (preview s);
                         filename_text := filename_text (preview s) |} s)
      else if str_eqb ext (lit "png") || str_eqb ext (lit "jpg")
              || str_eqb ext (lit "jpeg") || str_eqb ext (lit "gif")
              || str_eqb ext (lit "webp") then
        modify (fun s =>
          set_preview {| video_src := video_src (preview s);
                         video_shown := video_shown (preview s);
                         image_src := Some (cacheBusted dataUrl now);
                         image_shown := true;
                         placeholder_shown := placeholder_shown (preview s);
                         filename_text := filename_text (preview s) |} s)
      else showError (lit "Unsupported: " ++ ext)
  | UrlRejected errMessage => showError (lit "Error: " ++ errMessage)
  end.


End Load.

(** The extensions [showPreview] plays as a video and shows as an image. *)
Definition videoFormats : list jsstring :=
  [lit "mp4"; lit "mov"; lit "webm"; lit "avi"].
Definition imageFormats : list jsstring :=
  [lit "png"; lit "jpg"; lit "jpeg"; lit "gif"; lit "webp"].

(** The preview surface with the file loaded: the source [src] on the
    video (respectively image) element, that element alone visible, and the
    file name in the caption. *)
Definition showsVideo (src filename : jsstring) : Preview :=
  {| video_src := Some src; video_shown := true;
     image_src := None; image_shown := false;
     placeholder_shown := false; filename_text := filename |}.

Definition showsImage (src filename : jsstring) : Preview :=
  {| video_src := None; video_shown := false;
     image_src := Some src; image_shown := true;
     placeholder_shown := false; filename_text := filename |}.

(** How many of the video element, the image element and the placeholder
    are visible. *)
Definition visibleParts (p : Preview) : nat :=
  (if video_shown p then 1 else 0) + (if image_shown p then 1 else 0)
  + (if placeholder_shown p then 1 else 0).

End PreviewLoad.

Module AssetModal.
Import Js Renderer.

(** [currentAsset] and the elements of [#assetPreviewModal]: whether the
    modal is displayed, the sources and visibility of its video and image
    elements, and the name and path lines of its details (the size, type and
    date lines are not modelled). *)
Record Modal := {
  currentAsset : option Asset;
  modal_shown : bool;
  mvideo_src : option jsstring;
  mvideo_shown : bool;
  mimage_src : option jsstring;
  mimage_shown : bool;
  detail_name : jsstring;
  detail_path : jsstring
}.

(** [file.path.replace(/\\/g, '/')] with the scheme put in front unless the
    path starts with [file://] or [http]. *)
Definition webPath (filePath : jsstring) : jsstring :=
  let slashed := map (fun c => if N.eqb c 92 then 47%N else c) filePath in
  if negb (startsWith (lit "file://") slashed)
     && negb (startsWith (lit "http") slashed)
  then lit "file:///" ++ slashed
  else slashed.

Section Open.

Variable toLowerCase : jsstring -> jsstring.

(** [openAssetModal(file)] *)
Definition openAssetModal (file : Asset) (m : Modal) : Modal :=
  let ext := toLowerCase (lastSegment isDot (name file)) in
  let isVideo := str_eqb ext (lit "mp4") || str_eqb ext (lit "mov")
                 || str_eqb ext (lit "webm") in
  let isImage := str_eqb ext (lit "png") || str_eqb ext (lit "jpg")
                 || str_eqb ext (lit "jpeg") || str_eqb ext (lit "gif") in
  {| currentAsset := Some file;
     modal_shown := true;
     mvideo_src := if isVideo then Some (webPath (path file)) else mvideo_src m;
     mvideo_shown := isVideo;
     mimage_src := if isVideo then mimage_src m
                   else if isImage then Some (webPath (path file))
                   else mimage_src m;
     mimage_shown := negb isVideo && isImage;
     detail_name := name file;
     detail_path := path file |}.

(** [window.openAssetByIndex(index)]: the entry of the cache at [index],
    nothing when there is none. *)
Definition openAssetByIndex (cache : list Asset) (index : nat) (m : Modal)
    : Modal :=
  match nth_error cache index with
  | Some file => openAssetModal file m
  | None => m
  end.

End Open.

(** [closeAssetModal()] *)
Definition closeAssetModal (m : Modal) : Modal :=
  {| currentAsset := None;
     modal_shown := false;
     mvideo_src := Some [];
     mvideo_shown := mvideo_shown m;
     mimage_src := mimage_src m;
     mimage_shown := mimage_shown m;
     detail_name := detail_name m;
     detail_path := detail_path m |}.

(** How a handler ends: normally, or with an exception. *)
Inductive Outcome :=
| Returned
| Threw (error : jsstring).

(** [openInMainPreview()]: with an asset selected the modal is closed, then
    [currentAsset.path] is read for [showPreview]; reading a property of
    [null] throws a [TypeError]. *)
Definition openInMainPreview (m : Modal) (s : State) : Outcome * Modal * State :=
  match currentAsset m with
  | Some _ =>
      let m' := closeAssetModal m in
      match currentAsset m' with
      | Some asset =>
          (Returned, m', exec (showPreview (path asset) ;; clickWorkspaceTab) s)
      | None => (Threw (lit "TypeError"), m', s)
      end
  | None => (Returned, m, s)
  end.

End AssetModal.

Module Timestamp.
Import Js.

(** [s.substring(a, b)] for [a <= b]. *)
Definition substring (a b : nat) (s : jsstring) : jsstring :=
  firstn (b - a) (skipn a s).

(** [formatTimestamp(timestamp)]: [YYYYMMDD_HHMMSS] made readable. *)
Definition formatTimestamp (timestamp : jsstring) : jsstring :=
  let year := substring 0 4 timestamp in
  let month := substring 4 6 timestamp in
  let day := substring 6 8 timestamp in
  let hour := substring 9 11 timestamp in
  let minute := substring 11 13 timestamp in
  let second := substring 13 15 timestamp in
  year ++ lit "-" ++ month ++ lit "-" ++ day ++ lit " "
  ++ hour ++ lit ":" ++ minute ++ lit ":" ++ second.

End Timestamp.

(** ** The renderer script, continued: file operations, autosave recovery,
    the command line and the start of the terminal *)

Module Workspace.
Import Js Renderer.

(** Backend entry points of these handlers. *)
Inductive Call :=
| new_file
| open_file_dialog
| save_file (code : jsstring) (currentFile : option jsstring)
| save_file_dialog (code : jsstring)
| get_autosave_files
| load_autosave (autosaveFile : jsstring)
| delete_autosave (autosaveFile : jsstring)
| execute_command (command : jsstring).

(** What these handlers do besides what the renderer's log records. *)
Inductive Act :=
| Backend (c : Call)
| TermClear
| SystemInfoScheduled.

(** An autosave record as the backend lists it. *)
Record Autosave := {
  autosave_file : jsstring;
  timestamp : jsstring;
  file_path : jsstring
}.

(** The renderer state [base] with the variables and elements these
    handlers add: [currentFile] ([None] is [null]), the text and title of
    the [#currentFile] element ([None] when it is absent), the records of
    the open recovery dialog, the [terminalInitialized] flag and the list
    of what the handlers did. *)
Record Page := {
  base : State;
  currentFile : option jsstring;
  currentFileElem : option (jsstring * jsstring);
  recovery : option (list Autosave);
  terminalInitialized : bool;
  acts : list Act
}.

Definition set_base v p :=
  {| base := v; currentFile := currentFile p;
     currentFileElem := currentFileElem p; recovery := recovery p;
     terminalInitialized := terminalInitialized p; acts := acts p |}.
Definition set_currentFile v p :=
  {| base := base p; currentFile := v;
     currentFileElem := currentFileElem p; recovery := recovery p;
     terminalInitialized := terminalInitialized p; acts := acts p |}.
Definition set_currentFileElem v p :=
  {| base := base p; currentFile := currentFile p;
     currentFileElem := v; recovery := recovery p;
     terminalInitialized := terminalInitialized p; acts := acts p |}.
Definition set_recovery v p :=
  {| base := base p; currentFile := currentFile p;
     currentFileElem := currentFileElem p; recovery := v;
     terminalInitialized := terminalInitialized p; acts := acts p |}.
Definition set_terminalInitialized v p :=
  {| base := base p; currentFile := currentFile p;
     currentFileElem := currentFileElem p; recovery := recovery p;
     terminalInitialized := v; acts := acts p |}.
Definition set_acts v p :=
  {| base := base p; currentFile := currentFile p;
     currentFileElem := currentFileElem p; recovery := recovery p;
     terminalInitialized := terminalInitialized p; acts := v |}.

(** A handler of the renderer run on the page. *)
Definition onBase (m : M unit) (p : Page) : Page :=
  set_base (exec m (base p)) p.

Definition act (a : Act) (p : Page) : Page := set_acts (acts p ++ [a]) p.

Definition calls (l : list Act) : list Call :=
  flat_map (fun a => match a with Backend c => [c] | _ => [] end) l.

(** What an awaited file call produces: the resolved object (its [status],
    [path], [filename] and [code] fields, a missing field being the empty
    string) or a rejection with the error's message. *)
Inductive FileReply :=
| FileResolved (fstatus fpath ffilename fcode : jsstring)
| FileRejected (errMessage : jsstring).

(** [setEditorValue(value)]: with an editor, the text is replaced, which
    the editor reports to the change listener registered at its creation. *)
Definition setEditorValue (value : jsstring) : M unit :=
  s <- get ;;
  match editor s with
  | Some _ => onDidChangeModelContent value
  | None => skip
  end.

(** [updateCurrentFile(filename)] *)
Definition updateCurrentFile (filename : jsstring) (p : Page) : Page :=
  match currentFileElem p with
  | Some _ =>
      set_currentFileElem
        (Some (if truthy filename then filename else lit "Untitled",
               match currentFile p with Some f => f | None => [] end)) p
  | None => p
  end.

(** [newFile()] *)
Definition newFile (reply : FileReply) (p : Page) : Page :=
  let p := act (Backend new_file) p in
  match reply with
  | FileResolved fstatus _ _ fcode =>
      if str_eqb fstatus (lit "success") then
        let p := onBase (setEditorValue fcode) p in
        let p := set_currentFile None p in
        let p := updateCurrentFile (lit "Untitled") p in
        onBase (toast (lit "New file created") (lit "success")) p
      else p
  | FileRejected err =>
      onBase (toast (lit "Error: " ++ err) (lit "error")) p
  end.

(** [openFile()] *)
Definition openFile (reply : FileReply) (p : Page) : Page :=
  let p := act (Backend open_file_dialog) p in
  match reply with
  | FileResolved fstatus fpath ffilename fcode =>
      if str_eqb fstatus (lit "success") then
        let p := onBase (setEditorValue fcode) p in
        let p := set_currentFile (Some fpath) p in
        let p := updateCurrentFile ffilename p in
        onBase (toast (lit "Opened " ++ ffilename) (lit "success")) p
      else p
  | FileRejected err =>
      onBase (toast (lit "Open failed: " ++ err) (lit "error")) p
  end.

(** The common end of [saveFile()] and [saveFileAs()]. *)
Definition saved (code : jsstring) (reply : FileReply) (p : Page) : Page :=
  match reply with
  | FileResolved fstatus fpath ffilename _ =>
      if str_eqb fstatus (lit "success") then
        let p := set_currentFile (Some fpath) p in
        let p := updateCurrentFile ffilename p in
        let p := onBase (toast (lit "File saved") (lit "success")) p in
        let p := onBase (modify (set_lastSavedCode code)) p in
        onBase (updateSaveStatus Renderer.saved) p
      else p
  | FileRejected err =>
      onBase (toast (lit "Save failed: " ++ err) (lit "error")) p
  end.

(** [saveFile()] *)
Definition saveFile (reply : FileReply) (p : Page) : Page :=
  let code := editorText (base p) in
  saved code reply (act (Backend (save_file code (currentFile p))) p).

(** [saveFileAs()] *)
Definition saveFileAs (reply : FileReply) (p : Page) : Page :=
  let code := editorText (base p) in
  saved code reply (act (Backend (save_file_dialog code)) p).

(** What the awaited [get_autosave_files] produces. *)
Inductive AutosavesReply :=
| AutosavesResolved (astatus : jsstring) (files : list Autosave)
| AutosavesRejected.

(** [checkForAutosaves()]: the recovery dialog opens on a non-empty list. *)
Definition checkForAutosaves (reply : AutosavesReply) (p : Page) : Page :=
  let p := act (Backend get_autosave_files) p in
  match reply with
  | AutosavesResolved astatus files =>
      if str_eqb astatus (lit "success")
         && match files with [] => false | _ :: _ => true end
      then set_recovery (Some files) p
      else p
  | AutosavesRejected =>
      onBase (emit (ConsoleError (lit "[AUTOSAVE] Error checking for autosaves:"))) p
  end.

(** The Recover button of the dialog: the most recent record is loaded. *)
Definition recoverClick (reply : FileReply) (p : Page) : Page :=
  match recovery p with
  | Some (latest :: _) =>
      let p := act (Backend (load_autosave (autosave_file latest))) p in
      match reply with
      | FileResolved fstatus _ _ fcode =>
          if str_eqb fstatus (lit "success") then
            let p := onBase (setEditorValue fcode) p in
            let p := onBase (modify (set_lastSavedCode fcode)) p in
            let p := onBase (toast (lit "Work recovered successfully")
                                   (lit "success")) p in
            set_recovery None p
          else
            onBase (toast (lit "Failed to recover work") (lit "error")) p
      | FileRejected err =>
          onBase (toast (lit "Recovery failed: " ++ err) (lit "error")) p
      end
  | _ => p
  end.

(** The loop of the Discard button: one awaited [delete_autosave] per
    record; [resolves i] tells whether the call for the record at position
    [i] resolves.  The result is the page and whether the loop ran through. *)
Fixpoint deleteEach (resolves : nat -> bool) (i : nat) (records : list Autosave)
    (p : Page) : Page * bool :=
  match records with
  | [] => (p, true)
  | r :: rest =>
      let p := act (Backend (delete_autosave (autosave_file r))) p in
      if resolves i then deleteEach resolves (S i) rest p
      else (p, false)
  end.

(** The Discard button of the dialog. *)
Definition discardClick (resolves : nat -> bool) (p : Page) : Page :=
  match recovery p with
  | Some records =>
      let (p, through) := deleteEach resolves 0 records p in
      let p :=
        if through
        then onBase (toast (lit "Auto-saves discarded") (lit "info")) p
        else onBase (emit (ConsoleError (lit "[AUTOSAVE] Error discarding:"))) p in
      set_recovery None p
  | None => p
  end.

(** [clearConsole()] *)
Definition clearConsole (p : Page) : Page :=
  match term (base p) with
  | Some _ => act TermClear p
  | None =>
      onBase (emit (ConsoleLog (lit "[CONSOLE] Clear requested but terminal not available"))) p
  end.

Definition readyStatus (p : Page) : Page :=
  if running (job (base p))
  then onBase (setTerminalStatus (lit "Busy...") (lit "warning")) p
  else onBase (setTerminalStatus (lit "Ready") (lit "info")) p.

Definition helpLines : list jsstring :=
  [lit "=== Manim Studio Terminal ===";
   lit "This is a real cmd.exe session!";
   [];
   lit "Special commands:";
   lit "  clear - clear console display";
   lit "  help - show this help";
   [];
   lit "All other commands run in persistent cmd.exe:";
   lit "  pip install <package> - uses venv pip automatically";
   lit "  claude - use Claude Code AI (if installed)";
   lit "  dir, cd, echo, etc. - normal cmd.exe commands"].

(** [executeCommand(command)] *)
Definition executeCommand (command : jsstring) (reply : Reply) (p : Page) : Page :=
  if negb (truthy (trim command)) then p
  else if str_eqb command (lit "clear") then
    readyStatus (clearConsole p)
  else if str_eqb command (lit "help") then
    readyStatus
      (fold_left (fun p line => onBase (appendConsole line (lit "info")) p)
                 helpLines p)
  else
    let p := onBase (appendConsole (lit "> " ++ command) (lit "command")) p in
    let p := onBase (setTerminalStatus (lit "Running...") (lit "warning")) p in
    let p := act (Backend (execute_command command)) p in
    match reply with
    | Resolved res =>
        if str_eqb (status res) (lit "error") && truthy (message res) then
          let p := onBase (appendConsole (message res) (lit "error")) p in
          onBase (setTerminalStatus (lit "Error") (lit "error")) p
        else
          let p := onBase (setTerminalStatus (lit "Ready") (lit "success")) p in
          if startsWith (lit "pip ") command then act SystemInfoScheduled p
          else p
    | Rejected err =>
        let p := onBase (appendConsole (lit "Error: " ++ err) (lit "error")) p in
        onBase (setTerminalStatus (lit "Error") (lit "error")) p
    end.

(** [tryInitTerminal()]; [available] tells whether the widget constructor
    is loaded (the terminal container being on the page). *)
Definition tryInitTerminal (available : bool) (p : Page) : Page :=
  if terminalInitialized p then p
  else if available then
    onBase initializeTerminal (set_terminalInitialized true p)
  else p.

(** *** Vocabulary of the properties *)

(** The file call resolved with status ['success']. *)
Definition succeeded (reply : FileReply) : bool :=
  match reply with
  | FileResolved fstatus _ _ _ => str_eqb fstatus (lit "success")
  | FileRejected _ => false
  end.

(** The [delete_autosave] calls for a list of records, in order. *)
Definition deletions (records : list Autosave) : list Call :=
  map (fun r => delete_autosave (autosave_file r)) records.

(** The number of leading positions, from [i] on, whose call resolves. *)
Fixpoint resolvedPrefix (resolves : nat -> bool) (i n : nat) : nat :=
  match n with
  | O => O
  | S n' => if resolves i then S (resolvedPrefix resolves (S i) n') else O
  end.

End Workspace.

(** ** [script.js], continued: the render controls of the web front end *)

Module ScriptUi.
Import Js Script.

(** Calls through the [eel] bridge; of the settings object that
    [update_settings] carries, the theme. *)
Inductive EelCall :=
| render_animation (code quality : jsstring) (fps : option Z)
| quick_preview (code : jsstring)
| stop_render
| list_media_files
| save_file (currentFile code : jsstring)
| new_file
| update_settings (theme : jsstring).

(** The object a bridge call hands to its callback. *)
Record Data := { dstatus : jsstring; dmessage : jsstring }.

(** The script's variables and the elements it writes: the children of
    [#outputConsole], the status text and whether the indicator carries the
    [rendering] class, the visibility of the progress section and of the
    stop and render buttons, [currentFile], the editor text, the theme and
    [autoPreview] settings, the class of the theme icon, and what was sent
    over the bridge and shown as toasts. *)
Record Ui := {
  output : list Line;
  statusText : jsstring;
  statusRendering : bool;
  progressShown : bool;
  stopShown : bool;
  renderShown : bool;
  currentFile : option jsstring;
  editorValue : jsstring;
  theme : jsstring;
  autoPreview : bool;
  themeIcon : jsstring;
  sent : list EelCall;
  toasts : list (jsstring * jsstring)
}.

Definition set_output v u :=
  {| output := v; statusText := statusText u;
     statusRendering := statusRendering u; progressShown := progressShown u;
     stopShown := stopShown u; renderShown := renderShown u;
     currentFile := currentFile u; editorValue := editorValue u;
     theme := theme u; autoPreview := autoPreview u; themeIcon := themeIcon u;
     sent := sent u; toasts := toasts u |}.
Definition set_status t r u :=
  {| output := output u; statusText := t;
     statusRendering := r; progressShown := progressShown u;
     stopShown := stopShown u; renderShown := renderShown u;
     currentFile := currentFile u; editorValue := editorValue u;
     theme := theme u; autoPreview := autoPreview u; themeIcon := themeIcon u;
     sent := sent u; toasts := toasts u |}.
Definition set_progress v u :=
  {| output := output u; statusText := statusText u;
     statusRendering := statusRendering u; progressShown := v;
     stopShown := stopShown u; renderShown := renderShown u;
     currentFile := currentFile u; editorValue := editorValue u;
     theme := theme u; autoPreview := autoPreview u; themeIcon := themeIcon u;
     sent := sent u; toasts := toasts u |}.
Definition set_buttons stop render u :=
  {| output := output u; statusText := statusText u;
     statusRendering := statusRendering u; progressShown := progressShown u;
     stopShown := stop; renderShown := render;
     currentFile := currentFile u; editorValue := editorValue u;
     theme := theme u; autoPreview := autoPreview u; themeIcon := themeIcon u;
     sent := sent u; toasts := toasts u |}.
Definition set_currentFile v u :=
  {| output := output u; statusText := statusText u;
     statusRendering := statusRendering u; progressShown := progressShown u;
     stopShown := stopShown u; renderShown := renderShown u;
     currentFile := v; editorValue := editorValue u;
     theme := theme u; autoPreview := autoPreview u; themeIcon := themeIcon u;
     sent := sent u; toasts := toasts u |}.
Definition set_theme v u :=
  {| output := output u; statusText := statusText u;
     statusRendering := statusRendering u; progressShown := progressShown u;
     stopShown := stopShown u; renderShown := renderShown u;
     currentFile := currentFile u; editorValue := editorValue u;
     theme := v; autoPreview := autoPreview u; themeIcon := themeIcon u;
     sent := sent u; toasts := toasts u |}.
Definition set_editorValue v u :=
  {| output := output u; statusText := statusText u;
     statusRendering := statusRendering u; progressShown := progressShown u;
     stopShown := stopShown u; renderShown := renderShown u;
     currentFile := currentFile u; editorValue := v;
     theme := theme u; autoPreview := autoPreview u; themeIcon := themeIcon u;
     sent := sent u; toasts := toasts u |}.
Definition set_autoPreview v u :=
  {| output := output u; statusText := statusText u;
     statusRendering := statusRendering u; progressShown := progressShown u;
     stopShown := stopShown u; renderShown := renderShown u;
     currentFile := currentFile u; editorValue := editorValue u;
     theme := theme u; autoPreview := v; themeIcon := themeIcon u;
     sent := sent u; toasts := toasts u |}.
Definition set_themeIcon v u :=
  {| output := output u; statusText := statusText u;
     statusRendering := statusRendering u; progressShown := progressShown u;
     stopShown := stopShown u; renderShown := renderShown u;
     currentFile := currentFile u; editorValue := editorValue u;
     theme := theme u; autoPreview := autoPreview u; themeIcon := v;
     sent := sent u; toasts := toasts u |}.
Definition set_sent v u :=
  {| output := output u; statusText := statusText u;
     statusRendering := statusRendering u; progressShown := progressShown u;
     stopShown := stopShown u; renderShown := renderShown u;
     currentFile := currentFile u; editorValue := editorValue u;
     theme := theme u; autoPreview := autoPreview u; themeIcon := themeIcon u;
     sent := v; toasts := toasts u |}.
Definition set_toasts v u :=
  {| output := output u; statusText := statusText u;
     statusRendering := statusRendering u; progressShown := progressShown u;
     stopShown := stopShown u; renderShown := renderShown u;
     currentFile := currentFile u; editorValue := editorValue u;
     theme := theme u; autoPreview := autoPreview u; themeIcon := themeIcon u;
     sent := sent u; toasts := v |}.

(** [addOutput(message, type)] on the page; [t] is the time string. *)
Definition out (message kind t : jsstring) (u : Ui) : Ui :=
  set_output (addOutput message kind t (output u)) u.

Definition showToast (message kind : jsstring) (u : Ui) : Ui :=
  set_toasts (toasts u ++ [(message, kind)]) u.

Definition send (c : EelCall) (u : Ui) : Ui := set_sent (sent u ++ [c]) u.

(** [setStatus(text, state)] *)
Definition setStatus (text state : jsstring) (u : Ui) : Ui :=
  set_status text (str_eqb state (lit "rendering")) u.

Definition showProgress (u : Ui) : Ui := set_progress true u.
Definition hideProgress (u : Ui) : Ui := set_progress false u.
Definition showStopButton (u : Ui) : Ui := set_buttons true false u.
Definition hideStopButton (u : Ui) : Ui := set_buttons false true u.

(** [clearOutput()] *)
Definition clearOutput (u : Ui) : Ui :=
  set_output [lit "Ready to render..."] u.

(** [loadMediaList()]: the call; the list it then renders is not modelled. *)
Definition loadMediaList (u : Ui) : Ui := send list_media_files u.

(** [renderAnimation()] up to the bridge call; [quality] is the value of
    the quality select, [fps] what [parseInt] makes of the value of the
    rate select and [t] the time string. *)
Definition renderAnimation (quality : jsstring) (fps : option Z)
    (t : jsstring) (u : Ui) : Ui :=
  let u := setStatus (lit "Rendering...") (lit "rendering") u in
  let u := out (lit "Starting render...") (lit "info") t u in
  let u := showProgress u in
  let u := showStopButton u in
  send (render_animation (editorValue u) quality fps) u.

(** The callback [renderAnimation()] gives to [eel.render_animation]. *)
Definition renderAnimation_reply (t : jsstring) (data : Data) (u : Ui) : Ui :=
  if str_eqb (dstatus data) (lit "success") then
    let u := out (lit "Render started successfully") (lit "success") t u in
    showToast (lit "Render started") (lit "info") u
  else
    let u := out (lit "Render error: " ++ dmessage data) (lit "error") t u in
    let u := showToast (lit "Error: " ++ dmessage data) (lit "error") u in
    let u := setStatus (lit "Ready") (lit "ready") u in
    hideStopButton (hideProgress u).

(** [quickPreview()] up to the bridge call. *)
Definition quickPreview (t : jsstring) (u : Ui) : Ui :=
  let u := setStatus (lit "Previewing...") (lit "rendering") u in
  let u := out (lit "Starting preview...") (lit "info") t u in
  let u := showToast (lit "Starting preview...") (lit "info") u in
  send (quick_preview (editorValue u)) u.

(** The callback [quickPreview()] gives to [eel.quick_preview]. *)
Definition quickPreview_reply (t : jsstring) (data : Data) (u : Ui) : Ui :=
  if str_eqb (dstatus data) (lit "success") then
    out (lit "Preview started") (lit "success") t u
  else
    let u := out (lit "Preview error: " ++ dmessage data) (lit "error") t u in
    let u := showToast (lit "Error: " ++ dmessage data) (lit "error") u in
    setStatus (lit "Ready") (lit "ready") u.

(** [stopRender()] and its callback. *)
Definition stopRender (u : Ui) : Ui := send stop_render u.

Definition stopRender_reply (t : jsstring) (data : Data) (u : Ui) : Ui :=
  if str_eqb (dstatus data) (lit "success") then
    let u := out (lit "Render stopped") (lit "warning") t u in
    let u := showToast (lit "Render stopped") (lit "warning") u in
    let u := setStatus (lit "Ready") (lit "ready") u in
    hideStopButton (hideProgress u)
  else u.

(** The callbacks exposed to the backend. *)
Definition update_render_output (line t : jsstring) (u : Ui) : Ui :=
  out line (lit "info") t u.

Definition render_completed (t : jsstring) (u : Ui) : Ui :=
  let u := out (lit "Render completed successfully!") (lit "success") t u in
  let u := showToast (lit "Render completed!") (lit "success") u in
  let u := setStatus (lit "Ready") (lit "ready") u in
  loadMediaList (hideStopButton (hideProgress u)).

Definition render_failed (error t : jsstring) (u : Ui) : Ui :=
  let u := out (lit "Render failed: " ++ error) (lit "error") t u in
  let u := showToast (lit "Render failed: " ++ error) (lit "error") u in
  let u := setStatus (lit "Ready") (lit "ready") u in
  hideStopButton (hideProgress u).

Definition preview_completed (t : jsstring) (u : Ui) : Ui :=
  let u := out (lit "Preview completed") (lit "success") t u in
  let u := showToast (lit "Preview completed") (lit "success") u in
  let u := setStatus (lit "Ready") (lit "ready") u in
  loadMediaList u.

Definition preview_failed (error t : jsstring) (u : Ui) : Ui :=
  let u := out (lit "Preview failed: " ++ error) (lit "error") t u in
  let u := showToast (lit "Preview failed") (lit "error") u in
  setStatus (lit "Ready") (lit "ready") u.

(** [newFile()] and its callback; [code] is [data.code].  The file name
    label that [updateCurrentFile] writes is not part of [Ui]. *)
Definition newFile (u : Ui) : Ui := send new_file u.

Definition newFile_reply (t : jsstring) (data : Data) (code : jsstring)
    (u : Ui) : Ui :=
  if str_eqb (dstatus data) (lit "success") then
    let u := set_editorValue code u in
    let u := set_currentFile None u in
    let u := out (lit "Created new file") (lit "info") t u in
    showToast (lit "New file created") (lit "success") u
  else u.

(** The [onload] handler of [openFile()]: [path] is [file.path] when the
    host provides one. *)
Definition fileOpened (path : option jsstring) (name content t : jsstring)
    (u : Ui) : Ui :=
  let u := set_editorValue content u in
  let u := set_currentFile
             (Some (match path with
                    | Some (c :: p) => c :: p
                    | _ => name
                    end)) u in
  let u := out (lit "Opened " ++ name) (lit "success") t u in
  showToast (lit "Opened " ++ name) (lit "success") u.

(** The part of [saveFile()] after the test of [currentFile]. *)
Definition saveCurrent (file : jsstring) (u : Ui) : Ui :=
  send (save_file file (editorValue u)) u.

(** [saveFileAs()]; [answer] is what [prompt] returns ([None] when it is
    dismissed).  The [saveFile()] it calls finds [currentFile] set. *)
Definition saveFileAs (answer : option jsstring) (u : Ui) : Ui :=
  match answer with
  | Some (c :: filename) =>
      saveCurrent (c :: filename) (set_currentFile (Some (c :: filename)) u)
  | _ => u
  end.

(** [saveFile()] up to the bridge call. *)
Definition saveFile (answer : option jsstring) (u : Ui) : Ui :=
  match currentFile u with
  | Some (c :: file) => saveCurrent (c :: file) u
  | _ => saveFileAs answer u
  end.

(** [currentFile] as a template literal prints it. *)
Definition currentFileText (u : Ui) : jsstring :=
  match currentFile u with Some file => file | None => lit "null" end.

(** The callback [saveFile()] gives to [eel.save_file]; [tp] is the time
    string of the preview it may start. *)
Definition saveFile_reply (t tp : jsstring) (data : Data) (u : Ui) : Ui :=
  if str_eqb (dstatus data) (lit "success") then
    let u := out (lit "Saved " ++ currentFileText u) (lit "success") t u in
    let u := showToast (lit "File saved successfully") (lit "success") u in
    if autoPreview u then quickPreview tp u else u
  else
    let u := out (lit "Error saving file: " ++ dmessage data) (lit "error") t u in
    showToast (lit "Error: " ++ dmessage data) (lit "error") u.

(** The part of [applySettings()] that sets the theme icon. *)
Definition applySettings (u : Ui) : Ui :=
  set_themeIcon (if str_eqb (theme u) (lit "default") then lit "fas fa-sun"
                 else lit "fas fa-moon") u.

(** The theme button. *)
Definition toggleTheme (u : Ui) : Ui :=
  let u := set_theme (if str_eqb (theme u) (lit "monokai") then lit "default"
                      else lit "monokai") u in
  let u := applySettings u in
  send (update_settings (theme u)) u.

(** The save button of the settings dialog, with the values of the form,
    and the callback of the [saveSettings()] it calls. *)
Definition saveSettingsClick (auto : bool) (themeValue : jsstring) (u : Ui) : Ui :=
  let u := set_autoPreview auto u in
  let u := set_theme themeValue u in
  send (update_settings (theme u)) u.

Definition saveSettings_reply (t : jsstring) (data : Data) (u : Ui) : Ui :=
  if str_eqb (dstatus data) (lit "success") then
    let u := out (lit "Settings saved") (lit "success") t u in
    let u := showToast (lit "Settings saved") (lit "success") u in
    applySettings u
  else u.

(** What can happen on the page: the clicks and key bindings, the edits of
    the text, and the callbacks of the bridge, in whatever order they
    arrive. *)
Inductive Event :=
| RenderClick (quality : jsstring) (fps : option Z) (t : jsstring)
| RenderReply (t : jsstring) (data : Data)
| PreviewClick (t : jsstring)
| PreviewReply (t : jsstring) (data : Data)
| StopClick
| StopReply (t : jsstring) (data : Data)
| SaveClick (answer : option jsstring)
| SaveReply (t tp : jsstring) (data : Data)
| NewFileClick
| NewFileReply (t : jsstring) (data : Data) (code : jsstring)
| FileOpened (path : option jsstring) (name content t : jsstring)
| Typed (text : jsstring)
| RenderOutput (line t : jsstring)
| RenderCompleted (t : jsstring)
| RenderFailed (error t : jsstring)
| PreviewCompleted (t : jsstring)
| PreviewFailed (error t : jsstring)
| ClearOutputClick
| ThemeClick
| SaveSettingsClick (auto : bool) (themeValue : jsstring)
| SaveSettingsReply (t : jsstring) (data : Data).

Definition step (u : Ui) (e : Event) : Ui :=
  match e with
  | RenderClick quality fps t => renderAnimation quality fps t u
  | RenderReply t data => renderAnimation_reply t data u
  | PreviewClick t => quickPreview t u
  | PreviewReply t data => quickPreview_reply t data u
  | StopClick => stopRender u
  | StopReply t data => stopRender_reply t data u
  | SaveClick answer => saveFile answer u
  | SaveReply t tp data => saveFile_reply t tp data u
  | NewFileClick => newFile u
  | NewFileReply t data code => newFile_reply t data code u
  | FileOpened path name content t => fileOpened path name content t u
  | Typed text => set_editorValue text u
  | RenderOutput line t => update_render_output line t u
  | RenderCompleted t => render_completed t u
  | RenderFailed error t => render_failed error t u
  | PreviewCompleted t => preview_completed t u
  | PreviewFailed error t => preview_failed error t u
  | ClearOutputClick => clearOutput u
  | ThemeClick => toggleTheme u
  | SaveSettingsClick auto themeValue => saveSettingsClick auto themeValue u
  | SaveSettingsReply t data => saveSettings_reply t data u
  end.

Definition run (u : Ui) (es : list Event) : Ui := fold_left step es u.

(** The page is consistent: the console holds at most 500 lines, and the
    stop button and the progress section are shown exactly when the render
    button is hidden. *)
Definition consistent (u : Ui) : Prop :=
  (List.length (output u) <= 500)%nat
  /\ stopShown u = negb (renderShown u)
  /\ progressShown u = stopShown u.

(** The events that end a render on the page: the two callbacks of the
    backend, a start the backend refuses and a stop it acknowledges. *)
Definition endsRender (e : Event) : bool :=
  match e with
  | RenderCompleted _ | RenderFailed _ _ => true
  | RenderReply _ data => negb (str_eqb (dstatus data) (lit "success"))
  | StopReply _ data => str_eqb (dstatus data) (lit "success")
  | _ => false
  end.

(** A call that, when it saves, names a file. *)
Definition named (c : EelCall) : Prop :=
  match c with save_file file _ => file <> [] | _ => True end.

(** The page as it loads, for the examples. *)
Definition idlePage : Ui :=
  {| output := [lit "Ready to render..."]; statusText := lit "Ready";
     statusRendering := false; progressShown := false; stopShown := false;
     renderShown := true; currentFile := None; editorValue := lit "x";
     theme := lit "monokai"; autoPreview := false;
     themeIcon := lit "fas fa-moon"; sent := []; toasts := [] |}.

End ScriptUi.

(** ** [simple_assets.js]: the row type and the preview of a file *)

Module AssetRows.
Import Js.

(** [getCardType(ext)] *)
Definition getCardType (ext : jsstring) : jsstring :=
  let videoExts := [lit "mp4"; lit "mov"; lit "avi"; lit "webm"; lit "mkv";
                    lit "flv"; lit "m4v"] in
  let imageExts := [lit "png"; lit "jpg"; lit "jpeg"; lit "gif"; lit "svg";
                    lit "bmp"; lit "webp"; lit "ico"] in
  let audioExts := [lit "mp3"; lit "wav"; lit "ogg"; lit "m4a"; lit "aac";
                    lit "flac"; lit "wma"] in
  let fontExts := [lit "ttf"; lit "otf"; lit "woff"; lit "woff2"; lit "ttc";
                   lit "eot"] in
  if inArray ext videoExts then lit "video"
  else if inArray ext imageExts then lit "image"
  else if inArray ext audioExts then lit "audio"
  else if inArray ext fontExts then lit "font"
  else lit "other".

(** What [#assetsPreviewContainer] holds: what [showPreviewInAssetsTab]
    writes itself, and a mark for each of the four previews it hands the
    container to. *)
Inductive Container :=
| VideoPlayer (src type : jsstring)
| FailedVideo
| ImageView (src alt : jsstring)
| FailedImage
| FontPreview
| AudioPreview
| SubtitlePreview
| TextPreview
| NotAvailable.

(** What the awaited [get_asset_as_data_url] and [read_file_as_base64]
    produce. *)
Inductive VideoReply :=
| VideoResolved (vstatus dataUrl : jsstring)
| VideoRejected.

Inductive ImageReply :=
| ImageResolved (base64Data : jsstring)
| ImageRejected.

(** The branches of [showPreviewInAssetsTab] for the extension [ext];
    [bridge] tells whether [window.pywebview.api] is there and [c] is what
    the container held. *)
Definition previewFor (ext : jsstring) (bridge : bool)
    (filepath filename : jsstring) (vr : VideoReply) (ir : ImageReply)
    (c : Container) : Container :=
  let videoExts := [lit "mp4"; lit "mov"; lit "avi"; lit "webm"; lit "gif";
                    lit "mkv"; lit "flv"; lit "m4v"] in
  let imageExts := [lit "png"; lit "jpg"; lit "jpeg"; lit "svg"; lit "bmp";
                    lit "webp"; lit "ico"] in
  let fontExts := [lit "ttf"; lit "otf"; lit "woff"; lit "woff2"; lit "ttc";
                   lit "eot"] in
  let audioExts := [lit "mp3"; lit "wav"; lit "ogg"; lit "m4a"; lit "aac";
                    lit "flac"; lit "wma"] in
  let subtitleExts := [lit "srt"; lit "vtt"; lit "ass"; lit "ssa"; lit "sub"] in
  let textExts := [lit "txt"; lit "md"; lit "json"; lit "xml"; lit "csv"] in
  if inArray ext videoExts then
    if bridge then
      match vr with
      | VideoResolved vstatus dataUrl =>
          if str_eqb vstatus (lit "success")
          then VideoPlayer dataUrl (lit "video/" ++ ext)
          else FailedVideo
      | VideoRejected => FailedVideo
      end
    else c
  else if inArray ext imageExts then
    if bridge then
      match ir with
      | ImageResolved base64Data =>
          ImageView (lit "data:image/" ++ ext ++ lit ";base64," ++ base64Data)
                    filename
      | ImageRejected => FailedImage
      end
    else c
  else if inArray ext fontExts then FontPreview
  else if inArray ext audioExts then AudioPreview
  else if inArray ext subtitleExts then SubtitlePreview
  else if inArray ext textExts then TextPreview
  else NotAvailable.

Section Preview.

Variable toLowerCase : jsstring -> jsstring.

(** [showPreviewInAssetsTab(filepath, filename)] on a page that has the
    container, once the awaited call is settled (the loading text shown
    until then is overwritten). *)
Definition showPreviewInAssetsTab (bridge : bool) (filepath filename : jsstring)
    (vr : VideoReply) (ir : ImageReply) (c : Container) : Container :=
  previewFor (toLowerCase (lastSegment isDot filename)) bridge filepath
             filename vr ir c.

End Preview.

(** The row type that names what the container shows. *)
Definition shownAs (c : Container) : jsstring :=
  match c with
  | VideoPlayer _ _ | FailedVideo => lit "video"
  | ImageView _ _ | FailedImage => lit "image"
  | FontPreview => lit "font"
  | AudioPreview => lit "audio"
  | SubtitlePreview | TextPreview | NotAvailable => lit "other"
  end.

(** Every extension one of the lists of the two functions names. *)
Definition knownExts : list jsstring :=
  [lit "mp4"; lit "mov"; lit "avi"; lit "webm"; lit "gif"; lit "mkv";
   lit "flv"; lit "m4v"; lit "png"; lit "jpg"; lit "jpeg"; lit "svg";
   lit "bmp"; lit "webp"; lit "ico"; lit "ttf"; lit "otf"; lit "woff";
   lit "woff2"; lit "ttc"; lit "eot"; lit "mp3"; lit "wav"; lit "ogg";
   lit "m4a"; lit "aac"; lit "flac"; lit "wma"; lit "srt"; lit "vtt";
   lit "ass"; lit "ssa"; lit "sub"; lit "txt"; lit "md"; lit "json";
   lit "xml"; lit "csv"].

End AssetRows.

(** ** The two upload handlers *)

Module Upload.
Import Js.

(** What the handlers do that can be seen from outside. *)
Inductive Effect :=
| select_files_to_upload
| add_assets (filePaths : list jsstring)
| Toast (message type : jsstring)
| Alert (message : jsstring)
| CustomAlert (message type : jsstring)
| ConsoleError (text : jsstring)
| RefreshAssets
| LoadAssets.

(** The object [select_files_to_upload] resolves with: its [status] and
    its [file_paths] ([None] when the field is missing). *)
Record Chosen := {
  cstatus : jsstring;
  file_paths : option (list jsstring)
}.

(** What the awaited [select_files_to_upload] produces: an object, a
    falsy value, or a rejection with the error's message. *)
Inductive Selection :=
| Selected (result : option Chosen)
| SelectFailed (errMessage : jsstring).

(** What the awaited [add_assets] produces; [added] is the count the
    backend reports ([None] when the field is missing). *)
Inductive AddReply :=
| AddResolved (astatus : jsstring) (added : option Z) (amessage : jsstring)
    (errors : list jsstring)
| AddFailed (errMessage : jsstring).

(** A value in a template literal. *)
Definition printed (n : option Z) : jsstring :=
  match n with Some z => numToString z | None => lit "undefined" end.

(** [uploadFiles(filePaths)] of [new_features.js]; [refreshDefined] tells
    whether [refreshAssets] is a function on the page. *)
Definition uploadFiles (filePaths : list jsstring) (add : AddReply)
    (refreshDefined : bool) : list Effect :=
  add_assets filePaths ::
  match add with
  | AddResolved astatus added amessage errors =>
      if str_eqb astatus (lit "success") then
        Toast (lit "Added " ++ printed added ++ lit " file(s) to assets")
              (lit "success")
        :: (if refreshDefined then [RefreshAssets] else [])
      else
        Toast (if truthy amessage then amessage else lit "Failed to add files")
              (lit "error")
        :: (match errors with
            | _ :: _ => [ConsoleError (lit "[UPLOAD] Errors:")]
            | [] => []
            end)
  | AddFailed _ =>
      [ConsoleError (lit "[UPLOAD] Error uploading files:");
       Toast (lit "Error uploading files") (lit "error")]
  end.

(** [openFileDialogAndUpload()] of [new_features.js]; [available] tells
    whether [pywebview.api] is there. *)
Definition openFileDialogAndUpload (available : bool) (sel : Selection)
    (add : AddReply) (refreshDefined : bool) : list Effect :=
  if negb available then
    [ConsoleError (lit "[UPLOAD] PyWebView API not available");
     Alert (lit "PyWebView API not available. Please restart the app.")]
  else
    select_files_to_upload ::
    match sel with
    | Selected (Some result) =>
        if str_eqb (cstatus result) (lit "success") then
          match file_paths result with
          | Some (path :: paths) => uploadFiles (path :: paths) add refreshDefined
          | _ => []
          end
        else []
    | Selected None => []
    | SelectFailed errMessage =>
        [ConsoleError (lit "[UPLOAD] Error opening file dialog:");
         Alert (lit "Error: " ++ errMessage)]
    end.

(** [window.uploadAssets()] of [simple_assets.js], with the bridge there. *)
Definition uploadAssets (sel : Selection) (add : AddReply) : list Effect :=
  select_files_to_upload ::
  match sel with
  | Selected (Some result) =>
      if str_eqb (cstatus result) (lit "success") then
        match file_paths result with
        | Some paths =>
            add_assets paths ::
            match add with
            | AddResolved astatus added _ _ =>
                if str_eqb astatus (lit "success") then
                  [CustomAlert
                     (lit "Successfully added " ++ printed added ++ lit " file"
                      ++ (match added with
                          | Some 1%Z => []
                          | _ => lit "s"
                          end) ++ lit "!")
                     (lit "success");
                   LoadAssets]
                else []
            | AddFailed errMessage =>
                [ConsoleError (lit "[SIMPLE] Upload error:");
                 CustomAlert (lit "Error: " ++ errMessage) (lit "error")]
            end
        | None => []
        end
      else []
  | Selected None => []
  | SelectFailed errMessage =>
      [ConsoleError (lit "[SIMPLE] Upload error:");
       CustomAlert (lit "Error: " ++ errMessage) (lit "error")]
  end.

(** *** Vocabulary of the properties *)

(** The lists of paths handed to [add_assets]. *)
Definition sentPaths (l : list Effect) : list (list jsstring) :=
  flat_map (fun e => match e with add_assets ps => [ps] | _ => [] end) l.

(** The paths of a selection that resolved with status ['success']. *)
Definition chosenPaths (sel : Selection) : option (list jsstring) :=
  match sel with
  | Selected (Some result) =>
      if str_eqb (cstatus result) (lit "success") then file_paths result
      else None
  | _ => None
  end.

Definition added_ok (add : AddReply) : bool :=
  match add with
  | AddResolved astatus _ _ _ => str_eqb astatus (lit "success")
  | AddFailed _ => false
  end.

Definition reloads (l : list Effect) : bool :=
  existsb (fun e => match e with RefreshAssets | LoadAssets => true
                            | _ => false end) l.

End Upload.

(** * Properties *)

(** ** Strings *)

Module JsFacts.
Import Js.

Lemma str_eqb_eq (a b : jsstring) : str_eqb a b = true <-> a = b.
Proof.
  revert b; induction a as [|x a IH]; intros [|y b]; simpl; split;
    try congruence; try discriminate; try reflexivity.
  - intros H. apply andb_true_iff in H as [Hx Hab].
    apply N.eqb_eq in Hx. apply IH in Hab. now subst.
  - intros H. injection H as -> ->.
    apply andb_true_iff. split; [apply N.eqb_refl | now apply IH].
Qed.

Lemma str_eqb_refl (a : jsstring) : str_eqb a a = true.
Proof. now apply str_eqb_eq. Qed.

Lemma str_eqb_neq (a b : jsstring) : str_eqb a b = false <-> a <> b.
Proof.
  split.
  - intros H E. apply str_eqb_eq in E. congruence.
  - intros H. destruct (str_eqb a b) eqn:E; [|reflexivity].
    apply str_eqb_eq in E. contradiction.
Qed.

(** [!s.trim()] holds exactly for the strings made of white space only. *)
Lemma trimStart_nil_iff (s : jsstring) :
  trimStart s = [] <-> forallb isWhiteSpace s = true.
Proof.
  induction s as [|c t IH]; simpl.
  - tauto.
  - destruct (isWhiteSpace c); simpl.
    + exact IH.
    + split; discriminate.
Qed.

Lemma trim_nil_iff (s : jsstring) :
  trim s = [] <-> forallb isWhiteSpace s = true.
Proof.
  unfold trim, trimEnd. split.
  - intros H.
    assert (Hr : trimStart (rev (trimStart s)) = []).
    { apply (f_equal (@rev N)) in H. rewrite rev_involutive in H. exact H. }
    apply trimStart_nil_iff in Hr.
    destruct (trimStart s) as [|c t] eqn:E.
    + now apply trimStart_nil_iff.
    + exfalso.
      assert (Hc : isWhiteSpace c = false).
      { destruct s as [|x s']; [discriminate|].
        revert E. clear. revert x. induction s' as [|y s' IH]; intros x; simpl.
        - destruct (isWhiteSpace x) eqn:Ex; [discriminate|]. congruence.
        - destruct (isWhiteSpace x) eqn:Ex.
          + apply IH.
          + congruence. }
      rewrite forallb_forall in Hr.
      specialize (Hr c). rewrite <- in_rev in Hr.
      rewrite Hr in Hc by (left; reflexivity). discriminate.
  - intros H. apply trimStart_nil_iff in H. rewrite H. reflexivity.
Qed.

End JsFacts.

(** ** Job coordinator *)

Module JobFacts.
Import Js Renderer JsFacts.

Lemma set_log_set_log (l1 l2 : list Effect) (s : State) :
  set_log l2 (set_log l1 s) = set_log l2 s.
Proof. reflexivity. Qed.

Lemma set_log_same (s : State) : set_log (log s) s = s.
Proof. now destruct s. Qed.

(** A start request met by a set flag only adds the warning. *)
Lemma start_while_running (s : State) (r : StartRequest) :
  running (job s) = true ->
  exec (start r) s = set_log (log s ++ [rejection]) s.
Proof.
  intros H. destruct r as [f reply | f reply];
    unfold exec, start, renderAnimation, quickPreview, bind, get; simpl;
    rewrite H; reflexivity.
Qed.

Lemma runStarts_while_running (rs : list StartRequest) (s : State) :
  running (job s) = true ->
  runStarts s rs = set_log (log s ++ map (fun _ => rejection) rs) s.
Proof.
  revert s. induction rs as [|r rs IH]; intros s H.
  - simpl. rewrite app_nil_r. symmetry. apply set_log_same.
  - change (runStarts s (r :: rs)) with (runStarts (exec (start r) s) rs).
    rewrite (start_while_running s r H).
    rewrite IH by exact H.
    simpl. rewrite <- app_assoc. reflexivity.
Qed.

Lemma apiCalls_app (l1 l2 : list Effect) :
  apiCalls (l1 ++ l2) = apiCalls l1 ++ apiCalls l2.
Proof. unfold apiCalls. apply flat_map_app. Qed.

Lemma toasts_app (l1 l2 : list Effect) :
  toasts (l1 ++ l2) = toasts l1 ++ toasts l2.
Proof. unfold toasts. apply flat_map_app. Qed.

Lemma apiCalls_rejections (rs : list StartRequest) :
  apiCalls (map (fun _ => rejection) rs) = [].
Proof. induction rs; simpl; auto. Qed.

Lemma toasts_rejections (rs : list StartRequest) :
  toasts (map (fun _ => rejection) rs)
  = map (fun _ => (lit "Another job is running", lit "warning")) rs.
Proof. induction rs as [|r rs IH]; simpl; [reflexivity|]. now rewrite <- IH. Qed.

(** What the guard does once the job flag is set: every request of a
    sequence of start-render / start-preview requests is rejected: the job
    record stays as it is, no backend call is issued and each request shows
    the warning notification; nothing else of the page changes. *)
Theorem start_requests_rejected_while_running
    (s : State) (rs : list StartRequest) :
  running (job s) = true ->
  let s' := runStarts s rs in
  job s' = job s
  /\ apiCalls (log s') = apiCalls (log s)
  /\ toasts (log s')
     = toasts (log s)
       ++ map (fun _ => (lit "Another job is running", lit "warning")) rs
  /\ s' = set_log (log s') s.
Proof.
  intros H s'. subst s'. rewrite (runStarts_while_running rs s H).
  repeat split.
  - simpl. rewrite apiCalls_app, apiCalls_rejections. apply app_nil_r.
  - simpl. rewrite toasts_app, toasts_rejections. reflexivity.
Qed.

Lemma start_requests_rejected_while_running_witness :
  let s := Samples.busy (lit "x") in
  let rs := [StartRender Samples.form720 Samples.accepted;
             StartPreview Samples.form720 Samples.accepted] in
  running (job s) = true
  /\ job (runStarts s rs) = job s
  /\ apiCalls (log (runStarts s rs)) = apiCalls (log s).
Proof.
  split; [reflexivity|].
  pose proof (start_requests_rejected_while_running
                (Samples.busy (lit "x"))
                [StartRender Samples.form720 Samples.accepted;
                 StartPreview Samples.form720 Samples.accepted]
                eq_refl) as H.
  split; [exact (proj1 H) | exact (proj1 (proj2 H))].
Defined.

(** A start request met by a clear flag and a text that is not blank
    reaches the backend; the flag stays clear, the text is not touched and
    the request is not answered with the warning. *)
Lemma start_from_idle (s : State) (r : StartRequest) :
  running (job s) = false ->
  trim (editorText s) <> [] ->
  let s' := exec (start r) s in
  running (job s') = false
  /\ editorText s' = editorText s
  /\ List.length (apiCalls (log s')) = S (List.length (apiCalls (log s)))
  /\ (In rejection (log s') -> In rejection (log s)).
Proof.
  intros Hr Ht.
  assert (Hc : truthy (trim (editorText s)) = true)
    by (destruct (trim (editorText s)); [now elim Ht | reflexivity]).
  assert (Hrej : forall m, rejection <> Toast m (lit "error"))
    by (intros m H; vm_compute in H; discriminate H).
  destruct s as [ed cl [rn ty] sv un aa cf sq tm pl lc lr rt ts nt ind st ag ac wt pv lg].
  cbn [job running] in Hr. subst rn.
  unfold editorText, getEditorValue, bind, get, ret in Hc. cbn [fst editor] in Hc.
  destruct r as [f [res|err] | f [res|err]];
    unfold exec, start, renderAnimation, quickPreview, editorText, getEditorValue,
      setTerminalStatus, toast, emit, modify, skip, bind, get, ret;
    cbn -[apiCalls rejection lit app str_eqb trim parseInt10 numToString orElse];
    rewrite Hc;
    cbn -[apiCalls rejection lit app str_eqb trim parseInt10 numToString orElse];
    try destruct (str_eqb (status res) (lit "error"));
    try destruct st as [[stx sty]|];
    cbn -[apiCalls rejection lit app str_eqb trim parseInt10 numToString orElse];
    (repeat split;
     [ rewrite ?apiCalls_app; cbn [apiCalls flat_map app];
       rewrite ?app_nil_r, ?length_app; cbn [List.length]; lia
     | intros Hin; repeat (apply in_app_or in Hin as [Hin|Hin]);
       try assumption;
       repeat (destruct Hin as [Hin|Hin]; [|try contradiction]);
       try (now elim (Hrej _ (eq_sym Hin)));
       try (vm_compute in Hin; discriminate Hin) ]).
Qed.


(** C1 (what the code does): no handler sets the job flag, so the guard of
    the start handlers never fires on a page that starts idle: with code in
    the editor, every request of any sequence of start-render /
    start-preview requests reaches the backend, none is rejected with the
    warning, and the flag is still clear afterwards. *)
Theorem idle_page_accepts_every_start (s : State) (rs : list StartRequest) :
  running (job s) = false ->
  trim (editorText s) <> [] ->
  let s' := runStarts s rs in
  running (job s') = false
  /\ List.length (apiCalls (log s'))
     = (List.length (apiCalls (log s)) + List.length rs)%nat
  /\ (In rejection (log s') -> In rejection (log s)).
Proof.
  revert s. induction rs as [|r rs IH]; intros s Hr Ht; cbv zeta.
  - cbn. repeat split; try assumption; try lia; auto.
  - change (runStarts s (r :: rs)) with (runStarts (exec (start r) s) rs).
    destruct (@start_from_idle s r Hr Ht) as (H1 & H2 & H3 & H4).
    rewrite <- H2 in Ht.
    destruct (IH _ H1 Ht) as (I1 & I2 & I3).
    repeat split; [exact I1 | rewrite I2, H3; cbn [List.length]; lia | tauto].
Qed.

Lemma idle_page_accepts_every_start_witness :
  let s := Samples.loaded (lit "x") in
  let s' := runStarts s [StartRender Samples.form720 Samples.accepted;
                         StartPreview Samples.form720 Samples.accepted] in
  running (job s') = false
  /\ List.length (apiCalls (log s')) = 2%nat
  /\ ~ In rejection (log s').
Proof.
  destruct (@idle_page_accepts_every_start (Samples.loaded (lit "x"))
              [StartRender Samples.form720 Samples.accepted;
               StartPreview Samples.form720 Samples.accepted]
              eq_refl ltac:(vm_compute; discriminate)) as (H1 & H2 & H3).
  split; [exact H1|]. split; [exact H2|].
  intros Hin. exact (H3 Hin).
Defined.

(** C2 (what the code does): a start request accepted from the idle state
    calls the backend entry point, yet the job record still reads
    [{running: false, type: null}] afterwards. *)
Theorem accepted_start_leaves_job_idle :
  let s := Samples.loaded (lit "x") in
  let s1 := exec (renderAnimation Samples.form720 Samples.accepted) s in
  let s2 := exec (quickPreview Samples.form720 Samples.accepted) s in
  apiCalls (log s1) = [render_animation (lit "x") (lit "720p") 30]
  /\ job s1 = {| running := false; type := None |}
  /\ apiCalls (log s2) = [quick_preview (lit "x") (lit "720p") 30]
  /\ job s2 = {| running := false; type := None |}.
Proof. vm_compute. repeat split; reflexivity. Qed.

(** No start request ever sets the flag: it is set after the request only if
    it was set before. *)
Lemma start_never_sets_running (s : State) (r : StartRequest) :
  running (job (exec (start r) s)) = true -> running (job s) = true.
Proof.
  destruct (running (job s)) eqn:E; [reflexivity|].
  destruct r as [f [res|err] | f [res|err]];
    unfold exec, start, renderAnimation, quickPreview, bind, get, getEditorValue,
      toast, emit, modify, skip, ret, setTerminalStatus; simpl; rewrite E;
    destruct (terminalStatus s);
    repeat (match goal with
            | |- context [if ?b then _ else _] => destruct b
            end; simpl);
    simpl; congruence.
Qed.

(** Consequence of the missing assignment: two start requests in a row from
    the idle state both reach the backend. *)
Lemma second_start_not_rejected :
  let s := Samples.loaded (lit "x") in
  apiCalls (log (runStarts s [StartRender Samples.form720 Samples.accepted;
                              StartPreview Samples.form720 Samples.accepted]))
  = [render_animation (lit "x") (lit "720p") 30;
     quick_preview (lit "x") (lit "720p") 30].
Proof. vm_compute. reflexivity. Qed.

(** C9: with an editor text that is empty or white space only, a render or
    preview request stops at a warning notification: nothing but the log
    changes, and the log gains that warning only. *)
Theorem blank_code_blocked_locally (s : State) (r : StartRequest) :
  forallb isWhiteSpace (editorText s) = true ->
  exists msg,
    exec (start r) s = set_log (log s ++ [Toast msg (lit "warning")]) s
    /\ job (exec (start r) s) = job s
    /\ apiCalls (log (exec (start r) s)) = apiCalls (log s).
Proof.
  intros H. apply trim_nil_iff in H.
  assert (G : forall msg,
             exec (start r) s = set_log (log s ++ [Toast msg (lit "warning")]) s ->
             exec (start r) s = set_log (log s ++ [Toast msg (lit "warning")]) s
             /\ job (exec (start r) s) = job s
             /\ apiCalls (log (exec (start r) s)) = apiCalls (log s)).
  { intros msg E. rewrite E. repeat split.
    simpl. rewrite apiCalls_app. simpl. apply app_nil_r. }
  destruct (running (job s)) eqn:E.
  - exists (lit "Another job is running"). apply G.
    apply (start_while_running s r E).
  - unfold editorText, getEditorValue, bind, get, ret in H. simpl in H.
    destruct r as [f reply | f reply].
    + exists (lit "No code to render"). apply G.
      unfold exec, start, renderAnimation, bind, get, getEditorValue, ret.
      simpl. rewrite E, H. reflexivity.
    + exists (lit "No code to preview"). apply G.
      unfold exec, start, quickPreview, bind, get, getEditorValue, ret.
      simpl. rewrite E, H. reflexivity.
Qed.

Lemma blank_code_blocked_locally_witness :
  let s := Samples.loaded (lit "  ") in
  forallb isWhiteSpace (editorText s) = true
  /\ exists msg,
       exec (start (StartRender Samples.form720 Samples.accepted)) s
       = set_log (log s ++ [Toast msg (lit "warning")]) s
       /\ job (exec (start (StartRender Samples.form720 Samples.accepted)) s) = job s
       /\ apiCalls (log (exec (start (StartRender Samples.form720 Samples.accepted)) s))
          = apiCalls (log s).
Proof.
  split; [reflexivity|].
  exact (blank_code_blocked_locally (Samples.loaded (lit "  "))
           (StartRender Samples.form720 Samples.accepted) eq_refl).
Defined.

Ltac run_handler :=
  unfold exec, renderCompleted, renderFailed, previewCompleted, previewFailed,
    showPreview, clickWorkspaceTab, appendConsole, setTerminalStatus, toast,
    setTimeout, emit, modify, skip, bind, get, ret;
  cbn -[apiCalls rule lit app lastSegment okMark failMark].

Ltac count_calls :=
  rewrite ?apiCalls_app; cbn [apiCalls flat_map app]; rewrite ?app_nil_r.

(** C5: each of the four callbacks (render completed, render failed, preview
    completed, preview failed) leaves the running flag clear, whatever the
    job record held.  A completion with a non-empty output path clears the
    preview surface and asks the backend for the URL of the file; when the
    backend returns it and no other load has touched the surface, the rest
    of [showPreview] loads the output: the returned URL (with the
    cache-busting parameter) becomes the source of the video element for an
    mp4, mov, webm or avi file, of the image element for a png, jpg, jpeg,
    gif or webp file, and that element alone is visible. *)
Theorem completion_clears_running_and_loads_output
    (toLowerCase : jsstring -> jsstring) (s : State)
    (outputPath suggestedName error : jsstring) (autoSave : bool) :
  running (job (exec (renderCompleted outputPath autoSave suggestedName) s)) = false
  /\ running (job (exec (renderFailed error) s)) = false
  /\ running (job (exec (previewCompleted outputPath) s)) = false
  /\ running (job (exec (previewFailed error) s)) = false
  /\ (truthy outputPath = true ->
      forall s1,
        s1 = exec (renderCompleted outputPath autoSave suggestedName) s
        \/ s1 = exec (previewCompleted outputPath) s ->
        loadsPreview outputPath s s1
        /\ forall (s2 : State) (dataUrl umessage : jsstring) (now : Z),
             preview s2 = preview s1 ->
             truthy dataUrl = true ->
             let filename := lastSegment isSlash outputPath in
             let ext := toLowerCase (lastSegment isDot filename) in
             let src := PreviewLoad.cacheBusted dataUrl now in
             let p := preview
                        (exec (PreviewLoad.showPreviewLoaded toLowerCase outputPath
                                 (PreviewLoad.UrlResolved (lit "success") dataUrl
                                    umessage) now) s2) in
             (In ext PreviewLoad.videoFormats ->
              p = PreviewLoad.showsVideo src filename)
             /\ (In ext PreviewLoad.imageFormats ->
                 p = PreviewLoad.showsImage src filename)).
Proof.
  assert (Hflags :
    running (job (exec (renderCompleted outputPath autoSave suggestedName) s)) = false
    /\ running (job (exec (renderFailed error) s)) = false
    /\ running (job (exec (previewCompleted outputPath) s)) = false
    /\ running (job (exec (previewFailed error) s)) = false).
  { destruct s as [ed cl jb sv un aa cf sq [tm|] pl lc lr rt ts nt ind [st|] ag ac [|] pv lg];
      destruct autoSave, (truthy outputPath) eqn:Ho;
      repeat split; run_handler; rewrite ?Ho;
      cbn -[apiCalls rule lit app lastSegment okMark failMark];
      reflexivity. }
  destruct Hflags as (F1 & F2 & F3 & F4).
  split; [exact F1|]. split; [exact F2|]. split; [exact F3|]. split; [exact F4|].
  intros H s1 Hs1.
  assert (L : loadsPreview outputPath s s1).
  { unfold loadsPreview, cleared.
    destruct Hs1 as [-> | ->];
      destruct s as [ed cl jb sv un aa cf sq [tm|] pl lc lr rt ts nt ind [st|] ag ac [|] pv lg];
      destruct autoSave;
      repeat split; run_handler; rewrite ?H;
      cbn -[apiCalls rule lit app lastSegment okMark failMark];
      try reflexivity; count_calls; try reflexivity. }
  split; [exact L|].
  intros s2 dataUrl umessage now Hp Hd. cbv zeta.
  destruct L as [_ Hc]. rewrite Hc in Hp. clear Hc.
  destruct s2 as [ed2 cl2 jb2 sv2 un2 aa2 cf2 sq2 tm2 pl2 lc2 lr2 rt2 ts2 nt2
                    ind2 st2 ag2 ac2 wt2 pv2 lg2].
  cbn [preview] in Hp. subst pv2.
  unfold exec, PreviewLoad.showPreviewLoaded, PreviewLoad.showError, modify.
  rewrite str_eqb_refl, Hd. cbn [negb orb].
  set (ext := toLowerCase _). clearbody ext.
  unfold PreviewLoad.videoFormats, PreviewLoad.imageFormats.
  split; intros Hin; cbn [In] in Hin;
    repeat (destruct Hin as [<-|Hin]; [vm_compute (str_eqb _ _); reflexivity|]);
    contradiction.
Qed.

Lemma completion_clears_running_and_loads_output_witness :
  let s := Samples.busy (lit "x") in
  let out := lit "C:/media/out.mp4" in
  let s1 := exec (renderCompleted out false (lit "MyScene.mp4")) s in
  let s2 := exec (PreviewLoad.showPreviewLoaded Samples.asciiLower out
                    (PreviewLoad.UrlResolved (lit "success")
                       (lit "http://127.0.0.1:8000/out.mp4") [])
                    17%Z) s1 in
  running (job s) = true
  /\ running (job s1) = false
  /\ loadsPreview out s s1
  /\ preview s2
     = PreviewLoad.showsVideo (lit "http://127.0.0.1:8000/out.mp4?_=17")
                              (lit "out.mp4").
Proof.
  split; [reflexivity|].
  pose proof (@completion_clears_running_and_loads_output
                Samples.asciiLower (Samples.busy (lit "x"))
                (lit "C:/media/out.mp4") (lit "MyScene.mp4") (lit "boom") false)
    as (H1 & _ & _ & _ & H5).
  split; [exact H1|].
  destruct (H5 eq_refl _ (or_introl eq_refl)) as [L H6].
  split; [exact L|].
  exact (proj1 (H6 _ (lit "http://127.0.0.1:8000/out.mp4") [] 17%Z
                   eq_refl eq_refl)
               (or_introl eq_refl)).
Defined.

(** A completion without an output path still clears the flag and leaves the
    preview surface alone. *)
Lemma completion_without_output (s : State) (autoSave : bool) (n : jsstring) :
  let s' := exec (renderCompleted [] autoSave n) s in
  running (job s') = false /\ preview s' = preview s
  /\ apiCalls (log s') = apiCalls (log s).
Proof.
  destruct s as [ed cl jb sv un aa cf sq [tm|] pl lc lr rt ts nt ind [st|] ag ac wt pv lg];
    repeat split; run_handler; try reflexivity; count_calls; reflexivity.
Qed.

End JobFacts.

(** ** Autosave *)

Module AutosaveFacts.
Import Js Renderer JsFacts.

(** C4: an autosave tick that finds the editor text equal to the last saved
    snapshot, or empty up to white space, changes nothing: no
    [autosave_code] call is logged and the save indicator keeps its state. *)
Theorem autosave_skips_saved_or_blank (s : State) (reply : Reply) :
  editorText s = lastSavedCode s
  \/ forallb isWhiteSpace (editorText s) = true ->
  let s' := exec (performAutosave reply) s in
  apiCalls (log s') = apiCalls (log s)
  /\ indicator s' = indicator s
  /\ hasUnsavedChanges s' = hasUnsavedChanges s
  /\ s' = s.
Proof.
  intros H s'.
  assert (E : s' = s); [| rewrite E; repeat split].
  subst s'. unfold editorText, getEditorValue, bind, get, ret in H. simpl in H.
  unfold exec, performAutosave, getEditorValue, bind, get, ret, skip.
  simpl. destruct (editor s) as [code|] eqn:Ee; [|reflexivity].
  destruct (isAppClosing s); [reflexivity|]. simpl. rewrite !Ee in *.
  destruct H as [H|H].
  - rewrite H, str_eqb_refl. reflexivity.
  - apply trim_nil_iff in H. rewrite H.
    destruct (str_eqb code (lastSavedCode s)); reflexivity.
Qed.

Lemma autosave_skips_saved_or_blank_witness :
  let s := set_lastSavedCode (lit "x") (Samples.loaded (lit "x")) in
  editorText s = lastSavedCode s
  /\ exec (performAutosave Samples.accepted) s = s.
Proof.
  split; [reflexivity|].
  exact (proj2 (proj2 (proj2
    (autosave_skips_saved_or_blank
       (set_lastSavedCode (lit "x") (Samples.loaded (lit "x")))
       Samples.accepted (or_introl eq_refl))))).
Defined.

(** The tick does save a changed, non-blank text. *)
Lemma autosave_saves_changed_text :
  let s' := exec (performAutosave Samples.accepted) (Samples.loaded (lit "x")) in
  apiCalls (log s') = [autosave_code (lit "x")]
  /\ lastSavedCode s' = lit "x"
  /\ ind_class (indicator s') = Some saved.
Proof. vm_compute. repeat split; reflexivity. Qed.

End AutosaveFacts.

(** ** Assets *)

Module AssetsFacts.
Import Js Renderer JsFacts.

Lemma cardsFrom_files (lower : jsstring -> jsstring) (files : list Asset) :
  forall index, map card_file (cardsFrom lower index files) = files.
Proof.
  induction files as [|file rest IH]; intros index; simpl.
  - reflexivity.
  - now rewrite IH.
Qed.

Lemma cardsFrom_indices (lower : jsstring -> jsstring) (files : list Asset) :
  forall index,
    map card_index (cardsFrom lower index files) = seq index (List.length files).
Proof.
  induction files as [|file rest IH]; intros index; simpl.
  - reflexivity.
  - now rewrite IH.
Qed.

(** C7: with an empty search query and the filter "all", [displayAssets] on
    the cached list shows exactly the cached files, each once and in the
    order of the cache, and leaves the cache as it is. *)
Theorem unfiltered_grid_shows_cache
    (toLowerCase : jsstring -> jsstring) (s : State) :
  searchQuery s = [] ->
  currentFilter s = lit "all" ->
  assetsGrid s <> None ->
  let s' := exec (displayAssets toLowerCase (allAssets s)) s in
  option_map shownFiles (assetsGrid s') = Some (allAssets s)
  /\ allAssets s' = allAssets s.
Proof.
  intros Hq Hf Hg s'. subst s'.
  unfold exec, displayAssets, updateAssetsCount, bind, get, modify.
  cbn -[cardsFrom numToString lit str_eqb]. rewrite Hq, Hf, str_eqb_refl.
  destruct (assetsGrid s) as [g|] eqn:Eg; [|contradiction].
  destruct (allAssets s) as [|file rest] eqn:Ea;
    cbn -[cardsFrom numToString lit str_eqb];
    destruct (assetsCount s);
    cbn -[cardsFrom numToString lit str_eqb]; rewrite ?Ea;
    (split; [|reflexivity]); try reflexivity.
  all: f_equal; apply (cardsFrom_files toLowerCase (file :: rest) 0).
Qed.

Lemma unfiltered_grid_shows_cache_witness :
  let s := set_allAssets [Samples.clip "b.mp4"; Samples.clip "a.png"]
             (Samples.loaded (lit "x")) in
  option_map shownFiles
    (assetsGrid (exec (displayAssets Samples.asciiLower (allAssets s)) s))
  = Some [Samples.clip "b.mp4"; Samples.clip "a.png"].
Proof.
  refine (proj1 (unfiltered_grid_shows_cache Samples.asciiLower
            (set_allAssets [Samples.clip "b.mp4"; Samples.clip "a.png"]
               (Samples.loaded (lit "x")))
            eq_refl eq_refl _)).
  simpl. discriminate.
Defined.

(** A filter does narrow the grid. *)
Lemma video_filter_narrows :
  let s := set_currentFilter (lit "video")
             (set_allAssets [Samples.clip "b.mp4"; Samples.clip "a.png"]
                (Samples.loaded (lit "x"))) in
  option_map shownFiles
    (assetsGrid (exec (displayAssets Samples.asciiLower (allAssets s)) s))
  = Some [Samples.clip "b.mp4"].
Proof. vm_compute. reflexivity. Qed.

End AssetsFacts.

(** ** The output console of [script.js] *)

Module ScriptFacts.
Import Js Script.

Lemma limitLines_skipn (children : list Line) :
  limitLines children = skipn (List.length children - 500) children.
Proof.
  induction children as [|line rest IH].
  - reflexivity.
  - cbn [limitLines].
    destruct (Nat.ltb_spec 500 (List.length (line :: rest))) as [Hgt|Hle].
    + rewrite IH. cbn [List.length] in *.
      replace (S (List.length rest) - 500)%nat
        with (S (List.length rest - 500)) by lia.
      reflexivity.
    + replace (List.length (line :: rest) - 500)%nat with 0%nat by lia.
      reflexivity.
Qed.

(** C10: after [addOutput] the console holds at most 500 lines, and they are
    the most recent ones: the old lines followed by the new line, with as
    many of the oldest dropped as exceed 500. *)
Theorem addOutput_keeps_last_500
    (message kind timestamp : jsstring) (children : list Line) :
  let after := addOutput message kind timestamp children in
  (List.length after <= 500)%nat
  /\ after = skipn (List.length children + 1 - 500)
                   (children ++ [lineMarkup message kind timestamp])
  /\ List.length after = Nat.min 500 (List.length children + 1).
Proof.
  intros after. subst after. unfold addOutput.
  rewrite limitLines_skipn.
  rewrite !length_skipn, !length_app. cbn [List.length].
  repeat split; lia.
Qed.

(** The 501st line pushes the first one out. *)
Lemma addOutput_drops_oldest :
  let old := map (fun n => [N.of_nat n]) (seq 0 500) in
  addOutput (lit "done") (lit "success") (lit "12:00:00") old
  = tl old ++ [lineMarkup (lit "done") (lit "success") (lit "12:00:00")].
Proof. vm_compute. reflexivity. Qed.

End ScriptFacts.

(** ** Deleting an asset *)

Module DeleteFacts.
Import Js.

Lemma declined_step (t : SimpleAssets.State) (e : SimpleAssets.Event) :
  SimpleAssets.isClickYes e = false ->
  SimpleAssets.log (SimpleAssets.step t e) = SimpleAssets.log t
  /\ SimpleAssets.rows (SimpleAssets.step t e) = SimpleAssets.rows t.
Proof. destruct e; simpl; intros H; try discriminate; split; reflexivity. Qed.

Lemma declined_run (es : list SimpleAssets.Event) :
  forall t : SimpleAssets.State,
    forallb (fun e => negb (SimpleAssets.isClickYes e)) es = true ->
    SimpleAssets.log (SimpleAssets.run t es) = SimpleAssets.log t
    /\ SimpleAssets.rows (SimpleAssets.run t es) = SimpleAssets.rows t.
Proof.
  induction es as [|e es IH]; intros t H; simpl in *.
  - split; reflexivity.
  - apply andb_true_iff in H as [He Hes].
    apply negb_true_iff in He.
    destruct (declined_step t e He) as [Hl Hr].
    destruct (IH (SimpleAssets.step t e) Hes) as [Hl' Hr'].
    unfold SimpleAssets.run in *. split; congruence.
Qed.

(** A [delete_asset] call of the custom dialog comes from a click on its
    Delete button while the dialog is open. *)
Lemma delete_call_needs_click (t : SimpleAssets.State) (e : SimpleAssets.Event) :
  SimpleAssets.log (SimpleAssets.step t e) <> SimpleAssets.log t ->
  SimpleAssets.isClickYes e = true /\ SimpleAssets.modal t <> None.
Proof.
  destruct e as [p n | reply files | | |]; simpl; try congruence.
  destruct (SimpleAssets.modal t) as [[msg p]|]; [|congruence].
  intros _. split; [reflexivity | discriminate].
Qed.

(** C8: a [delete_asset] call is issued only after the user confirmed.  With
    the browser's confirm box ([new_features.js]) a declined or dismissed
    box leaves the backend untouched and the cached list as it was; with
    the custom dialog ([simple_assets.js]) no sequence of user actions
    without a click on its Delete button issues any call or changes the
    listing, and a call that is issued stems from such a click on an open
    dialog. *)
Theorem delete_only_after_confirmation
    (toLowerCase : jsstring -> jsstring)
    (s : Renderer.State) (filePath fileName : jsstring)
    (reply : Renderer.Reply) (files : option (list Renderer.Asset))
    (t : SimpleAssets.State) (es : list SimpleAssets.Event) :
  forallb (fun e => negb (SimpleAssets.isClickYes e)) es = true ->
  (let s' := Renderer.exec
               (NewFeatures.deleteAsset toLowerCase filePath fileName false
                  reply files) s in
   Renderer.apiCalls (Renderer.log s') = Renderer.apiCalls (Renderer.log s)
   /\ Renderer.allAssets s' = Renderer.allAssets s)
  /\ (forall confirmed,
        Renderer.apiCalls
          (Renderer.log
             (Renderer.exec
                (NewFeatures.deleteAsset toLowerCase filePath fileName
                   confirmed reply files) s))
        <> Renderer.apiCalls (Renderer.log s) ->
        confirmed = true)
  /\ SimpleAssets.deleteCalls (SimpleAssets.log (SimpleAssets.run t es))
     = SimpleAssets.deleteCalls (SimpleAssets.log t)
  /\ SimpleAssets.log (SimpleAssets.run t es) = SimpleAssets.log t
  /\ SimpleAssets.rows (SimpleAssets.run t es) = SimpleAssets.rows t
  /\ (forall e,
        SimpleAssets.log (SimpleAssets.step t e) <> SimpleAssets.log t ->
        SimpleAssets.isClickYes e = true /\ SimpleAssets.modal t <> None).
Proof.
  intros H.
  assert (D : Renderer.apiCalls
                (Renderer.log
                   (Renderer.exec
                      (NewFeatures.deleteAsset toLowerCase filePath fileName
                         false reply files) s))
              = Renderer.apiCalls (Renderer.log s)).
  { unfold Renderer.exec, NewFeatures.deleteAsset, Renderer.bind,
      Renderer.emit, Renderer.modify, Renderer.skip, Renderer.ret.
    simpl. rewrite JobFacts.apiCalls_app. simpl. apply app_nil_r. }
  destruct (declined_run es t H) as [Hl Hr].
  split; [split; [exact D | reflexivity]|].
  split; [intros [|] Hc; [reflexivity | contradiction]|].
  split; [now rewrite Hl|].
  split; [exact Hl|].
  split; [exact Hr|].
  intros e. apply delete_call_needs_click.
Qed.

Lemma delete_only_after_confirmation_witness :
  let t := {| SimpleAssets.modal := None;
              SimpleAssets.rows :=
                Some [{| SimpleAssets.path := lit "C:\assets\a.png";
                         SimpleAssets.name := lit "a.png" |}];
              SimpleAssets.log := [] |} in
  let es := [SimpleAssets.RequestDelete (lit "C:\assets\a.png") (lit "a.png");
             SimpleAssets.PressEscape;
             SimpleAssets.RequestDelete (lit "C:\assets\a.png") (lit "a.png");
             SimpleAssets.ClickNo] in
  forallb (fun e => negb (SimpleAssets.isClickYes e)) es = true
  /\ SimpleAssets.log (SimpleAssets.run t es) = SimpleAssets.log t
  /\ SimpleAssets.rows (SimpleAssets.run t es) = SimpleAssets.rows t.
Proof.
  split; [reflexivity|].
  pose proof (delete_only_after_confirmation Samples.asciiLower
                (Samples.loaded (lit "x")) (lit "C:\assets\a.png") (lit "a.png")
                Samples.accepted None
                {| SimpleAssets.modal := None;
                   SimpleAssets.rows :=
                     Some [{| SimpleAssets.path := lit "C:\assets\a.png";
                              SimpleAssets.name := lit "a.png" |}];
                   SimpleAssets.log := [] |}
                [SimpleAssets.RequestDelete (lit "C:\assets\a.png") (lit "a.png");
                 SimpleAssets.PressEscape;
                 SimpleAssets.RequestDelete (lit "C:\assets\a.png") (lit "a.png");
                 SimpleAssets.ClickNo]
                eq_refl) as H.
  split; [exact (proj1 (proj2 (proj2 (proj2 H))))
         | exact (proj1 (proj2 (proj2 (proj2 (proj2 H)))))].
Defined.

(** A confirmed deletion does reach the backend, in both scripts. *)
Lemma confirmed_delete_calls_backend :
  Renderer.apiCalls
    (Renderer.log
       (Renderer.exec
          (NewFeatures.deleteAsset Samples.asciiLower (lit "C:\assets\a.png")
             (lit "a.png") true Samples.accepted (Some []))
          (Samples.loaded (lit "x"))))
  = [Renderer.delete_asset (lit "C:\assets\a.png"); Renderer.list_media_files]
  /\ SimpleAssets.deleteCalls
       (SimpleAssets.log
          (SimpleAssets.run
             {| SimpleAssets.modal := None; SimpleAssets.rows := Some [];
                SimpleAssets.log := [] |}
             [SimpleAssets.RequestDelete (lit "C:\assets\a.png") (lit "a.png");
              SimpleAssets.ClickYes
                (SimpleAssets.Resolved (lit "success") [])
                (SimpleAssets.Listed [])]))
     = [lit "C:\assets\a.png"].
Proof. vm_compute. split; reflexivity. Qed.

End DeleteFacts.

(** ** Terminal session *)

Module TerminalFacts.
Import Js Renderer JsFacts.

Lemma resizeCalls_app (l1 l2 : list Effect) :
  resizeCalls (l1 ++ l2) = resizeCalls l1 ++ resizeCalls l2.
Proof. unfold resizeCalls. apply flat_map_app. Qed.

Lemma consoleErrors_app (l1 l2 : list Effect) :
  consoleErrors (l1 ++ l2) = consoleErrors l1 ++ consoleErrors l2.
Proof. unfold consoleErrors. apply flat_map_app. Qed.

Lemma resizeErrors_app (l1 l2 : list Effect) :
  resizeErrors (l1 ++ l2) = resizeErrors l1 ++ resizeErrors l2.
Proof. unfold resizeErrors. rewrite consoleErrors_app. apply filter_app. Qed.

Ltac run_terminal :=
  unfold step, exec, handle, onContainerResize, onWindowResize, fireTimer,
    onResizeRejected, pollTick, onData, onBeforeUnload, runCallback,
    clearTimeout, setTimeout, termResize, emit, modify, skip, bind, get, ret;
  cbn -[resizeCalls resizeErrors apiCalls lit app calculateTerminalSize
        Z.ltb Z.eqb lookupTimer filter others].

Ltac split_sizes :=
  repeat match goal with
         | |- context [(?a <? ?b)%Z] => destruct (a <? b)%Z
         | |- context [(?a =? ?b)%Z] => destruct (a =? b)%Z
         end.

Ltac count_resizes :=
  rewrite ?resizeCalls_app, ?resizeErrors_app;
  cbn [resizeCalls resizeErrors consoleErrors flat_map filter app];
  rewrite ?app_nil_r.

(** *** After the shutdown flag is set *)

Lemma closing_step (s : State) (e : TermEvent) :
  isAppClosing s = true ->
  isAppClosing (step s e) = true
  /\ resizeCalls (log (step s e)) = resizeCalls (log s)
  /\ resizeErrors (log (step s e)) = resizeErrors (log s).
Proof.
  destruct s as [ed cl jb sv un aa cf sq tm pl lc lr rt ts nt ind st ag ac wt pv lg].
  cbn [isAppClosing]. intros ->.
  destruct e as [ | | id g | cb | [ps out|] | data | ]; run_terminal.
  - destruct tm, rt; cbn; repeat split; reflexivity.
  - destruct rt; cbn; repeat split; reflexivity.
  - destruct (lookupTimer id ts) as [cb|]; [|repeat split; reflexivity].
    destruct (calculateTerminalSize g) as [cols rows].
    destruct cb, tm; split_sizes;
      cbn -[resizeCalls resizeErrors lit app filter];
      repeat split; try reflexivity; count_resizes; reflexivity.
  - destruct cb; cbn; repeat split; reflexivity.
  - destruct (str_eqb ps (lit "success") && truthy out
              && match tm with Some _ => true | None => false end);
      cbn -[resizeCalls resizeErrors lit app];
      repeat split; try reflexivity; count_resizes; reflexivity.
  - repeat split; try reflexivity; count_resizes; try reflexivity.
  - repeat split; try reflexivity; count_resizes; reflexivity.
  - repeat split; reflexivity.
Qed.

Lemma closing_run (es : list TermEvent) :
  forall s : State,
    isAppClosing s = true ->
    isAppClosing (run s es) = true
    /\ resizeCalls (log (run s es)) = resizeCalls (log s)
    /\ resizeErrors (log (run s es)) = resizeErrors (log s).
Proof.
  induction es as [|e es IH]; intros s H.
  - repeat split; assumption || reflexivity.
  - change (run s (e :: es)) with (run (step s e) es).
    destruct (closing_step s e H) as (Hc & Hr & He).
    destruct (IH (step s e) Hc) as (Hc' & Hr' & He').
    repeat split; congruence.
Qed.

Lemma closing_autosave (s : State) (reply : Reply) :
  isAppClosing s = true -> exec (performAutosave reply) s = s.
Proof.
  intros H. unfold exec, performAutosave, bind, get, skip, ret. simpl.
  rewrite H. destruct (editor s); reflexivity.
Qed.

(** What the shutdown flag does guard: once set it stays set, and from
    then on no sequence of terminal events issues a [resize_terminal] call
    or reports a resize error, and an autosave tick does nothing. *)
Theorem shutdown_suppresses_resize_and_autosave
    (s : State) (es : list TermEvent) (reply : Reply) :
  isAppClosing s = true ->
  let s' := run s es in
  isAppClosing s' = true
  /\ resizeCalls (log s') = resizeCalls (log s)
  /\ resizeErrors (log s') = resizeErrors (log s)
  /\ exec (performAutosave reply) s' = s'.
Proof.
  intros H s'. subst s'.
  destruct (closing_run es s H) as (Hc & Hr & He).
  repeat split; try assumption.
  now apply closing_autosave.
Qed.

Lemma shutdown_suppresses_resize_and_autosave_witness :
  let s := step Samples.withTerminal evBeforeUnload in
  let es := [evContainerResize;
             evTimer 3 {| rect_width := 1100; rect_height := 700; cell := None |};
             evResizeRejected cbObserverSettled] in
  isAppClosing s = true
  /\ term (run s es) = Some (120, 40)%Z
  /\ resizeCalls (log (run s es)) = resizeCalls (log s)
  /\ resizeErrors (log (run s es)) = resizeErrors (log s).
Proof.
  split; [reflexivity|]. split; [vm_compute; reflexivity|].
  pose proof (shutdown_suppresses_resize_and_autosave
                (step Samples.withTerminal evBeforeUnload)
                [evContainerResize;
                 evTimer 3 {| rect_width := 1100; rect_height := 700; cell := None |};
                 evResizeRejected cbObserverSettled]
                Samples.accepted eq_refl) as H.
  split; [exact (proj1 (proj2 H)) | exact (proj1 (proj2 (proj2 H)))].
Defined.

(** C6 (what the code does): the polling interval and the input listener
    lack the guard that the resize closures and the autosave interval have:
    with the shutdown flag set, a tick of the polling interval still calls
    [get_terminal_output] and input still goes to [send_terminal_command]. *)
Lemma shutdown_does_not_stop_polling :
  let s := step Samples.withTerminal evBeforeUnload in
  isAppClosing s = true
  /\ apiCalls (log (step s (evPollTick (PollResolved (lit "success") []))))
     = apiCalls (log s) ++ [get_terminal_output]
  /\ apiCalls (log (step s (evData (lit "dir"))))
     = apiCalls (log s) ++ [send_terminal_command (lit "dir")].
Proof. vm_compute. repeat split; reflexivity. Qed.

(** *** Debounced resizing *)

(** C3 (what the code does): the window listener's settled closure reports
    the size to the backend although it equals the size reported last. *)
Theorem window_resize_reports_unchanged_size :
  let s := Samples.withTerminal in
  let s' := run s [evWindowResize; evTimer 3 Samples.geometry80x24] in
  (lastCols s, lastRows s) = (80, 24)%Z
  /\ calculateTerminalSize Samples.geometry80x24 = (80, 24)%Z
  /\ resizeCalls (log s) = [(80, 24)%Z]
  /\ resizeCalls (log s') = [(80, 24)%Z; (80, 24)%Z].
Proof. vm_compute. repeat split; reflexivity. Qed.

(** The observer's closure on the same input stays silent. *)
Lemma container_resize_skips_unchanged_size :
  let s := Samples.withTerminal in
  let s' := run s [evContainerResize; evTimer 3 Samples.geometry80x24] in
  resizeCalls (log s') = resizeCalls (log s).
Proof. vm_compute. reflexivity. Qed.

(** A resize event by itself only re-arms the timer. *)
Lemma resize_event_is_silent (s : State) (e : TermEvent) :
  isResizeEvent e = true -> log (step s e) = log s.
Proof.
  destruct e; try discriminate; intros _; run_terminal.
  - destruct (term s), (resizeTimeout s); reflexivity.
  - destruct (resizeTimeout s); reflexivity.
Qed.

(** The observer's closure and the secondary timer report a size only when
    it differs from the last one. *)
Lemma guarded_closures_report_changes_only
    (s : State) (cb : Callback) (g : Geometry) :
  cb = cbObserverSettled \/ cb = cbSecondarySize ->
  let s' := exec (runCallback cb g) s in
  resizeCalls (log s') = resizeCalls (log s)
  \/ (resizeCalls (log s') = resizeCalls (log s) ++ [calculateTerminalSize g]
      /\ calculateTerminalSize g <> (lastCols s, lastRows s)).
Proof.
  intros Hcb s'. subst s'.
  destruct s as [ed cl jb sv un aa cf sq tm pl lc lr rt ts nt ind st ag ac wt pv lg].
  destruct Hcb as [-> | ->]; run_terminal;
    destruct (calculateTerminalSize g) as [cols rows];
    destruct (0 <? cols)%Z, (0 <? rows)%Z;
    cbn -[resizeCalls lit app Z.eqb]; try (left; reflexivity);
    destruct (Z.eqb_spec cols lc) as [->|Hc];
    destruct (Z.eqb_spec rows lr) as [->|Hr];
    cbn -[resizeCalls lit app]; try (left; reflexivity);
    destruct cl, tm; cbn -[resizeCalls lit app];
    try (left; reflexivity);
    right; (split; [count_resizes; reflexivity | congruence]).
Qed.

(** Every timer that fires adds at most one [resize_terminal] call. *)
Lemma timer_reports_at_most_once (s : State) (id : nat) (g : Geometry) :
  (List.length (resizeCalls (log (step s (evTimer id g))))
   <= S (List.length (resizeCalls (log s))))%nat.
Proof.
  destruct s as [ed cl jb sv un aa cf sq tm pl lc lr rt ts nt ind st ag ac wt pv lg].
  run_terminal.
  destruct (lookupTimer id ts) as [cb|]; [|cbn -[resizeCalls]; lia].
  destruct (calculateTerminalSize g) as [cols rows].
  destruct cb, tm, cl; split_sizes;
    cbn -[resizeCalls lit app filter]; count_resizes;
    rewrite ?length_app; cbn [List.length]; lia.
Qed.

(** *** The timer table under the terminal's events *)

Lemma NoDup_ids_filter (f : nat * Callback -> bool) (ts : list (nat * Callback)) :
  NoDup (map fst ts) -> NoDup (map fst (filter f ts)).
Proof.
  induction ts as [|[i c] ts IH]; simpl; intros H; [constructor|].
  apply NoDup_cons_iff in H as [Hi Hn].
  destruct (f (i, c)); simpl; [|now apply IH].
  constructor; [|now apply IH].
  intros Hin. apply Hi. apply in_map_iff in Hin as [[j d] [Hj Hin]].
  apply filter_In in Hin as [Hin _]. simpl in Hj. subst j.
  apply in_map_iff. now exists (i, d).
Qed.

(** Arming a fresh timer after dropping the one [resizeTimeout] names. *)
Lemma rearm_ok (ts : list (nat * Callback)) (nt : nat) (rt : option nat)
    (cb : Callback) :
  NoDup (map fst ts) ->
  (forall id c, In (id, c) ts -> (id < nt)%nat) ->
  (forall id c, In (id, c) ts -> isDebounce c = true -> rt = Some id) ->
  let ts' := match rt with Some old => others old ts | None => ts end in
  NoDup (map fst (ts' ++ [(nt, cb)]))
  /\ (forall id c, In (id, c) (ts' ++ [(nt, cb)]) -> (id < S nt)%nat)
  /\ (forall id c, In (id, c) (ts' ++ [(nt, cb)]) ->
        isDebounce c = true -> Some nt = Some id).
Proof.
  intros Hn Hb Hd ts'.
  assert (Sub : forall x, In x ts' -> In x ts).
  { subst ts'. destruct rt; [|auto]. intros x Hx.
    now apply filter_In in Hx. }
  assert (Quiet : forall id c, In (id, c) ts' -> isDebounce c = false).
  { intros id c Hin. destruct (isDebounce c) eqn:E; [|reflexivity].
    pose proof (Hd id c (Sub _ Hin) E) as Hrt. subst ts'.
    destruct rt as [old|]; [|discriminate].
    injection Hrt as ->. apply filter_In in Hin as [_ Hne].
    simpl in Hne. rewrite Nat.eqb_refl in Hne. discriminate. }
  split; [|split].
  - rewrite map_app. apply NoDup_app.
    + subst ts'. destruct rt; [now apply NoDup_ids_filter | assumption].
    + simpl. constructor; [intros []|constructor].
    + intros a Ha [<-|[]]. apply in_map_iff in Ha as [[i c] [Hi Hin]].
      simpl in Hi. subst i. specialize (Hb _ _ (Sub _ Hin)). lia.
  - intros id c Hin. apply in_app_or in Hin as [Hin|[Heq|[]]].
    + specialize (Hb _ _ (Sub _ Hin)). lia.
    + injection Heq as <- _. lia.
  - intros id c Hin Hc. apply in_app_or in Hin as [Hin|[Heq|[]]].
    + rewrite (Quiet _ _ Hin) in Hc. discriminate.
    + injection Heq as <- _. reflexivity.
Qed.

Lemma drop_ok (ts : list (nat * Callback)) (nt : nat) (rt : option nat) (id : nat) :
  NoDup (map fst ts) ->
  (forall i c, In (i, c) ts -> (i < nt)%nat) ->
  (forall i c, In (i, c) ts -> isDebounce c = true -> rt = Some i) ->
  NoDup (map fst (others id ts))
  /\ (forall i c, In (i, c) (others id ts) -> (i < nt)%nat)
  /\ (forall i c, In (i, c) (others id ts) -> isDebounce c = true -> rt = Some i).
Proof.
  intros Hn Hb Hd. split; [|split].
  - now apply NoDup_ids_filter.
  - intros i c Hin. apply filter_In in Hin as [Hin _]. eauto.
  - intros i c Hin. apply filter_In in Hin as [Hin _]. eauto.
Qed.

Lemma timersOk_step (s : State) (e : TermEvent) :
  timersOk s -> timersOk (step s e).
Proof.
  destruct s as [ed cl jb sv un aa cf sq tm pl lc lr rt ts nt ind st ag ac wt pv lg].
  unfold timersOk. cbn [timers nextTimer resizeTimeout]. intros (Hn & Hb & Hd).
  destruct e as [ | | id g | cb | [ps out|] | data | ]; run_terminal.
  - destruct tm as [sz|]; [|cbn; auto].
    pose proof (@rearm_ok ts nt rt cbObserverSettled Hn Hb Hd) as R.
    destruct rt; exact R.
  - pose proof (@rearm_ok ts nt rt cbWindowSettled Hn Hb Hd) as R.
    destruct rt; exact R.
  - destruct (lookupTimer id ts) as [cb|]; [|cbn; auto].
    pose proof (@drop_ok ts nt rt id Hn Hb Hd) as R.
    destruct (calculateTerminalSize g) as [cols rows].
    destruct cb, tm, cl; split_sizes; exact R.
  - destruct cb, cl; cbn; auto.
  - destruct (str_eqb ps (lit "success") && truthy out
              && match tm with Some _ => true | None => false end); cbn; auto.
  - cbn; auto.
  - cbn; auto.
  - cbn; auto.
Qed.

Lemma timersOk_run (es : list TermEvent) :
  forall s, timersOk s -> timersOk (run s es).
Proof.
  induction es as [|e es IH]; intros s H; [exact H|].
  change (run s (e :: es)) with (run (step s e) es).
  apply IH. now apply timersOk_step.
Qed.

Lemma same_id_once (P : nat * Callback -> bool) (k : nat)
    (ts : list (nat * Callback)) :
  NoDup (map fst ts) ->
  (forall t, In t ts -> P t = true -> fst t = k) ->
  (List.length (filter P ts) <= 1)%nat.
Proof.
  induction ts as [|t ts IH]; simpl; intros Hn Hk; [lia|].
  apply NoDup_cons_iff in Hn as [Ht Hn].
  destruct (P t) eqn:E.
  - assert (Z : filter P ts = []).
    { destruct (filter P ts) as [|u us] eqn:F; [reflexivity|exfalso].
      assert (Hu : In u (filter P ts)) by (rewrite F; left; reflexivity).
      apply filter_In in Hu as [Hu Pu].
      apply Ht. rewrite (Hk t (or_introl eq_refl) E).
      rewrite <- (Hk u (or_intror Hu) Pu). now apply in_map. }
    simpl. rewrite Z. simpl. lia.
  - apply IH; auto.
Qed.

Lemma timersOk_pending (s : State) :
  timersOk s -> (List.length (pendingDebounce s) <= 1)%nat.
Proof.
  intros (Hn & _ & Hd). unfold pendingDebounce.
  destruct (resizeTimeout s) as [k|] eqn:E.
  - apply (@same_id_once _ k _ Hn). intros [i c] Hin Hc. simpl in *.
    specialize (Hd i c Hin Hc). congruence.
  - apply (@same_id_once _ 0%nat _ Hn). intros [i c] Hin Hc. simpl in *.
    specialize (Hd i c Hin Hc). congruence.
Qed.

Lemma timersOk_withTerminal : timersOk Samples.withTerminal.
Proof.
  unfold timersOk. vm_compute timers. vm_compute nextTimer. vm_compute resizeTimeout.
  split; [|split].
  - simpl. repeat constructor. intros [].
  - intros id cb [H|[]]. injection H as <- _. lia.
  - intros id cb [H|[]]. injection H as _ <-. discriminate.
Qed.

(** X10: at any time at most one debounce closure is pending, so that a
    burst of resize events ends in one settled closure. *)
Lemma at_most_one_debounce_pending (s : State) (es : list TermEvent) :
  timersOk s -> (List.length (pendingDebounce (run s es)) <= 1)%nat.
Proof. intros H. apply timersOk_pending. now apply timersOk_run. Qed.

End TerminalFacts.

(** ** Stopping a job *)

Module StopFacts.
Import Js Renderer RendererExt JobFacts.


(** X1: a stop request while the job flag is clear is a no-op with an
    informational notice: the backend is not called and nothing but the
    notice changes. *)
Theorem stop_without_job_is_noop (s : State) (reply : Reply) :
  running (job s) = false ->
  exec (stopActiveRender reply) s
  = set_log (log s ++ [Toast (lit "No render in progress") (lit "info")]) s.
Proof.
  intros H. unfold exec, stopActiveRender, bind, get. simpl. rewrite H.
  reflexivity.
Qed.

Lemma stop_without_job_is_noop_witness :
  apiCalls (log (exec (stopActiveRender Samples.accepted)
                   (Samples.loaded (lit "x")))) = [].
Proof.
  rewrite (stop_without_job_is_noop (Samples.loaded (lit "x"))
             Samples.accepted eq_refl).
  reflexivity.
Defined.



End StopFacts.

(** ** The autosave cycle *)

Module AutosaveCycle.
Import Js Renderer RendererExt JsFacts JobFacts.

Ltac run_autosave :=
  unfold exec, performAutosave, getEditorValue, updateSaveStatus, emit,
    modify, skip, bind, get, ret;
  cbn -[apiCalls lit app str_eqb trim].

Ltac settle_autosave :=
  repeat (progress (rewrite ?str_eqb_refl;
                    repeat match goal with
                           | H : _ = _ |- _ => rewrite H
                           end;
                    cbn -[apiCalls lit app str_eqb trim])).

(** X3: a tick that finds a changed, non-blank text sends it once; when the
    backend acknowledges, the text becomes the snapshot, the indicator reads
    saved, and the next tick on the same text does nothing. *)
Theorem autosave_success_then_silent
    (s : State) (code : jsstring) (res : Result) (next : Reply) :
  editor s = Some code ->
  isAppClosing s = false ->
  code <> lastSavedCode s ->
  trim code <> [] ->
  status res = lit "success" ->
  let s' := exec (performAutosave (Resolved res)) s in
  apiCalls (log s') = apiCalls (log s) ++ [autosave_code code]
  /\ lastSavedCode s' = code
  /\ ind_class (indicator s') = Some saved
  /\ hasUnsavedChanges s' = false
  /\ exec (performAutosave next) s' = s'.
Proof.
  destruct s as [ed cl jb sv un aa cf sq tm pl lc lr rt ts nt ind st ag ac wt pv lg].
  destruct res as [stt msg].
  cbn [editor isAppClosing lastSavedCode status log].
  intros -> -> Hne Hb ->.
  apply str_eqb_neq in Hne.
  assert (Ht : truthy (trim code) = true)
    by (destruct (trim code) eqn:Et; [now elim Hb | reflexivity]).
  run_autosave. settle_autosave.
  repeat split.
  rewrite apiCalls_app. reflexivity.
Qed.

Lemma autosave_success_then_silent_witness :
  let s' := exec (performAutosave Samples.accepted) (Samples.loaded (lit "x")) in
  apiCalls (log s') = [autosave_code (lit "x")]
  /\ exec (performAutosave Samples.accepted) s' = s'.
Proof.
  pose proof (@autosave_success_then_silent (Samples.loaded (lit "x")) (lit "x")
                {| status := lit "success"; message := [] |} Samples.accepted
                eq_refl eq_refl) as H.
  assert (H1 : lit "x" <> lastSavedCode (Samples.loaded (lit "x")))
    by (vm_compute; discriminate).
  assert (H2 : trim (lit "x") <> []) by (vm_compute; discriminate).
  specialize (H H1 H2 eq_refl).
  split; [exact (proj1 H) | exact (proj2 (proj2 (proj2 (proj2 H))))].
Defined.

(** X4: when the backend refuses the autosave or the call fails, the
    snapshot is kept, the indicator reads unsaved, and the next tick sends
    the text again. *)
Theorem autosave_failure_is_retried
    (s : State) (code : jsstring) (reply next : Reply) :
  editor s = Some code ->
  isAppClosing s = false ->
  code <> lastSavedCode s ->
  trim code <> [] ->
  acknowledged reply = false ->
  let s' := exec (performAutosave reply) s in
  apiCalls (log s') = apiCalls (log s) ++ [autosave_code code]
  /\ lastSavedCode s' = lastSavedCode s
  /\ ind_class (indicator s') = Some unsaved
  /\ hasUnsavedChanges s' = true
  /\ apiCalls (log (exec (performAutosave next) s'))
     = apiCalls (log s) ++ [autosave_code code; autosave_code code].
Proof.
  destruct s as [ed cl jb sv un aa cf sq tm pl lc lr rt ts nt ind st ag ac wt pv lg].
  cbn [editor isAppClosing lastSavedCode log].
  intros -> -> Hne Hb Hs.
  apply str_eqb_neq in Hne.
  assert (Ht : truthy (trim code) = true)
    by (destruct (trim code) eqn:Et; [now elim Hb | reflexivity]).
  destruct reply as [[stt msg]|err]; cbn [acknowledged status] in Hs;
    destruct next as [[stt' msg']|err'];
    try destruct (str_eqb stt' (lit "success")) eqn:Hn;
    run_autosave; settle_autosave;
    repeat split;
    rewrite !apiCalls_app; cbn [apiCalls flat_map app];
    rewrite ?app_nil_r, <- ?app_assoc; reflexivity.
Qed.

Lemma autosave_failure_is_retried_witness :
  let s' := exec (performAutosave (Rejected (lit "offline")))
              (Samples.loaded (lit "x")) in
  lastSavedCode s' = []
  /\ ind_class (indicator s') = Some unsaved.
Proof.
  pose proof (@autosave_failure_is_retried (Samples.loaded (lit "x")) (lit "x")
                (Rejected (lit "offline")) Samples.accepted
                eq_refl eq_refl) as H.
  assert (H1 : lit "x" <> lastSavedCode (Samples.loaded (lit "x")))
    by (vm_compute; discriminate).
  assert (H2 : trim (lit "x") <> []) by (vm_compute; discriminate).
  specialize (H H1 H2 eq_refl).
  split; [exact (proj1 (proj2 H)) | exact (proj1 (proj2 (proj2 H)))].
Defined.

End AutosaveCycle.

(** ** Terminal size *)

Module SizeFacts.
Import Js Renderer RendererExt TerminalFacts.

(** The closures of the model are these bodies run on the size computed
    from the measured geometry. *)
Lemma runCallback_with (cb : Callback) (g : Geometry) :
  runCallback cb g = runCallbackWith cb (calculateTerminalSize g).
Proof.
  unfold runCallback, runCallbackWith.
  destruct (calculateTerminalSize g); reflexivity.
Qed.

(** X5: whatever size [calculateTerminalSize()] returns, the initial sizing
    closure does not compare it with the last size: a size with positive
    columns and rows is applied to the widget, recorded as the last size
    and reported to the backend once (not reported while the application
    is closing); any other size changes nothing. *)
Theorem initial_sizing_reports_size (s : State) (cols rows : Z) :
  let s' := exec (runCallbackWith cbInitialSize (cols, rows)) s in
  ((0 < cols)%Z /\ (0 < rows)%Z ->
   resizeCalls (log s')
   = resizeCalls (log s) ++ (if isAppClosing s then [] else [(cols, rows)])
   /\ (lastCols s', lastRows s') = (cols, rows)
   /\ (term s <> None -> term s' = Some (cols, rows))
   /\ (term s = None -> term s' = None))
  /\ (~ ((0 < cols)%Z /\ (0 < rows)%Z) -> s' = s).
Proof.
  cbv zeta. unfold exec, runCallbackWith.
  destruct s as [ed cl jb sv un aa cf sq tm pl lc lr rt ts nt ind st ag ac wt pv lg].
  cbn [isAppClosing log lastCols lastRows term].
  split.
  - intros [Hc Hr]. apply Z.ltb_lt in Hc, Hr. rewrite Hc, Hr.
    unfold termResize, emit, modify, skip, bind, get, ret.
    destruct tm, cl; cbn -[resizeCalls app]; repeat split;
      rewrite ?resizeCalls_app, ?app_nil_r; try reflexivity; congruence.
  - intros Hn.
    destruct (Z.ltb_spec 0 cols), (Z.ltb_spec 0 rows);
      try reflexivity. now elim Hn.
Qed.

Lemma initial_sizing_reports_size_witness :
  let s := exec initializeTerminal (Samples.loaded (lit "x")) in
  resizeCalls (log (exec (runCallbackWith cbInitialSize (80, 24)%Z) s))
  = resizeCalls (log s) ++ [(80, 24)%Z].
Proof.
  exact (proj1 (proj1 (@initial_sizing_reports_size
                         (exec initializeTerminal (Samples.loaded (lit "x")))
                         80%Z 24%Z)
                      (conj eq_refl eq_refl))).
Defined.

End SizeFacts.

(** ** Filtering the assets grid *)

Module FilterFacts.
Import Js Renderer RendererExt JsFacts AssetsFacts.

Lemma filter_twice {A} (p q : A -> bool) (l : list A) :
  filter q (filter p l) = filter (fun x => p x && q x) l.
Proof.
  induction l as [|x l IH]; simpl; [reflexivity|].
  destruct (p x); simpl; [destruct (q x)|]; now rewrite IH.
Qed.

Lemma filter_all {A} (l : list A) : filter (fun _ => true) l = l.
Proof. induction l as [|x l IH]; simpl; [reflexivity|now rewrite IH]. Qed.

(** The list [displayAssets] is left with after its two filter steps. *)
Lemma two_steps_are_one_filter
    (toLowerCase : jsstring -> jsstring) (sq cf : jsstring) (files : list Asset) :
  (let f1 := if truthy sq
             then filter (fun file =>
                            includes (toLowerCase sq) (toLowerCase (name file)))
                         files
             else files in
   if negb (str_eqb cf (lit "all"))
   then filter (fun file =>
                  let ext := extOf toLowerCase (name file) in
                  if str_eqb cf (lit "video") then inArray ext videoExts
                  else if str_eqb cf (lit "image") then inArray ext imageExts
                  else true) f1
   else f1)
  = filter (assetMatches toLowerCase sq cf) files.
Proof.
  unfold assetMatches. cbn zeta.
  destruct (truthy sq); destruct (negb (str_eqb cf (lit "all")));
    rewrite ?filter_twice; cbn [andb]; try reflexivity.
  - apply filter_ext. intros a. now rewrite andb_true_r.
  - now rewrite filter_all.
Qed.

Lemma grid_after_display
    (toLowerCase : jsstring -> jsstring) (s : State) (g : GridView) :
  assetsGrid s = Some g ->
  let shown := filter (assetMatches toLowerCase (searchQuery s) (currentFilter s))
                      (allAssets s) in
  let s' := exec (displayAssets toLowerCase (allAssets s)) s in
  assetsGrid s'
  = Some (match allAssets s with
          | [] => EmptyState
          | _ :: _ => match shown with
                      | [] => NoMatch
                      | _ :: _ => Cards (cardsFrom toLowerCase 0 shown)
                      end
          end)
  /\ allAssets s' = allAssets s.
Proof.
  intros Hg shown s'. subst shown s'.
  rewrite <- two_steps_are_one_filter.
  unfold exec, displayAssets, updateAssetsCount, bind, get, modify.
  destruct s as [ed cl jb sv un aa cf sq tm pl lc lr rt ts nt ind st ag ac wt pv lg].
  cbn [searchQuery currentFilter allAssets assetsGrid] in *. subst ag.
  destruct aa as [|file rest].
  - destruct ac; split; reflexivity.
  - cbn -[filter cardsFrom numToString lit str_eqb truthy inArray negb].
    match goal with
    | |- context [match ?l with [] => _ | _ :: _ => _ end] => destruct l
    end; destruct ac; split; reflexivity.
Qed.

(** X7: for any search text and category, the grid shows exactly the cached
    files that pass both tests, in cache order; it shows the empty-cache
    message only for an empty cache and the no-match message only when the
    cache is non-empty and nothing passes.  A category other than "all",
    "video" and "image" lets every file pass.  The cache is not written. *)
Theorem grid_shows_matching_files
    (toLowerCase : jsstring -> jsstring) (s : State) :
  assetsGrid s <> None ->
  let shown := filter (assetMatches toLowerCase (searchQuery s) (currentFilter s))
                      (allAssets s) in
  let s' := exec (displayAssets toLowerCase (allAssets s)) s in
  option_map shownFiles (assetsGrid s') = Some shown
  /\ (assetsGrid s' = Some EmptyState <-> allAssets s = [])
  /\ (assetsGrid s' = Some NoMatch <-> allAssets s <> [] /\ shown = [])
  /\ allAssets s' = allAssets s.
Proof.
  intros Hg shown s'.
  destruct (assetsGrid s) as [g|] eqn:Eg; [clear Hg|now elim Hg].
  destruct (grid_after_display toLowerCase s Eg) as [Hgrid Hcache].
  fold shown s' in Hgrid, Hcache. rewrite Hgrid. clear Hgrid.
  split; [|split; [|split; [|exact Hcache]]].
  - destruct (allAssets s) as [|file rest] eqn:Ea; [reflexivity|].
    destruct shown as [|f1 fs]; [reflexivity|].
    cbn [option_map shownFiles]. now rewrite cardsFrom_files.
  - destruct (allAssets s) as [|file rest]; [tauto|].
    destruct shown; split; intros H; discriminate H.
  - destruct (allAssets s) as [|file rest].
    + split; [intros H; discriminate H | intros [H _]; now elim H].
    + destruct shown; split; try (intros H; discriminate H);
        try (intros [_ H]; discriminate H).
      * intros _. split; [discriminate|reflexivity].
      * reflexivity.
Qed.

Lemma grid_shows_matching_files_witness :
  let s := set_searchQuery (lit "B.")
             (set_allAssets [Samples.clip "b.mp4"; Samples.clip "a.png";
                             Samples.clip "ab.MOV"]
                (Samples.loaded (lit "x"))) in
  option_map shownFiles
    (assetsGrid (exec (displayAssets Samples.asciiLower (allAssets s)) s))
  = Some [Samples.clip "b.mp4"; Samples.clip "ab.MOV"].
Proof.
  refine (proj1 (@grid_shows_matching_files Samples.asciiLower
            (set_searchQuery (lit "B.")
               (set_allAssets [Samples.clip "b.mp4"; Samples.clip "a.png";
                               Samples.clip "ab.MOV"]
                  (Samples.loaded (lit "x")))) _)).
  simpl. discriminate.
Defined.

End FilterFacts.

(** ** Debouncing of resize events *)

Module DebounceFacts.
Import Js Renderer RendererExt TerminalFacts.

Lemma run_snoc (s : State) (es : list TermEvent) (e : TermEvent) :
  run s (es ++ [e]) = step (run s es) e.
Proof. unfold run. now rewrite fold_left_app. Qed.

Lemma resize_event_keeps_term (s : State) (e : TermEvent) :
  isResizeEvent e = true -> term (step s e) = term s.
Proof.
  destruct e; try discriminate; intros _; run_terminal.
  - destruct (term s) eqn:E, (resizeTimeout s); cbn; congruence.
  - destruct (resizeTimeout s); reflexivity.
Qed.

Lemma burst_is_silent (es : list TermEvent) :
  forall s : State,
    forallb isResizeEvent es = true ->
    log (run s es) = log s /\ term (run s es) = term s.
Proof.
  induction es as [|e es IH]; intros s H; [split; reflexivity|].
  simpl in H. apply andb_true_iff in H as [He Hes].
  change (run s (e :: es)) with (run (step s e) es).
  destruct (IH (step s e) Hes) as [Hl Ht].
  rewrite Hl, Ht. split.
  - now apply resize_event_is_silent.
  - now apply resize_event_keeps_term.
Qed.

Lemma resize_event_arms (s : State) (e : TermEvent) :
  term s <> None ->
  isResizeEvent e = true ->
  In (nextTimer s, armedBy e) (timers (step s e))
  /\ resizeTimeout (step s e) = Some (nextTimer s).
Proof.
  intros Ht. destruct e; try discriminate; intros _; run_terminal.
  - destruct (term s); [|now elim Ht].
    destruct (resizeTimeout s); cbn -[others]; split;
      try reflexivity; apply in_or_app; right; left; reflexivity.
  - destruct (resizeTimeout s); cbn -[others]; split;
      try reflexivity; apply in_or_app; right; left; reflexivity.
Qed.

Lemma only_element {A} (x : A) (l : list A) :
  (List.length l <= 1)%nat -> In x l -> l = [x].
Proof.
  destruct l as [|y [|z l]]; simpl; intros Hl Hin.
  - contradiction.
  - destruct Hin as [->|[]]. reflexivity.
  - lia.
Qed.

(** X8: a burst of resize events (container or window, in any order) with
    no timer firing in between writes nothing to the log, so it reaches
    neither the backend nor the widget, and leaves exactly one settled
    closure pending: the one armed by the last event of the burst. *)
Theorem burst_arms_one_closure
    (s : State) (es : list TermEvent) (e : TermEvent) :
  timersOk s ->
  term s <> None ->
  forallb isResizeEvent (es ++ [e]) = true ->
  let s' := run s (es ++ [e]) in
  log s' = log s
  /\ term s' = term s
  /\ exists id, pendingDebounce s' = [(id, armedBy e)]
                /\ resizeTimeout s' = Some id.
Proof.
  intros Hok Ht Hes s'.
  destruct (burst_is_silent (es ++ [e]) s Hes) as [Hl Hterm].
  split; [exact Hl|]. split; [exact Hterm|].
  rewrite forallb_app in Hes. apply andb_true_iff in Hes as [Hes He].
  simpl in He. rewrite andb_true_r in He.
  destruct (burst_is_silent es s Hes) as [_ Ht1].
  assert (Ht' : term (run s es) <> None) by (now rewrite Ht1).
  destruct (resize_event_arms (run s es) e Ht' He) as [Hin Hrt].
  subst s'. rewrite run_snoc.
  exists (nextTimer (run s es)). split; [|exact Hrt].
  apply only_element.
  - apply timersOk_pending. rewrite <- run_snoc. now apply timersOk_run.
  - unfold pendingDebounce. apply filter_In. split; [exact Hin|].
    destruct e; try discriminate; reflexivity.
Qed.

Lemma burst_arms_one_closure_witness :
  let s := Samples.withTerminal in
  let s' := run s ([evContainerResize; evWindowResize; evContainerResize]
                   ++ [evWindowResize]) in
  log s' = log s
  /\ exists id, pendingDebounce s' = [(id, cbWindowSettled)]
                /\ resizeTimeout s' = Some id.
Proof.
  assert (Hok : timersOk Samples.withTerminal).
  { unfold timersOk. vm_compute timers. vm_compute nextTimer.
    vm_compute resizeTimeout. split; [|split].
    - simpl. repeat constructor. intros [].
    - intros id cb [H|[]]. injection H as <- _. lia.
    - intros id cb [H|[]]. injection H as _ <-. discriminate. }
  assert (Ht : term Samples.withTerminal <> None) by (vm_compute; discriminate).
  pose proof (@burst_arms_one_closure Samples.withTerminal
                [evContainerResize; evWindowResize; evContainerResize]
                evWindowResize Hok Ht eq_refl) as H.
  split; [exact (proj1 H) | exact (proj2 (proj2 H))].
Defined.

Lemma at_most_one_debounce_pending_witness :
  (List.length
     (pendingDebounce
        (run Samples.withTerminal
           [evContainerResize; evTimer 2 Samples.geometry80x24;
            evWindowResize; evPollTick PollRejected; evContainerResize]))
   <= 1)%nat.
Proof.
  apply at_most_one_debounce_pending.
  unfold timersOk. vm_compute timers. vm_compute nextTimer.
  vm_compute resizeTimeout. split; [|split].
  - simpl. repeat constructor. intros [].
  - intros id cb [H|[]]. injection H as <- _. lia.
  - intros id cb [H|[]]. injection H as _ <-. discriminate.
Defined.

(** X9: whatever size [calculateTerminalSize()] returns, the settled
    closure of the container observer and the secondary sizing timer report
    it to the backend only when it differs from the last recorded size, and
    then report exactly that size; on a size equal to the last one they
    leave the state as it is. *)
Theorem guarded_closures_report_new_sizes_only
    (s : State) (cb : Callback) (cols rows : Z) :
  cb = cbObserverSettled \/ cb = cbSecondarySize ->
  let s' := exec (runCallbackWith cb (cols, rows)) s in
  ((cols, rows) = (lastCols s, lastRows s) -> s' = s)
  /\ (resizeCalls (log s') = resizeCalls (log s)
      \/ (resizeCalls (log s') = resizeCalls (log s) ++ [(cols, rows)]
          /\ (cols, rows) <> (lastCols s, lastRows s))).
Proof.
  intros Hcb s'. subst s'.
  destruct s as [ed cl jb sv un aa cf sq tm pl lc lr rt ts nt ind st ag ac wt pv lg].
  cbn [lastCols lastRows log].
  destruct Hcb as [-> | ->];
    unfold exec, runCallbackWith, termResize, emit, modify, skip, bind, get, ret;
    cbn -[resizeCalls lit app Z.eqb Z.ltb];
    (split;
     [ intros Heq; injection Heq as -> ->; rewrite !Z.eqb_refl;
       destruct (0 <? lc)%Z, (0 <? lr)%Z; reflexivity
     | destruct (0 <? cols)%Z, (0 <? rows)%Z;
       cbn -[resizeCalls lit app Z.eqb]; try (left; reflexivity);
       destruct (Z.eqb_spec cols lc) as [->|Hc];
       destruct (Z.eqb_spec rows lr) as [->|Hr];
       cbn -[resizeCalls lit app]; try (left; reflexivity);
       destruct cl, tm; cbn -[resizeCalls lit app];
       try (left; reflexivity);
       right; (split; [count_resizes; reflexivity | congruence]) ]).
Qed.

Lemma guarded_closures_report_new_sizes_only_witness :
  exec (runCallbackWith cbObserverSettled (80, 24)%Z) Samples.withTerminal
  = Samples.withTerminal.
Proof.
  refine (proj1 (@guarded_closures_report_new_sizes_only Samples.withTerminal
                   cbObserverSettled 80%Z 24%Z (or_introl eq_refl))
                _).
  vm_compute. reflexivity.
Defined.

End DebounceFacts.

(** ** Loading a preview *)

Module PreviewFacts.
Import Js Renderer PreviewLoad JsFacts JobFacts.


(** X11: [showPreview] of an empty path leaves the placeholder alone
    visible and asks nothing.  For a non-empty path its first half hides
    the video, the image and the placeholder and asks the backend once;
    when the answer arrives, the rest makes no further call and leaves
    exactly one of the three visible, provided none was made visible in
    between (no other load finished while this one waited). *)
Theorem preview_shows_exactly_one_part
    (toLowerCase : jsstring -> jsstring) (s : State) (filePath : jsstring) :
  let s1 := exec (showPreview filePath) s in
  (truthy filePath = false ->
   visibleParts (preview s1) = 1%nat /\ log s1 = log s)
  /\ (truthy filePath = true ->
      visibleParts (preview s1) = 0%nat
      /\ apiCalls (log s1) = apiCalls (log s) ++ [get_asset_as_data_url filePath]
      /\ forall (s2 : State) (reply : UrlReply) (now : Z),
           visibleParts (preview s2) = 0%nat ->
           let s3 := exec (showPreviewLoaded toLowerCase filePath reply now) s2 in
           visibleParts (preview s3) = 1%nat /\ log s3 = log s2).
Proof.
  destruct s as [ed cl jb sv un aa cf sq tm pl lc lr rt ts nt ind st ag ac wt pv lg].
  destruct filePath as [|c p]; cbv zeta; split; intros Hp; try discriminate Hp.
  - split; reflexivity.
  - split; [reflexivity|]. split.
    + unfold exec, showPreview, emit, modify, bind. cbn -[apiCalls lastSegment].
      now rewrite apiCalls_app.
    + intros s2 reply now Hv.
      destruct s2 as [ed2 cl2 jb2 sv2 un2 aa2 cf2 sq2 tm2 pl2 lc2 lr2 rt2 ts2 nt2
                        ind2 st2 ag2 ac2 wt2 [vsrc [|] isrc [|] [|] ftxt] lg2];
        try discriminate Hv.
      unfold exec, showPreviewLoaded, showError, modify.
      destruct reply as [ustatus dataUrl umessage|err];
        repeat match goal with
               | |- context [if ?b then (fun s : State => _) else _] => destruct b
               end;
        split; reflexivity.
Qed.

Lemma preview_shows_exactly_one_part_witness :
  let s1 := exec (showPreview (lit "C:/assets/a.png")) (Samples.loaded (lit "x")) in
  visibleParts
    (preview (exec (showPreviewLoaded Samples.asciiLower (lit "C:/assets/a.png")
                      (UrlResolved (lit "success") (lit "http://127.0.0.1:8000/a.png") [])
                      17%Z)
                s1)) = 1%nat.
Proof.
  exact (proj1 (proj2 (proj2 (proj2 (@preview_shows_exactly_one_part
           Samples.asciiLower (Samples.loaded (lit "x")) (lit "C:/assets/a.png"))
           eq_refl))
           (exec (showPreview (lit "C:/assets/a.png")) (Samples.loaded (lit "x")))
           (UrlResolved (lit "success") (lit "http://127.0.0.1:8000/a.png") [])
           17%Z eq_refl)).
Defined.

(** Two loads that overlap: the first half of the second runs before the
    answer to the first arrives.  Each answer then shows its own element,
    and the video and the image are both visible. *)
Lemma overlapping_loads_show_two_parts :
  let ok url := UrlResolved (lit "success") url [] in
  let s1 := exec (showPreview (lit "a.mp4")) (Samples.loaded (lit "x")) in
  let s2 := exec (showPreview (lit "b.png")) s1 in
  let s3 := exec (showPreviewLoaded Samples.asciiLower (lit "a.mp4")
                    (ok (lit "http://127.0.0.1:8000/a.mp4")) 17%Z) s2 in
  let s4 := exec (showPreviewLoaded Samples.asciiLower (lit "b.png")
                    (ok (lit "http://127.0.0.1:8000/b.png")) 18%Z) s3 in
  visibleParts (preview s4) = 2%nat.
Proof. vm_compute. reflexivity. Qed.



Lemma startsWith_app (p s : jsstring) : startsWith p (p ++ s) = true.
Proof.
  induction p as [|c p IH]; simpl; [reflexivity|].
  now rewrite N.eqb_refl, IH.
Qed.

(** X13: [showPreview] never puts on the preview elements a source other
    than a URL the backend returned: its first half removes both sources;
    the rest, run on any state when the answer arrives, either leaves both
    sources as they are or, on a ['success'] answer, sets exactly one of
    them to the returned URL extended by the cache-busting parameter
    ([?_=] for a URL without a query, [&_=] otherwise) and makes that element
    visible. *)
Theorem shown_source_comes_from_reply
    (toLowerCase : jsstring -> jsstring) (s s2 : State)
    (filePath : jsstring) (reply : UrlReply) (now : Z) :
  let p1 := preview (exec (showPreview filePath) s) in
  let p2 := preview s2 in
  let p3 := preview (exec (showPreviewLoaded toLowerCase filePath reply now) s2) in
  (truthy filePath = true -> video_src p1 = None /\ image_src p1 = None)
  /\ ((video_src p3 = video_src p2 /\ image_src p3 = image_src p2)
      \/ exists dataUrl umessage,
           reply = UrlResolved (lit "success") dataUrl umessage
           /\ truthy dataUrl = true
           /\ let src := dataUrl
                         ++ (if includes (lit "?") dataUrl then lit "&" else lit "?")
                         ++ lit "_=" ++ numToString now in
              (video_src p3 = Some src /\ video_shown p3 = true
               /\ image_src p3 = image_src p2)
              \/ (image_src p3 = Some src /\ image_shown p3 = true
                  /\ video_src p3 = video_src p2)).
Proof.
  cbv zeta. split.
  - destruct filePath as [|c fp]; [discriminate|]. intros _.
    destruct s. split; reflexivity.
  - assert (Hcb : forall dataUrl,
               cacheBusted dataUrl now
               = dataUrl ++ (if includes (lit "?") dataUrl then lit "&" else lit "?")
                         ++ lit "_=" ++ numToString now).
    { intros dataUrl. unfold cacheBusted.
      destruct (includes (lit "?") dataUrl); now rewrite <- ?app_assoc. }
    destruct s2 as [ed cl jb sv un aa cf sq tm pl lc lr rt ts nt ind st ag ac wt pv lg].
    unfold exec, showPreviewLoaded, showError, modify.
    destruct reply as [ustatus dataUrl umessage|err]; [|left; split; reflexivity].
    destruct (str_eqb ustatus (lit "success")) eqn:Es;
      [|left; split; reflexivity].
    apply str_eqb_eq in Es. subst ustatus.
    destruct (truthy dataUrl) eqn:Et; [|left; split; reflexivity].
    cbn [negb orb].
    repeat match goal with
           | |- context [if ?b then (fun s : State => _) else _] => destruct b
           end;
      cbn -[lit app cacheBusted includes numToString];
      try (left; split; reflexivity);
      right; exists dataUrl, umessage; (split; [reflexivity|]);
      (split; [exact Et|]); rewrite <- Hcb;
      first [left; repeat split; reflexivity | right; repeat split; reflexivity].
Qed.

Lemma shown_source_comes_from_reply_witness :
  let p1 := preview (exec (showPreview (lit "C:/assets/a.png"))
                       (Samples.loaded (lit "x"))) in
  video_src p1 = None /\ image_src p1 = None.
Proof.
  exact (proj1 (@shown_source_comes_from_reply Samples.asciiLower
                  (Samples.loaded (lit "x")) (Samples.loaded (lit "x"))
                  (lit "C:/assets/a.png") (UrlRejected (lit "offline")) 17%Z)
               eq_refl).
Defined.

End PreviewFacts.

(** ** The asset modal *)

Module ModalFacts.
Import Js Renderer RendererExt AssetModal JsFacts AssetsFacts.

Lemma card_at_index (lower : jsstring -> jsstring) (files : list Asset) :
  forall k c,
    In c (cardsFrom lower k files) ->
    (k <= card_index c)%nat
    /\ nth_error files (card_index c - k) = Some (card_file c).
Proof.
  induction files as [|file rest IH]; intros k c Hin; simpl in Hin.
  - contradiction.
  - destruct Hin as [<-|Hin].
    + simpl. rewrite Nat.sub_diag. split; [lia|reflexivity].
    + destruct (IH (S k) c Hin) as [Hk Hn]. split; [lia|].
      replace (card_index c - k)%nat with (S (card_index c - S k)) by lia.
      exact Hn.
Qed.

(** X14: while no search text and no category narrow the grid, a click on a
    card opens the modal on the very file the card shows. *)
Theorem card_click_opens_shown_file
    (toLowerCase : jsstring -> jsstring) (s : State) (m : Modal)
    (cs : list Card) (c : Card) :
  searchQuery s = [] ->
  currentFilter s = lit "all" ->
  assetsGrid (exec (displayAssets toLowerCase (allAssets s)) s) = Some (Cards cs) ->
  In c cs ->
  let m' := openAssetByIndex toLowerCase (allAssets s) (card_index c) m in
  currentAsset m' = Some (card_file c)
  /\ modal_shown m' = true
  /\ detail_name m' = name (card_file c).
Proof.
  intros Hq Hf Hg Hin.
  assert (Hcs : cs = cardsFrom toLowerCase 0 (allAssets s)).
  { revert Hg.
    destruct s as [ed cl jb sv un aa cf sq tm pl lc lr rt ts nt ind st ag ac wt pv lg].
    cbn [searchQuery currentFilter allAssets] in *. subst sq cf.
    unfold exec, displayAssets, updateAssetsCount, bind, get, modify, emit.
    cbn -[cardsFrom numToString lit str_eqb]. rewrite str_eqb_refl.
    destruct ag as [g|]; [|cbn; discriminate].
    destruct aa as [|file rest];
      cbn -[cardsFrom numToString lit str_eqb];
      destruct ac;
      cbn -[cardsFrom numToString lit str_eqb]; congruence. }
  subst cs. apply card_at_index in Hin as [_ Hn]. rewrite Nat.sub_0_r in Hn.
  unfold openAssetByIndex. rewrite Hn. repeat split.
Qed.

Lemma card_click_opens_shown_file_witness :
  let s := set_allAssets [Samples.clip "b.mp4"; Samples.clip "a.png"]
             (Samples.loaded (lit "x")) in
  let m := {| currentAsset := None; modal_shown := false;
              mvideo_src := None; mvideo_shown := false;
              mimage_src := None; mimage_shown := false;
              detail_name := []; detail_path := [] |} in
  currentAsset (openAssetByIndex Samples.asciiLower (allAssets s) 1 m)
  = Some (Samples.clip "a.png").
Proof.
  refine (proj1 (@card_click_opens_shown_file Samples.asciiLower
            (set_allAssets [Samples.clip "b.mp4"; Samples.clip "a.png"]
               (Samples.loaded (lit "x")))
            {| currentAsset := None; modal_shown := false;
               mvideo_src := None; mvideo_shown := false;
               mimage_src := None; mimage_shown := false;
               detail_name := []; detail_path := [] |}
            _
            {| card_index := 1; card_file := Samples.clip "a.png";
               card_isVideo := false; card_isImage := true |}
            eq_refl eq_refl eq_refl _)).
  right. left. reflexivity.
Defined.

(** X15: for any search text and category, the card at position [i] of the
    grid shows the [i]-th file that passes the filter, while a click on it
    opens the [i]-th file of the whole cache; so with files filtered out
    before it, a card opens a file other than the one it shows. *)
Theorem card_click_opens_cache_position
    (toLowerCase : jsstring -> jsstring) (s : State) (m : Modal)
    (cs : list Card) (c : Card) :
  assetsGrid (exec (displayAssets toLowerCase (allAssets s)) s) = Some (Cards cs) ->
  In c cs ->
  let shown := filter (assetMatches toLowerCase (searchQuery s) (currentFilter s))
                      (allAssets s) in
  nth_error shown (card_index c) = Some (card_file c)
  /\ nth_error (allAssets s) (card_index c) <> None
  /\ currentAsset (openAssetByIndex toLowerCase (allAssets s) (card_index c) m)
     = nth_error (allAssets s) (card_index c).
Proof.
  intros Hg Hin shown.
  assert (Hsome : exists g, assetsGrid s = Some g).
  { destruct (assetsGrid s) as [g|] eqn:Eg; [now exists g|].
    exfalso. revert Hg.
    destruct s as [ed cl jb sv un aa cf sq tm pl lc lr rt ts nt ind st ag ac wt pv lg].
    cbn [assetsGrid allAssets] in *. subst ag.
    unfold exec, displayAssets, bind, get, emit. cbn. discriminate. }
  destruct Hsome as [g Eg].
  destruct (FilterFacts.grid_after_display toLowerCase s Eg) as [Hgrid _].
  fold shown in Hgrid. rewrite Hgrid in Hg.
  assert (Hcs : cs = cardsFrom toLowerCase 0 shown).
  { destruct (allAssets s); [discriminate|].
    destruct shown; [discriminate|]. congruence. }
  subst cs. apply card_at_index in Hin as [_ Hn]. rewrite Nat.sub_0_r in Hn.
  split; [exact Hn|].
  assert (Hlt : (card_index c < List.length (allAssets s))%nat).
  { apply Nat.lt_le_trans with (List.length shown).
    - apply nth_error_Some. congruence.
    - apply filter_length_le. }
  apply nth_error_Some in Hlt. split; [exact Hlt|].
  unfold openAssetByIndex.
  destruct (nth_error (allAssets s) (card_index c)); [reflexivity|now elim Hlt].
Qed.

Lemma card_click_opens_cache_position_witness :
  let s := set_currentFilter (lit "image")
             (set_allAssets [Samples.clip "b.mp4"; Samples.clip "a.png"]
                (Samples.loaded (lit "x"))) in
  let m := {| currentAsset := None; modal_shown := false;
              mvideo_src := None; mvideo_shown := false;
              mimage_src := None; mimage_shown := false;
              detail_name := []; detail_path := [] |} in
  let c := {| card_index := 0; card_file := Samples.clip "a.png";
              card_isVideo := false; card_isImage := true |} in
  assetsGrid (exec (displayAssets Samples.asciiLower (allAssets s)) s)
  = Some (Cards [c])
  /\ currentAsset (openAssetByIndex Samples.asciiLower (allAssets s)
                     (card_index c) m)
     = Some (Samples.clip "b.mp4").
Proof.
  split; [vm_compute; reflexivity|].
  exact (proj2 (proj2
    (@card_click_opens_cache_position Samples.asciiLower
       (set_currentFilter (lit "image")
          (set_allAssets [Samples.clip "b.mp4"; Samples.clip "a.png"]
             (Samples.loaded (lit "x"))))
       {| currentAsset := None; modal_shown := false;
          mvideo_src := None; mvideo_shown := false;
          mimage_src := None; mimage_shown := false;
          detail_name := []; detail_path := [] |}
       [{| card_index := 0; card_file := Samples.clip "a.png";
           card_isVideo := false; card_isImage := true |}]
       {| card_index := 0; card_file := Samples.clip "a.png";
          card_isVideo := false; card_isImage := true |}
       eq_refl (or_introl eq_refl)))).
Defined.

(** A position beyond the cache opens nothing: the modal is left as it
    is. *)
Lemma click_beyond_cache_opens_nothing
    (toLowerCase : jsstring -> jsstring) (cache : list Asset) (index : nat)
    (m : Modal) :
  (List.length cache <= index)%nat ->
  openAssetByIndex toLowerCase cache index m = m.
Proof.
  intros H. unfold openAssetByIndex.
  apply nth_error_None in H. now rewrite H.
Qed.

Lemma click_beyond_cache_opens_nothing_witness :
  let m := {| currentAsset := None; modal_shown := false;
              mvideo_src := None; mvideo_shown := false;
              mimage_src := None; mimage_shown := false;
              detail_name := []; detail_path := [] |} in
  openAssetByIndex Samples.asciiLower [Samples.clip "a.png"] 1 m = m.
Proof.
  apply click_beyond_cache_opens_nothing. simpl. lia.
Defined.

(** The source the modal hands to its media element never contains a
    backslash and always starts with [file://] or [http]. *)
Lemma web_path_is_slashed_url (filePath : jsstring) :
  Forall (fun c => c <> 92%N) (webPath filePath)
  /\ (startsWith (lit "file://") (webPath filePath)
      || startsWith (lit "http") (webPath filePath)) = true.
Proof.
  unfold webPath.
  set (slashed := map _ filePath).
  assert (Hs : Forall (fun c => c <> 92%N) slashed).
  { subst slashed. apply Forall_forall. intros c Hc.
    apply in_map_iff in Hc as [d [Hd _]].
    destruct (N.eqb_spec d 92); subst c; [discriminate|assumption]. }
  destruct (startsWith (lit "file://") slashed) eqn:E1;
    destruct (startsWith (lit "http") slashed) eqn:E2; cbn [negb andb];
    rewrite ?E1, ?E2; split; try assumption; try reflexivity.
  apply Forall_app. split; [|assumption].
  vm_compute. repeat constructor; discriminate.
Qed.

(** X16: "Open in main preview" with an asset selected closes the modal and
    stops there: the selection is cleared before its path is read, the
    handler ends with a [TypeError], and the main preview and the backend
    are never reached. *)
Theorem open_in_main_preview_stops_at_close (m : Modal) (s : State) :
  currentAsset m <> None ->
  openInMainPreview m s = (Threw (lit "TypeError"), closeAssetModal m, s).
Proof.
  intros H. unfold openInMainPreview.
  destruct (currentAsset m); [reflexivity|now elim H].
Qed.

Lemma open_in_main_preview_stops_at_close_witness :
  let m := {| currentAsset := Some (Samples.clip "a.png"); modal_shown := true;
              mvideo_src := None; mvideo_shown := false;
              mimage_src := Some (lit "file:///C:/assets/a.png");
              mimage_shown := true;
              detail_name := lit "a.png"; detail_path := lit "C:\assets\a.png" |} in
  snd (openInMainPreview m (Samples.loaded (lit "x"))) = Samples.loaded (lit "x").
Proof.
  exact (f_equal snd
           (@open_in_main_preview_stops_at_close
              {| currentAsset := Some (Samples.clip "a.png"); modal_shown := true;
                 mvideo_src := None; mvideo_shown := false;
                 mimage_src := Some (lit "file:///C:/assets/a.png");
                 mimage_shown := true;
                 detail_name := lit "a.png"; detail_path := lit "C:\assets\a.png" |}
              (Samples.loaded (lit "x"))
              ltac:(discriminate))).
Defined.

End ModalFacts.

(** ** The autosave time stamp *)

Module TimestampFacts.
Import Js Timestamp.

Ltac open_list t n :=
  match n with
  | O => destruct t; [|discriminate]
  | S ?k => destruct t as [|? t]; [discriminate|]; open_list t k
  end.

(** X17: for a 15-character stamp the readable form has 19 characters, with
    the separators [-], [-], space, [:], [:] around the date and time
    digits in their order; two stamps that agree on the character between
    date and time have the same readable form only if they are equal. *)
Theorem readable_stamp_keeps_digits (t u : jsstring) :
  List.length t = 15%nat ->
  List.length u = 15%nat ->
  List.length (formatTimestamp t) = 19%nat
  /\ map (fun i => nth i (formatTimestamp t) 0%N) [4; 7; 10; 13; 16]%nat
     = [45; 45; 32; 58; 58]%N
  /\ map (fun i => nth i (formatTimestamp t) 0%N)
         [0; 1; 2; 3; 5; 6; 8; 9; 11; 12; 14; 15; 17; 18]%nat
     = firstn 8 t ++ skipn 9 t
  /\ (nth 8 t 0%N = nth 8 u 0%N ->
      formatTimestamp t = formatTimestamp u -> t = u).
Proof.
  intros Ht Hu.
  open_list t 15%nat. open_list u 15%nat.
  repeat split. cbn. intros H8 H. injection H as -> -> -> -> -> -> -> -> -> -> -> -> -> ->.
  now subst.
Qed.

Lemma readable_stamp_keeps_digits_witness :
  List.length (formatTimestamp (lit "20250126_093015")) = 19%nat.
Proof.
  exact (proj1 (@readable_stamp_keeps_digits (lit "20250126_093015")
                  (lit "20250126_093015") eq_refl eq_refl)).
Defined.

Lemma readable_stamp_example :
  formatTimestamp (lit "20250126_093015") = lit "2025-01-26 09:30:15".
Proof. vm_compute. reflexivity. Qed.

End TimestampFacts.

(** ** File operations, recovery, the command line *)

Module WorkspaceFacts.
Import Js Renderer RendererExt Workspace JsFacts JobFacts.

Ltac run_page :=
  unfold saveFile, saveFileAs, Workspace.saved, newFile, openFile, recoverClick,
    updateCurrentFile, onBase, act, setEditorValue, onDidChangeModelContent,
    editorText, getEditorValue, updateSaveStatus, toast, emit, modify, skip,
    exec, bind, get, ret;
  cbn -[apiCalls lit app str_eqb trim].

Lemma tick_on_snapshot_is_silent (s : State) (next : Reply) :
  lastSavedCode s = editorText s -> exec (performAutosave next) s = s.
Proof.
  destruct s as [ed cl jb sv un aa cf sq tm pl lc lr rt ts nt ind st ag ac wt pv lg].
  unfold editorText, getEditorValue, bind, get, ret. cbn. intros ->.
  unfold exec, performAutosave, getEditorValue, bind, get, ret, skip.
  destruct ed as [code|]; [|reflexivity].
  destruct cl; [reflexivity|]. cbn -[str_eqb trim]. now rewrite str_eqb_refl.
Qed.


(** X19: a file call the backend answers with a status other than
    ['success'] is ignored without a word: the call is recorded and nothing
    else on the page changes, whichever of the four operations it was. *)
Theorem refused_file_call_is_ignored
    (p : Page) (fstatus fpath ffilename fcode : jsstring) :
  fstatus <> lit "success" ->
  let reply := FileResolved fstatus fpath ffilename fcode in
  newFile reply p = act (Backend new_file) p
  /\ openFile reply p = act (Backend open_file_dialog) p
  /\ saveFile reply p
     = act (Backend (save_file (editorText (base p)) (currentFile p))) p
  /\ saveFileAs reply p
     = act (Backend (save_file_dialog (editorText (base p)))) p.
Proof.
  intros H. apply str_eqb_neq in H.
  unfold newFile, openFile, saveFile, saveFileAs, Workspace.saved.
  cbv zeta. rewrite H. repeat split.
Qed.

Lemma refused_file_call_is_ignored_witness :
  let p := {| base := Samples.loaded (lit "x"); currentFile := None;
              currentFileElem := Some (lit "Untitled", []);
              recovery := None; terminalInitialized := false; acts := [] |} in
  base (saveFile (FileResolved (lit "error") [] [] []) p) = base p.
Proof.
  exact (f_equal base
           (proj1 (proj2 (proj2
              (@refused_file_call_is_ignored
                 {| base := Samples.loaded (lit "x"); currentFile := None;
                    currentFileElem := Some (lit "Untitled", []);
                    recovery := None; terminalInitialized := false; acts := [] |}
                 (lit "error") [] [] [] ltac:(vm_compute; discriminate)))))).
Defined.

(** X20: recovering the latest autosave, once the backend acknowledges, puts
    the recovered code in the editor and makes it the snapshot, closes the
    dialog and asks the backend for that one record only; the next autosave
    tick does nothing.  When the backend does not acknowledge, the dialog
    stays open and editor and snapshot are untouched. *)
Theorem recovery_restores_latest
    (p : Page) (latest : Autosave) (older : list Autosave)
    (reply : FileReply) (next : Reply) :
  recovery p = Some (latest :: older) ->
  let p' := recoverClick reply p in
  calls (acts p') = calls (acts p) ++ [load_autosave (autosave_file latest)]
  /\ (succeeded reply = true ->
      recovery p' = None
      /\ (forall fstatus fpath ffilename fcode,
            reply = FileResolved fstatus fpath ffilename fcode ->
            lastSavedCode (base p') = fcode
            /\ (editor (base p) <> None -> editor (base p') = Some fcode))
      /\ exec (performAutosave next) (base p') = base p')
  /\ (succeeded reply = false ->
      recovery p' = recovery p
      /\ editor (base p') = editor (base p)
      /\ lastSavedCode (base p') = lastSavedCode (base p)).
Proof.
  destruct p as [s cf elem rec ti ac]. cbn [recovery]. intros ->.
  destruct s as [ed cl jb sv un aa cfl sq tm pl lc lr rt ts nt ind st ag acn wt pv lg].
  split.
  { unfold recoverClick, act, calls, onBase. cbn [recovery acts set_acts].
    destruct reply as [fstatus fpath ffilename fcode|err];
      [destruct (str_eqb fstatus (lit "success"))|];
      cbn; rewrite flat_map_app; reflexivity. }
  destruct reply as [fstatus fpath ffilename fcode|err]; cbn [succeeded].
  - destruct (str_eqb fstatus (lit "success")) eqn:E;
      (split; intros H; [|try discriminate H]; try discriminate H).
    + split; [|split].
      * run_page. rewrite E. reflexivity.
      * intros fs fp ff fc Heq. injection Heq as <- <- <- <-.
        run_page. rewrite E.
        destruct ed; cbn -[lit str_eqb];
          try destruct (str_eqb fcode sv); cbn -[lit];
          (split; [reflexivity|]); intros Hed; congruence.
      * destruct ed as [old|].
        -- apply tick_on_snapshot_is_silent. run_page. rewrite E.
           cbn -[lit str_eqb]. destruct (str_eqb fcode sv); reflexivity.
        -- run_page. rewrite E. reflexivity.
    + run_page. rewrite E. repeat split.
  - split; intros H; [discriminate H|]. run_page. repeat split.
Qed.

Lemma recovery_restores_latest_witness :
  let r := {| autosave_file := lit "autosave_20250126_093015.py";
              timestamp := lit "20250126_093015"; file_path := [] |} in
  let p := {| base := Samples.loaded (lit "x"); currentFile := None;
              currentFileElem := Some (lit "Untitled", []);
              recovery := Some [r]; terminalInitialized := false; acts := [] |} in
  calls (acts (recoverClick (FileResolved (lit "success") [] [] (lit "y")) p))
  = [load_autosave (lit "autosave_20250126_093015.py")].
Proof.
  exact (proj1 (@recovery_restores_latest
                  {| base := Samples.loaded (lit "x"); currentFile := None;
                     currentFileElem := Some (lit "Untitled", []);
                     recovery := Some [{| autosave_file := lit "autosave_20250126_093015.py";
                                          timestamp := lit "20250126_093015";
                                          file_path := [] |}];
                     terminalInitialized := false; acts := [] |}
                  _ _ (FileResolved (lit "success") [] [] (lit "y"))
                  Samples.accepted eq_refl)).
Defined.

Lemma calls_app (l1 l2 : list Act) : calls (l1 ++ l2) = calls l1 ++ calls l2.
Proof. unfold calls. apply flat_map_app. Qed.

Lemma deleteEach_spec (resolves : nat -> bool) (records : list Autosave) :
  forall i p,
    let k := resolvedPrefix resolves i (List.length records) in
    let q := fst (deleteEach resolves i records p) in
    base q = base p
    /\ recovery q = recovery p
    /\ calls (acts q)
       = calls (acts p)
         ++ deletions (firstn (if Nat.eqb k (List.length records) then k else S k)
                              records)
    /\ snd (deleteEach resolves i records p) = Nat.eqb k (List.length records).
Proof.
  induction records as [|r rest IH]; intros i p; cbn [deleteEach resolvedPrefix List.length].
  - cbn. rewrite app_nil_r. repeat split.
  - destruct (resolves i) eqn:E.
    + specialize (IH (S i) (act (Backend (delete_autosave (autosave_file r))) p)).
      cbv zeta in IH. destruct IH as (Hb & Hr & Hc & Ht).
      cbv zeta. rewrite Hb, Hr, Hc, Ht. cbn [Nat.eqb].
      repeat split.
      unfold act. cbn [acts set_acts]. rewrite calls_app. cbn [calls flat_map app].
      rewrite <- app_assoc.
      destruct (Nat.eqb _ _); reflexivity.
    + cbn. repeat split. unfold act. cbn [acts set_acts].
      rewrite calls_app. reflexivity.
Qed.

(** X21: discarding deletes the listed autosaves in the order of the list,
    one call per record, stopping after the first call that fails; the
    dialog closes in either case, the editor text and the snapshot are not
    touched, and no record is loaded.  When every call resolves, every
    record is deleted. *)
Theorem discard_deletes_in_order
    (p : Page) (records : list Autosave) (resolves : nat -> bool) :
  recovery p = Some records ->
  let p' := discardClick resolves p in
  let k := resolvedPrefix resolves 0 (List.length records) in
  recovery p' = None
  /\ editor (base p') = editor (base p)
  /\ lastSavedCode (base p') = lastSavedCode (base p)
  /\ calls (acts p')
     = calls (acts p)
       ++ deletions (firstn (if Nat.eqb k (List.length records) then k else S k)
                            records)
  /\ ((forall i, (i < List.length records)%nat -> resolves i = true) ->
      calls (acts p') = calls (acts p) ++ deletions records).
Proof.
  intros Hrec p' k.
  pose proof (deleteEach_spec resolves records 0 p) as H. cbv zeta in H.
  fold k in H. destruct H as (Hb & Hr & Hc & Ht).
  assert (Hp' : p' = discardClick resolves p) by reflexivity.
  unfold discardClick in Hp'. rewrite Hrec in Hp'.
  destruct (deleteEach resolves 0 records p) as [q through] eqn:E.
  cbn [fst snd] in *.
  assert (Hq : recovery p' = None /\ editor (base p') = editor (base q)
               /\ lastSavedCode (base p') = lastSavedCode (base q)
               /\ acts p' = acts q).
  { rewrite Hp'. destruct through; repeat split. }
  destruct Hq as (Q1 & Q2 & Q3 & Q4).
  rewrite Q2, Q3, Q4, Hb, Hc.
  split; [exact Q1|]. repeat split.
  intros Hall. f_equal. f_equal.
  assert (Hk : forall n i, (forall j, (j < i + n)%nat -> resolves j = true) ->
                           resolvedPrefix resolves i n = n).
  { induction n as [|n IHn]; intros i Hi; [reflexivity|].
    cbn. rewrite Hi by lia. f_equal. apply IHn. intros j Hj. apply Hi. lia. }
  subst k. rewrite (Hk _ 0%nat) by (intros j Hj; apply Hall; lia).
  rewrite Nat.eqb_refl. apply firstn_all.
Qed.

Lemma discard_deletes_in_order_witness :
  let r1 := {| autosave_file := lit "a1.py"; timestamp := []; file_path := [] |} in
  let r2 := {| autosave_file := lit "a2.py"; timestamp := []; file_path := [] |} in
  let r3 := {| autosave_file := lit "a3.py"; timestamp := []; file_path := [] |} in
  let p := {| base := Samples.loaded (lit "x"); currentFile := None;
              currentFileElem := None; recovery := Some [r1; r2; r3];
              terminalInitialized := false; acts := [] |} in
  calls (acts (discardClick (fun i => Nat.eqb i 0) p))
  = [delete_autosave (lit "a1.py"); delete_autosave (lit "a2.py")].
Proof.
  exact (proj1 (proj2 (proj2 (proj2
    (@discard_deletes_in_order
       {| base := Samples.loaded (lit "x"); currentFile := None;
          currentFileElem := None;
          recovery := Some [{| autosave_file := lit "a1.py"; timestamp := [];
                               file_path := [] |};
                            {| autosave_file := lit "a2.py"; timestamp := [];
                               file_path := [] |};
                            {| autosave_file := lit "a3.py"; timestamp := [];
                               file_path := [] |}];
          terminalInitialized := false; acts := [] |}
       _ (fun i => Nat.eqb i 0) eq_refl))))).
Defined.

Lemma onBase_acts (m : M unit) (p : Page) : acts (onBase m p) = acts p.
Proof. reflexivity. Qed.

Lemma help_keeps_acts (lines : list jsstring) :
  forall p,
    acts (fold_left (fun p line => onBase (appendConsole line (lit "info")) p)
                    lines p) = acts p.
Proof. induction lines as [|l ls IH]; intros p; simpl; [reflexivity|]. now rewrite IH. Qed.

(** X22: the command line sends a command to the backend unless it is blank
    or one of the two local commands: a blank command changes nothing at
    all, [clear] and [help] are answered on the page without any backend
    call, and every other command is sent exactly once and verbatim. *)
Theorem command_line_dispatch (command : jsstring) (reply : Reply) (p : Page) :
  let p' := executeCommand command reply p in
  (trim command = [] -> p' = p)
  /\ (command = lit "clear" \/ command = lit "help" ->
      calls (acts p') = calls (acts p))
  /\ (trim command <> [] -> command <> lit "clear" -> command <> lit "help" ->
      calls (acts p') = calls (acts p) ++ [execute_command command]).
Proof.
  cbv zeta. unfold executeCommand. split; [|split].
  - intros ->. reflexivity.
  - intros [-> | ->].
    + vm_compute (negb (truthy (trim (lit "clear")))). cbv iota.
      rewrite str_eqb_refl. unfold readyStatus, clearConsole.
      destruct p as [s cf elem rec ti ac].
      destruct s as [ed cl [rn ty] sv un aa cfl sq tm pl lc lr rt ts nt ind st ag acn wt pv lg].
      destruct rn, tm; cbn -[calls lit];
        rewrite ?calls_app; cbn [calls flat_map app]; rewrite ?app_nil_r;
        reflexivity.
    + vm_compute (negb (truthy (trim (lit "help")))). cbv iota.
      vm_compute (str_eqb (lit "help") (lit "clear")). cbv iota.
      rewrite str_eqb_refl. unfold readyStatus.
      match goal with
      | |- context [fold_left ?f ?l p] =>
          pose proof (help_keeps_acts l p) as Hh; set (q := fold_left f l p) in *
      end.
      destruct (running (job (base q))); cbn [acts onBase set_base];
        now rewrite Hh.
  - intros Hb Hc Hh.
    assert (Ht : truthy (trim command) = true)
      by (destruct (trim command) eqn:Et; [now elim Hb | reflexivity]).
    apply str_eqb_neq in Hc, Hh. rewrite Ht, Hc, Hh. cbn [negb].
    destruct reply as [res|err];
      [destruct (str_eqb (status res) (lit "error") && truthy (message res));
       [|destruct (startsWith (lit "pip ") command)]|];
      cbn [acts onBase act set_base set_acts];
      rewrite ?calls_app; cbn [calls flat_map app]; rewrite ?app_nil_r;
      reflexivity.
Qed.

Lemma command_line_dispatch_witness :
  let p := {| base := Samples.withTerminal; currentFile := None;
              currentFileElem := None; recovery := None;
              terminalInitialized := true; acts := [] |} in
  calls (acts (executeCommand (lit "pip list") Samples.accepted p))
  = [execute_command (lit "pip list")].
Proof.
  refine (proj2 (proj2 (@command_line_dispatch (lit "pip list") Samples.accepted
            {| base := Samples.withTerminal; currentFile := None;
               currentFileElem := None; recovery := None;
               terminalInitialized := true; acts := [] |})) _ _ _);
    vm_compute; discriminate.
Defined.

(** X23: however often the start of the terminal is tried, the terminal is
    created once, at the first try that finds the widget constructor; tries
    before it and all tries after it change nothing. *)
Theorem terminal_starts_once (p : Page) (tries : list bool) :
  terminalInitialized p = false ->
  fold_left (fun p available => tryInitTerminal available p) tries p
  = if existsb (fun available => available) tries
    then tryInitTerminal true p
    else p.
Proof.
  intros H. induction tries as [|[|] tries IH] in p, H |- *; cbn [fold_left existsb orb].
  - reflexivity.
  - assert (Hi : terminalInitialized (tryInitTerminal true p) = true)
      by (unfold tryInitTerminal; rewrite H; reflexivity).
    clear IH. generalize dependent (tryInitTerminal true p).
    intros q Hq. induction tries as [|b tries IH]; cbn; [reflexivity|].
    unfold tryInitTerminal at 2. rewrite Hq. exact IH.
  - unfold tryInitTerminal at 2. rewrite H. cbn. apply IH. exact H.
Qed.

Lemma terminal_starts_once_witness :
  let p := {| base := Samples.loaded (lit "x"); currentFile := None;
              currentFileElem := None; recovery := None;
              terminalInitialized := false; acts := [] |} in
  fold_left (fun p available => tryInitTerminal available p)
            [false; true; true] p
  = tryInitTerminal true p.
Proof.
  exact (@terminal_starts_once
           {| base := Samples.loaded (lit "x"); currentFile := None;
              currentFileElem := None; recovery := None;
              terminalInitialized := false; acts := [] |}
           [false; true; true] eq_refl).
Defined.

End WorkspaceFacts.

(** ** The render controls of [script.js] *)

Module ScriptUiFacts.
Import Js Script ScriptUi JsFacts ScriptFacts.

Lemma addOutput_bounded (message kind t : jsstring) (children : list Line) :
  (List.length (addOutput message kind t children) <= 500)%nat.
Proof. unfold addOutput. rewrite limitLines_skipn, length_skipn. lia. Qed.

Ltac run_ui :=
  unfold step, saveFile_reply, saveFile, saveFileAs, saveCurrent,
    renderAnimation, renderAnimation_reply, quickPreview, quickPreview_reply,
    stopRender, stopRender_reply, newFile, newFile_reply, fileOpened,
    update_render_output, render_completed, render_failed, preview_completed,
    preview_failed, clearOutput, toggleTheme, saveSettingsClick,
    saveSettings_reply, applySettings, loadMediaList, setStatus,
    showProgress, hideProgress, showStopButton, hideStopButton, showToast, send,
    out.

Lemma consistent_step (u : Ui) (e : Event) :
  consistent u -> consistent (step u e).
Proof.
  pose proof addOutput_bounded as K.
  unfold consistent.
  destruct u as [o st sr pg sp rn cf ev th ap ti sn ts].
  cbn [output stopShown renderShown progressShown].
  intros (Hout & Hstop & Hprog).
  destruct e as [quality fps t | t [ds dm] | t | t [ds dm] | | t [ds dm]
                | answer | t tp [ds dm] | | t [ds dm] code
                | path name content t | text | line t | t | error t
                | t | error t | | | auto themeValue | t [ds dm]];
    run_ui; cbn -[addOutput str_eqb lit];
    try destruct (str_eqb ds (lit "success"));
    try destruct cf as [[|c f]|];
    try destruct answer as [[|c' f']|];
    try destruct ap;
    cbn -[addOutput str_eqb lit];
    repeat split; try assumption; try reflexivity; try apply K;
    try (cbn; lia).
Qed.

(** X24: the page stays consistent over any sequence of clicks, edits and
    bridge callbacks, in whatever order the callbacks arrive: the console
    never holds more than 500 lines, and the stop button and the progress
    section are visible exactly while the render button is hidden. *)
Theorem page_stays_consistent (u : Ui) (es : list Event) :
  consistent u -> consistent (run u es).
Proof.
  unfold run. revert u.
  induction es as [|e es IH]; intros u H; [exact H|].
  cbn [fold_left]. apply IH, consistent_step, H.
Qed.

Lemma page_stays_consistent_witness :
  consistent
    (run idlePage
       [RenderClick (lit "720p") (Some 30%Z) (lit "12:00:00");
        StopClick;
        RenderReply (lit "12:00:01") {| dstatus := lit "success"; dmessage := [] |};
        RenderOutput (lit "frame 1") (lit "12:00:02");
        StopReply (lit "12:00:03") {| dstatus := lit "error"; dmessage := [] |};
        RenderCompleted (lit "12:00:04")]).
Proof.
  apply page_stays_consistent.
  unfold consistent. simpl. repeat split. lia.
Defined.

(** X25: whatever the page shows, the end of a render (the completion or
    failure callback, a start the backend refuses, or a stop it
    acknowledges) brings the controls back to idle: the stop button and the
    progress section are hidden, the render button is shown and the status
    reads Ready without the rendering mark. *)
Theorem end_of_render_restores_controls (u : Ui) (e : Event) :
  endsRender e = true ->
  let u' := step u e in
  stopShown u' = false /\ renderShown u' = true /\ progressShown u' = false
  /\ statusText u' = lit "Ready" /\ statusRendering u' = false.
Proof.
  destruct e as [quality fps t | t [ds dm] | t | t [ds dm] | | t [ds dm]
                | answer | t tp [ds dm] | | t [ds dm] code
                | path name content t | text | line t | t | error t
                | t | error t | | | auto themeValue | t [ds dm]];
    cbn [endsRender dstatus];
    intros H; try discriminate H; run_ui; cbn -[addOutput str_eqb lit];
    try (apply negb_true_iff in H);
    rewrite ?H; cbn -[addOutput str_eqb lit]; repeat split.
Qed.

Lemma end_of_render_restores_controls_witness :
  let u := step idlePage (RenderClick (lit "720p") (Some 30%Z) (lit "12:00:00")) in
  stopShown u = true
  /\ stopShown (step u (RenderFailed (lit "boom") (lit "12:00:02"))) = false.
Proof.
  split; [reflexivity|].
  exact (proj1 (@end_of_render_restores_controls
                  (step idlePage
                     (RenderClick (lit "720p") (Some 30%Z) (lit "12:00:00")))
                  (RenderFailed (lit "boom") (lit "12:00:02")) eq_refl)).
Defined.

(** X26: a save without a current file asks for a name.  A dismissed prompt
    or an empty name sends nothing and leaves the page as it is; a name
    becomes the current file and the editor text is sent under it, in one
    [save_file] call. *)
Theorem save_asks_for_name_once (u : Ui) (answer : option jsstring) :
  currentFile u = None ->
  let u' := saveFile answer u in
  match answer with
  | Some (c :: name) =>
      currentFile u' = Some (c :: name)
      /\ sent u' = sent u ++ [save_file (c :: name) (editorValue u)]
  | _ => u' = u
  end.
Proof.
  destruct u as [o st sr pg sp rn cf ev th ap ti sn ts].
  cbn [currentFile]. intros ->. cbv zeta.
  destruct answer as [[|c name]|]; try reflexivity.
  split; reflexivity.
Qed.

Lemma save_asks_for_name_once_witness :
  sent (saveFile (Some (lit "scene.py")) idlePage)
  = [save_file (lit "scene.py") (lit "x")].
Proof.
  exact (proj2 (@save_asks_for_name_once idlePage (Some (lit "scene.py"))
                  eq_refl)).
Defined.

(** X27: the page never asks the backend to save under an empty file name,
    whatever is clicked, typed, opened or answered to the prompt. *)
Theorem never_saves_under_empty_name (u : Ui) (es : list Event) :
  Forall named (sent u) -> Forall named (sent (run u es)).
Proof.
  unfold run. revert u.
  induction es as [|e es IH]; intros u H; [exact H|].
  cbn [fold_left]. apply IH. clear IH.
  destruct u as [o st sr pg sp rn cf ev th ap ti sn ts].
  cbn [sent] in H.
  destruct e as [quality fps t | t [ds dm] | t | t [ds dm] | | t [ds dm]
                | answer | t tp [ds dm] | | t [ds dm] code
                | path name content t | text | line t | t | error t
                | t | error t | | | auto themeValue | t [ds dm]];
    run_ui; cbn -[addOutput str_eqb lit];
    try destruct (str_eqb ds (lit "success"));
    try destruct cf as [[|c f]|];
    try destruct answer as [[|c' f']|];
    try destruct ap;
    cbn -[addOutput str_eqb lit];
    try assumption;
    apply Forall_app; (split; [assumption|]);
    repeat constructor; discriminate.
Qed.

Lemma never_saves_under_empty_name_witness :
  Forall named
    (sent (run idlePage
             [SaveClick (Some []); FileOpened (Some []) [] (lit "y") (lit "12:00:00");
              SaveClick None; SaveClick (Some (lit "a.py"))])).
Proof.
  apply never_saves_under_empty_name. constructor.
Defined.

(** X28: the preview that a successful save starts when [autoPreview] is on
    renders the text the editor holds when the reply arrives: text typed
    between the save and its reply is previewed although it was not saved. *)
Theorem preview_after_save_uses_current_text
    (u : Ui) (answer : option jsstring) (c : N) (file text t tp : jsstring)
    (data : Data) :
  currentFile u = Some (c :: file) ->
  autoPreview u = true ->
  dstatus data = lit "success" ->
  sent (run u [SaveClick answer; Typed text; SaveReply t tp data])
  = sent u ++ [save_file (c :: file) (editorValue u); quick_preview text].
Proof.
  destruct u as [o st sr pg sp rn cf ev th ap ti sn ts], data as [ds dm].
  cbn [currentFile autoPreview dstatus]. intros -> -> ->.
  unfold run. cbn [fold_left]. run_ui. cbn -[addOutput lit app].
  now rewrite <- app_assoc.
Qed.

Lemma preview_after_save_uses_current_text_witness :
  sent (run (set_autoPreview true (set_currentFile (Some (lit "a.py")) idlePage))
          [SaveClick None; Typed (lit "y");
           SaveReply (lit "12:00:00") (lit "12:00:00")
             {| dstatus := lit "success"; dmessage := [] |}])
  = [save_file (lit "a.py") (lit "x"); quick_preview (lit "y")].
Proof.
  exact (@preview_after_save_uses_current_text
           (set_autoPreview true (set_currentFile (Some (lit "a.py")) idlePage))
           None _ _ (lit "y") (lit "12:00:00") (lit "12:00:00")
           {| dstatus := lit "success"; dmessage := [] |}
           eq_refl eq_refl eq_refl).
Defined.

(** A click on the theme button always lands on one of the two themes
    with its icon (monokai with the moon, default with the sun), whatever
    theme the settings held before; from then on two more clicks restore
    the theme and the icon. *)
Theorem theme_toggle_round_trip (u : Ui) :
  let u1 := toggleTheme u in
  (theme u1 = lit "monokai" /\ themeIcon u1 = lit "fas fa-moon"
   \/ theme u1 = lit "default" /\ themeIcon u1 = lit "fas fa-sun")
  /\ theme (toggleTheme (toggleTheme u1)) = theme u1
  /\ themeIcon (toggleTheme (toggleTheme u1)) = themeIcon u1.
Proof.
  unfold toggleTheme, applySettings, send. cbn -[str_eqb lit].
  destruct (str_eqb (theme u) (lit "monokai")).
  - split; [right; split; reflexivity | split; reflexivity].
  - split; [left; split; reflexivity | split; reflexivity].
Qed.

End ScriptUiFacts.

(** ** Row type and preview in [simple_assets.js] *)

Module AssetRowsFacts.
Import Js AssetRows JsFacts.

Lemma inArray_In (x : jsstring) (arr : list jsstring) :
  inArray x arr = true -> In x arr.
Proof.
  unfold inArray. intros H. apply existsb_exists in H as [y [Hin Hy]].
  apply str_eqb_eq in Hy. now subst y.
Qed.

Lemma previewFor_type (ext : jsstring) (filepath filename : jsstring)
    (vr : VideoReply) (ir : ImageReply) (c : Container) :
  shownAs (previewFor ext true filepath filename vr ir c)
  = if str_eqb ext (lit "gif") then lit "video" else getCardType ext.
Proof.
  destruct (inArray ext knownExts) eqn:E.
  - apply inArray_In in E. unfold knownExts in E. cbn [In] in E.
    repeat (destruct E as [<-|E];
            [destruct vr as [vs du|], ir as [b|];
             try (unfold previewFor; cbn -[str_eqb lit app];
                  vm_compute (inArray _ _); cbv iota;
                  try destruct (str_eqb vs (lit "success")));
             vm_compute; reflexivity|]).
    contradiction.
  - unfold inArray, knownExts in E. cbn [existsb] in E.
    repeat (apply orb_false_iff in E as [? E]).
    unfold previewFor, getCardType, inArray. cbn [existsb].
    repeat match goal with
           | H : str_eqb ext _ = false |- _ => rewrite H; clear H
           end.
    reflexivity.
Qed.

(** X29: the row of a file and its preview agree on the kind of the file
    (video, image, audio, font, or other) for every extension but [gif]: a
    gif row is styled as an image and previewed through the video player. *)
Theorem row_type_matches_preview
    (toLowerCase : jsstring -> jsstring) (filepath filename : jsstring)
    (vr : VideoReply) (ir : ImageReply) (c : Container) :
  let ext := toLowerCase (lastSegment isDot filename) in
  shownAs (showPreviewInAssetsTab toLowerCase true filepath filename vr ir c)
  = (if str_eqb ext (lit "gif") then lit "video" else getCardType ext)
  /\ getCardType (lit "gif") = lit "image".
Proof.
  split; [apply previewFor_type | vm_compute; reflexivity].
Qed.

End AssetRowsFacts.

(** ** The upload handlers *)

Module UploadFacts.
Import Js Upload JsFacts.

(** X30: both upload handlers hand to the backend only paths that a
    successful selection returned, in one [add_assets] call, and reload the
    asset list only after the backend acknowledged that call.  The drop
    zone of [new_features.js] sends nothing for an empty selection or
    without the bridge; the upload button of [simple_assets.js] sends the
    empty list too. *)
Theorem uploads_send_the_selection
    (available refreshDefined : bool) (sel : Selection) (add : AddReply) :
  let dropZone := openFileDialogAndUpload available sel add refreshDefined in
  let button := uploadAssets sel add in
  sentPaths dropZone
  = match chosenPaths sel with
    | Some (path :: paths) => if available then [path :: paths] else []
    | _ => []
    end
  /\ sentPaths button
     = match chosenPaths sel with
       | Some paths => [paths]
       | None => []
       end
  /\ (reloads dropZone = true -> added_ok add = true)
  /\ (reloads button = true -> added_ok add = true).
Proof.
  cbv zeta. unfold openFileDialogAndUpload, uploadAssets, uploadFiles, chosenPaths.
  destruct available, sel as [[[cs [[|p ps]|]]|]|err];
    cbn -[str_eqb lit app printed];
    try destruct (str_eqb cs (lit "success"));
    cbn -[str_eqb lit app printed];
    destruct add as [ast added am [|er ers]|aerr];
    cbn -[str_eqb lit app printed];
    try destruct (str_eqb ast (lit "success"));
    try destruct refreshDefined;
    cbn -[str_eqb lit app printed];
    repeat split; intros; try reflexivity; try discriminate.
Qed.

End UploadFacts.
